(** * LED web control backend: device reconciliation and inventory store

    A shallow embedding of the Python backend
    ([backend/app/utils/device_manager.py], [esp32_client.py],
    [file_helpers.py] and the power route of [backend/app/api/devices.py])
    together with the properties its specification states about it.

    Python values are the values [json.load] produces.  Numbers are
    integers (LED counts, indices, brightness); fractional numbers are
    outside the model.  Text is ASCII.  Every Python exception is an
    explicit [Raise]; every [try/except Exception] is an explicit handler. *)

From Stdlib Require Import ZArith List String Ascii Bool Lia.
From Stdlib Require Import DecimalString.
From Stdlib Require DecimalPos.
Import ListNotations.

Set Warnings "-register-all".
Local Open Scope string_scope.
Local Open Scope Z_scope.

(* ================================================================== *)
(** ** Python values, exceptions and the built-ins the code relies on *)
(* ================================================================== *)

Module Py.

Inductive pyval : Type :=
| PNone : pyval
| PBool : bool -> pyval
| PInt : Z -> pyval
| PStr : string -> pyval
| PList : list pyval -> pyval
| PDict : list (string * pyval) -> pyval.

Definition pydict := list (string * pyval).

(** The exceptions the code raises or catches by class; every one is an
    [Exception].  The last five are the classes of [esp32_errors.py]
    with the message they were raised with: [ESP32Error] and, derived
    from it, the four others.  The client's own methods raise none of
    them, but a replaced method may. *)
Inductive exn : Type :=
| AttributeError | TypeError | ValueError | KeyError | IndexError
| RuntimeError | JSONDecodeError | FileExistsError
| ESP32Error (msg : string)
| ESP32ConnectionError (msg : string)
| ESP32TimeoutError (msg : string)
| ESP32InvalidResponseError (msg : string)
| ESP32DeviceNotFoundError (msg : string).

Inductive res (A : Type) : Type :=
| Ok : A -> res A
| Raise : exn -> res A.
Arguments Ok {A} _.
Arguments Raise {A} _.

Definition rbind {A B} (m : res A) (k : A -> res B) : res B :=
  match m with Ok a => k a | Raise e => Raise e end.

Declare Scope res_scope.
Delimit Scope res_scope with res.
Notation "x <- m ;; k" := (rbind m (fun x => k))
  (at level 61, m at next level, right associativity) : res_scope.

(** [try: m except Exception: h] *)
Definition rtry {A} (m : res A) (h : res A) : res A :=
  match m with Ok a => Ok a | Raise _ => h end.

(** Truth value of an object ([if x], [not x], [x or y]). *)
Definition truthy (v : pyval) : bool :=
  match v with
  | PNone => false
  | PBool b => b
  | PInt z => negb (z =? 0)
  | PStr s => negb (String.eqb s "")
  | PList l => match l with [] => false | _ => true end
  | PDict d => match d with [] => false | _ => true end
  end.

(** [a or b] when [b] cannot raise. *)
Definition por (a b : pyval) : pyval := if truthy a then a else b.

Definition is_none (v : pyval) : bool :=
  match v with PNone => true | _ => false end.
Definition isinstance_dict (v : pyval) : bool :=
  match v with PDict _ => true | _ => false end.
Definition isinstance_list (v : pyval) : bool :=
  match v with PList _ => true | _ => false end.
Definition isinstance_str (v : pyval) : bool :=
  match v with PStr _ => true | _ => false end.
(** [isinstance(v, int)]: [bool] is a subclass of [int]. *)
Definition isinstance_int (v : pyval) : bool :=
  match v with PInt _ | PBool _ => true | _ => false end.

Fixpoint assoc {V} (k : string) (d : list (string * V)) : option V :=
  match d with
  | [] => None
  | (k', v) :: r => if String.eqb k k' then Some v else assoc k r
  end.

(** [d.get(k)] on a dict. *)
Definition dget (d : pydict) (k : string) : pyval :=
  match assoc k d with Some v => v | None => PNone end.

(** [d[k] = v]: an existing key keeps its position, a new key goes last. *)
Fixpoint dset (d : pydict) (k : string) (v : pyval) : pydict :=
  match d with
  | [] => [(k, v)]
  | (k', v') :: r =>
      if String.eqb k k' then (k, v) :: r else (k', v') :: dset r k v
  end.

(** [x.get(k, default)]: only dicts have [get]. *)
Definition get_default (x : pyval) (k : string) (dflt : pyval) : res pyval :=
  match x with
  | PDict d => Ok (match assoc k d with Some v => v | None => dflt end)
  | _ => Raise AttributeError
  end.

Definition get (x : pyval) (k : string) : res pyval := get_default x k PNone.

Definition chars (s : string) : list pyval :=
  map (fun c => PStr (String c EmptyString)) (list_ascii_of_string s).

(** [len(x)] *)
Definition len (x : pyval) : res Z :=
  match x with
  | PStr s => Ok (Z.of_nat (String.length s))
  | PList l => Ok (Z.of_nat (List.length l))
  | PDict d => Ok (Z.of_nat (List.length d))
  | _ => Raise TypeError
  end.

(** [for e in x] *)
Definition iter (x : pyval) : res (list pyval) :=
  match x with
  | PList l => Ok l
  | PStr s => Ok (chars s)
  | PDict d => Ok (map (fun kv => PStr (fst kv)) d)
  | _ => Raise TypeError
  end.

(** [x[i]] for a non-negative literal index [i]; the keys of a parsed
    JSON object are strings, so an integer subscript of a dict is a
    [KeyError]. *)
Definition subscript (x : pyval) (i : nat) : res pyval :=
  match x with
  | PList l => match nth_error l i with Some v => Ok v | None => Raise IndexError end
  | PStr s => match nth_error (chars s) i with Some v => Ok v | None => Raise IndexError end
  | PDict _ => Raise KeyError
  | _ => Raise TypeError
  end.

Definition is_substring (k s : string) : bool :=
  match String.index 0 k s with Some _ => true | None => false end.

(** ['k' in x] for a string literal [k]. *)
Definition contains (k : string) (x : pyval) : res bool :=
  match x with
  | PDict d => Ok (match assoc k d with Some _ => true | None => false end)
  | PList l =>
      Ok (existsb (fun e => match e with PStr s => String.eqb s k | _ => false end) l)
  | PStr s => Ok (is_substring k s)
  | _ => Raise TypeError
  end.

(** The numeric value of an [int] (or [bool]) object. *)
Definition as_int (v : pyval) : option Z :=
  match v with
  | PInt z => Some z
  | PBool b => Some (if b then 1 else 0)
  | _ => None
  end.

(** [a > b] between numbers; ordering anything else against a number is a
    [TypeError]. *)
Definition gt (a b : pyval) : res bool :=
  match as_int a, as_int b with
  | Some x, Some y => Ok (y <? x)
  | _, _ => Raise TypeError
  end.

(** [a >= b] *)
Definition ge (a b : pyval) : res bool :=
  match as_int a, as_int b with
  | Some x, Some y => Ok (y <=? x)
  | _, _ => Raise TypeError
  end.

(** *** Strings *)

(** ASCII white space of [str.strip()]. *)
Definition is_space (c : ascii) : bool :=
  let n := nat_of_ascii c in
  ((9 <=? n) && (n <=? 13) || (28 <=? n) && (n <=? 32))%nat.

(** White space skipped by [int(text, base)] around an ASCII literal. *)
Definition is_int_space (c : ascii) : bool :=
  let n := nat_of_ascii c in
  ((9 <=? n) && (n <=? 13) || (n =? 32))%nat.

Fixpoint drop_while (p : ascii -> bool) (l : list ascii) : list ascii :=
  match l with
  | [] => []
  | c :: r => if p c then drop_while p r else l
  end.

Definition strip_with (p : ascii -> bool) (l : list ascii) : list ascii :=
  rev (drop_while p (rev (drop_while p l))).

(** [s.strip()] *)
Definition strip (s : string) : string :=
  string_of_list_ascii (strip_with is_space (list_ascii_of_string s)).

(** [s.lstrip('#')] *)
Definition lstrip_hash (s : string) : string :=
  string_of_list_ascii
    (drop_while (fun c => Ascii.eqb c "#"%char) (list_ascii_of_string s)).

(** [''.join([c*2 for c in s])] *)
Fixpoint double_chars (s : string) : string :=
  match s with
  | EmptyString => EmptyString
  | String c r => String c (String c (double_chars r))
  end.

Definition digit_value (c : ascii) : option Z :=
  let n := Z.of_nat (nat_of_ascii c) in
  if (48 <=? n) && (n <=? 57) then Some (n - 48)
  else if (97 <=? n) && (n <=? 122) then Some (n - 87)
  else if (65 <=? n) && (n <=? 90) then Some (n - 55)
  else None.

(** Digits of an integer literal: single underscores may separate digits,
    none may lead or trail, and there is at least one digit. *)
Fixpoint parse_digits (base : Z) (cs : list ascii) (acc : Z)
  (after_underscore seen_digit : bool) : option Z :=
  match cs with
  | [] => if after_underscore || negb seen_digit then None else Some acc
  | c :: r =>
      if Ascii.eqb c "_"%char then
        if after_underscore || negb seen_digit then None
        else parse_digits base r acc true seen_digit
      else
        match digit_value c with
        | Some d =>
            if d <? base then parse_digits base r (acc * base + d) false true
            else None
        | None => None
        end
  end.

Definition drop_prefix16 (base : Z) (cs : list ascii) : list ascii :=
  if base =? 16 then
    match cs with
    | c0 :: c1 :: r =>
        if Ascii.eqb c0 "0"%char
           && (Ascii.eqb c1 "x"%char || Ascii.eqb c1 "X"%char)
        then match r with
             | u :: r' => if Ascii.eqb u "_"%char then r' else r
             | [] => r
             end
        else cs
    | _ => cs
    end
  else cs.

(** [int(s, base)] for [base] 10 or 16: surrounding white space, one
    optional sign, for base 16 an optional [0x] prefix, then the digits.
    [None] stands for [ValueError]. *)
Definition int_of_str (base : Z) (s : string) : option Z :=
  let cs := strip_with is_int_space (list_ascii_of_string s) in
  let '(neg, body) :=
    match cs with
    | c :: r =>
        if Ascii.eqb c "-"%char then (true, r)
        else if Ascii.eqb c "+"%char then (false, r)
        else (false, cs)
    | [] => (false, cs)
    end in
  match parse_digits base (drop_prefix16 base body) 0 false false with
  | Some n => Some (if neg then - n else n)
  | None => None
  end.

(** [int(x)] *)
Definition int (x : pyval) : res Z :=
  match x with
  | PInt z => Ok z
  | PBool b => Ok (if b then 1 else 0)
  | PStr s => match int_of_str 10 s with Some z => Ok z | None => Raise ValueError end
  | _ => Raise TypeError
  end.

(** Keys of the in-memory dictionaries: [True == 1] and [False == 0] as
    keys; lists and dicts are unhashable. *)
Inductive key : Type :=
| KNone : key
| KInt : Z -> key
| KStr : string -> key.

Definition key_eqb (a b : key) : bool :=
  match a, b with
  | KNone, KNone => true
  | KInt x, KInt y => x =? y
  | KStr x, KStr y => String.eqb x y
  | _, _ => false
  end.

Definition hash_key (v : pyval) : res key :=
  match v with
  | PNone => Ok KNone
  | PBool b => Ok (KInt (if b then 1 else 0))
  | PInt z => Ok (KInt z)
  | PStr s => Ok (KStr s)
  | _ => Raise TypeError
  end.

Fixpoint klookup {V} (k : key) (d : list (key * V)) : option V :=
  match d with
  | [] => None
  | (k', v) :: r => if key_eqb k k' then Some v else klookup k r
  end.

Fixpoint kset {V} (d : list (key * V)) (k : key) (v : V) : list (key * V) :=
  match d with
  | [] => [(k, v)]
  | (k', v') :: r =>
      if key_eqb k k' then (k', v) :: r else (k', v') :: kset r k v
  end.

(** *** Code that both raises and changes state *)

Definition M (S A : Type) : Type := S -> res A * S.

Definition mret {S A} (a : A) : M S A := fun s => (Ok a, s).
Definition mlift {S A} (r : res A) : M S A := fun s => (r, s).
Definition mbind {S A B} (m : M S A) (k : A -> M S B) : M S B :=
  fun s => match m s with
           | (Ok a, s') => k a s'
           | (Raise e, s') => (Raise e, s')
           end.
(** [try: m except Exception: h]: the handler starts from the state the
    failed block left behind. *)
Definition mtry {S A} (m : M S A) (h : M S A) : M S A :=
  fun s => match m s with
           | (Ok a, s') => (Ok a, s')
           | (Raise _, s') => h s'
           end.
(** [try: m except Exception as e: h e] *)
Definition mcatch {S A} (m : M S A) (h : exn -> M S A) : M S A :=
  fun s => match m s with
           | (Ok a, s') => (Ok a, s')
           | (Raise e, s') => h e s'
           end.
Definition mget {S} : M S S := fun s => (Ok s, s).
Definition mmodify {S} (f : S -> S) : M S unit := fun s => (Ok tt, f s).

Declare Scope m_scope.
Delimit Scope m_scope with M.
Notation "x <- m ;; k" := (mbind m (fun x => k))
  (at level 61, m at next level, right associativity) : m_scope.

Fixpoint foldM {A B} (f : A -> B -> res A) (l : list B) (a : A) : res A :=
  match l with
  | [] => Ok a
  | b :: r => rbind (f a b) (foldM f r)
  end.

End Py.
Export Py.

(* ================================================================== *)
(** ** [file_helpers.py]: the inventory store                          *)
(* ================================================================== *)

Module file_helpers.

(** What [json.load] makes of a file's bytes: a document, or nothing it
    can parse (an empty, truncated or foreign file). *)
Inductive file : Type :=
| Doc : pyval -> file
| NotJson : file.

Definition filesystem := list (string * file).

Fixpoint fs_set (fs : filesystem) (p : string) (f : file) : filesystem :=
  match fs with
  | [] => [(p, f)]
  | (q, g) :: r => if String.eqb p q then (q, f) :: r else (q, g) :: fs_set r p f
  end.

Fixpoint fs_remove (fs : filesystem) (p : string) : filesystem :=
  match fs with
  | [] => []
  | (q, g) :: r => if String.eqb p q then fs_remove r p else (q, g) :: fs_remove r p
  end.

Definition path_exists (fs : filesystem) (p : string) : bool :=
  match assoc p fs with Some _ => true | None => false end.

(** [load_json_file(path)] *)
Definition load_json_file (fs : filesystem) (path : string) : res pyval :=
  if negb (path_exists fs path) then Ok PNone
  else match assoc path fs with
       | Some (Doc j) => Ok j
       | _ => Raise JSONDecodeError
       end.

(** [load_network_devices()] at the path of the data file. *)
Definition load_network_devices (fs : filesystem) (path : string) : res pyval :=
  if path_exists fs path then
    match assoc path fs with
    | Some (Doc j) => Ok j
    | _ => Raise JSONDecodeError
    end
  else Ok (PDict [("zones", PList [])]).

(** *** Paths ([os.path], POSIX flavour) *)

Definition is_slash (c : ascii) : bool := Ascii.eqb c "/"%char.
Definition not_slash (c : ascii) : bool := negb (is_slash c).

Definition basename (p : string) : string :=
  let r := rev (list_ascii_of_string p) in
  string_of_list_ascii (rev (firstn (List.length r - List.length (drop_while not_slash r)) r)).

Definition dirname (p : string) : string :=
  let head := drop_while not_slash (rev (list_ascii_of_string p)) in
  if forallb is_slash head then string_of_list_ascii (rev head)
  else string_of_list_ascii (rev (drop_while is_slash head)).

Definition ends_with_slash (a : string) : bool :=
  match rev (list_ascii_of_string a) with c :: _ => is_slash c | [] => false end.

Definition join (a b : string) : string :=
  match b with
  | String c _ =>
      if is_slash c then b
      else if String.eqb a "" || ends_with_slash a then String.append a b
      else String.append a (String "/" b)
  | EmptyString =>
      if String.eqb a "" || ends_with_slash a then a else String.append a "/"
  end.

(** *** The write path, as a sequence of observable file operations *)

Inductive event : Type :=
| EOpenExcl (p : string) (created : bool)   (* os.open(p, O_CREAT|O_EXCL|O_WRONLY) *)
| ESleep (ms : Z)                           (* time.sleep *)
| EOpenW (p : string)                       (* open(p, "w"): create or truncate *)
| EDump (p : string) (data : pyval)         (* json.dump(data, f) *)
| EFlush (p : string)
| EFsync (p : string)
| EClose (p : string)
| EReplace (src dst : string)               (* os.replace(src, dst) *)
| ERemove (p : string).                     (* os.remove(p) *)

(** The store as one process sees it: the files, the clock in
    milliseconds, and every operation done so far paired with the files
    as they were right after it.  Only this process acts: a lock file
    left by another writer stays where it is, and time passes only in
    [time.sleep]. *)
Record io : Type := mkIO {
  files : filesystem;
  clock : Z;
  trace : list (event * filesystem)
}.

Definition emit (ev : event) (fs : filesystem) (s : io) : io :=
  mkIO fs (clock s) (trace s ++ [(ev, fs)])%list.

Definition sleep (ms : Z) (s : io) : io :=
  mkIO (files s) (clock s + ms) (trace s ++ [(ESleep ms, files s)])%list.

(** One pass of the [while True] loop of [_acquire_lock], [fuel] passes
    at most. *)
Fixpoint acquire_loop (fuel : nat) (lock_path : string) (timeout start : Z)
  (s : io) : option (bool * io) :=
  match fuel with
  | O => None
  | S fuel' =>
      if path_exists (files s) lock_path then
        (* FileExistsError *)
        let s1 := emit (EOpenExcl lock_path false) (files s) s in
        if timeout <=? clock s1 - start then Some (false, s1)
        else acquire_loop fuel' lock_path timeout start (sleep 50 s1)
      else
        Some (true, emit (EOpenExcl lock_path true)
                      (fs_set (files s) lock_path NotJson) s)
  end.

(** Passes that always suffice: one per 50 ms of [timeout], and two. *)
Definition acquire_fuel (timeout : Z) : nat := Z.to_nat (timeout / 50) + 2.

(** [_acquire_lock(lock_path, timeout)], [timeout] in milliseconds. *)
Definition _acquire_lock (lock_path : string) (timeout : Z) (s : io)
  : option (bool * io) :=
  acquire_loop (acquire_fuel timeout) lock_path timeout (clock s) s.

(** [_release_lock(lock_path)] *)
Definition _release_lock (lock_path : string) (s : io) : io :=
  if path_exists (files s) lock_path
  then emit (ERemove lock_path) (fs_remove (files s) lock_path) s
  else s.

Definition content_of (fs : filesystem) (p : string) : file :=
  match assoc p fs with Some f => f | None => NotJson end.

Definition lock_path_of (path : string) : string :=
  join (dirname path) (String.append "." (String.append (basename path) ".lock")).
Definition tmp_path_of (path : string) : string :=
  join (dirname path) (String.append "." (String.append (basename path) ".tmp")).

(** [_atomic_write_json(path, data, lock_timeout)] *)
Definition _atomic_write_json (path : string) (data : pyval) (lock_timeout : Z)
  (s : io) : option (res unit * io) :=
  let lock_path := lock_path_of path in
  let tmp_path := tmp_path_of path in
  match _acquire_lock lock_path lock_timeout s with
  | None => None
  | Some (false, s1) => Some (Raise RuntimeError, s1)
  | Some (true, s1) =>
      let s2 := emit (EOpenW tmp_path) (fs_set (files s1) tmp_path NotJson) s1 in
      let s3 := emit (EDump tmp_path data) (fs_set (files s2) tmp_path (Doc data)) s2 in
      let s4 := emit (EFlush tmp_path) (files s3) s3 in
      let s5 := emit (EFsync tmp_path) (files s4) s4 in
      let s6 := emit (EClose tmp_path) (files s5) s5 in
      let s7 := emit (EReplace tmp_path path)
                  (fs_set (fs_remove (files s6) tmp_path) path
                     (content_of (files s6) tmp_path)) s6 in
      Some (Ok tt, _release_lock lock_path s7)
  end.

Definition default_lock_timeout : Z := 5000.

(** [save_network_devices(devices_data)], [path] being
    [_get_path(JSON_FILENAME)]. *)
Definition save_network_devices (path : string) (devices_data : pyval) (s : io)
  : option (res unit * io) :=
  _atomic_write_json path devices_data default_lock_timeout s.

(** [save_json_file(path, data)] *)
Definition save_json_file (path : string) (data : pyval) (s : io) : io :=
  let s1 := emit (EOpenW path) (fs_set (files s) path NotJson) s in
  let s2 := emit (EDump path data) (fs_set (files s1) path (Doc data)) s1 in
  emit (EClose path) (files s2) s2.

End file_helpers.

(* ================================================================== *)
(** ** [esp32_client.py]: the transport client                         *)
(* ================================================================== *)

Module esp32_client.

Section Client.

(** The world outside the process: the devices and the network. *)
Variable W : Type.

(** The two methods every other method goes through.  The tests replace
    them by functions of their own, which may record their arguments and
    may raise. *)
Record client : Type := mkClient {
  get_device_state : pyval -> W -> res pyval * W;
  set_device_state : pyval -> pyval -> W -> res pyval * W
}.

Variable self : client.

(** [set_brightness(ip_address, brightness)] *)
Definition set_brightness (ip_address : pyval) (brightness : Z) : W -> res pyval * W :=
  set_device_state self ip_address
    (PDict [("bri", PInt (Z.max 0 (Z.min 255 brightness)))]).

(** [set_power(ip_address, on)] *)
Definition set_power (ip_address : pyval) (on : bool) : W -> res pyval * W :=
  set_device_state self ip_address (PDict [("on", PBool on)]).

(** [set_effect(ip_address, effect_id)] *)
Definition set_effect (ip_address : pyval) (effect_id : Z) : W -> res pyval * W :=
  set_device_state self ip_address
    (PDict [("seg", PList [PDict [("fx", PInt effect_id)]])]).

(** The pool of [get_multiple_device_states]: every address is fetched;
    a fetch that raises counts as [None].  The workers are run in the
    order of submission. *)
Fixpoint fetch_all (ips : list pyval) (w : W) : list (pyval * pyval) * W :=
  match ips with
  | [] => ([], w)
  | ip :: r =>
      let '(o, w1) := get_device_state self ip w in
      let v := match o with Ok v => v | Raise _ => PNone end in
      let '(rest, w2) := fetch_all r w1 in
      ((ip, v) :: rest, w2)
  end.

(** [get_multiple_device_states(ip_addresses)] *)
Definition get_multiple_device_states (ip_addresses : list pyval)
  : W -> res (list (key * pyval)) * W :=
  fun w =>
    let '(fetched, w') := fetch_all ip_addresses w in
    (foldM (fun results iv => rbind (hash_key (fst iv))
                                (fun k => Ok (kset results k (snd iv))))
           fetched [], w').

(** *** The HTTP client itself *)

Inductive http_outcome : Type :=
| HTimeout | HConnectionError | HHTTPError | HOtherError
| HJson (v : pyval)          (* a 2xx reply whose body parses *)
| HText (text : string).     (* a 2xx reply that is not JSON *)

Record request : Type := mkRequest {
  meth : string;
  host : pyval;
  endpoint : string;
  body : pyval
}.

(** One HTTP exchange with the network. *)
Variable http : request -> W -> http_outcome * W.

(** [_make_request]: [attempts] tries; a time-out or a refused
    connection is tried again, any other failure gives up at once. *)
Fixpoint make_request_loop (attempts : nat) (rq : request) (w : W) : pyval * W :=
  match attempts with
  | O => (PNone, w)
  | S n =>
      let '(o, w1) := http rq w in
      match o with
      | HJson v => (v, w1)
      | HText t => (PDict [("success", PBool true); ("response", PStr t)], w1)
      | HTimeout | HConnectionError => make_request_loop n rq w1
      | HHTTPError | HOtherError => (PNone, w1)
      end
  end.

Definition max_retries : nat := 3.

Definition _make_request (rq : request) (w : W) : pyval * W :=
  make_request_loop max_retries rq w.

(** The global [esp32_client = ESP32Client()]. *)
Definition ESP32Client : client :=
  mkClient
    (fun ip w => let '(v, w') := _make_request (mkRequest "GET" ip "/json/state" PNone) w
                 in (Ok v, w'))
    (fun ip state_data w =>
       let '(v, w') := _make_request (mkRequest "POST" ip "/json/state" state_data) w
       in (Ok v, w')).

End Client.

Arguments get_device_state {W} _ _ _.
Arguments set_device_state {W} _ _ _ _.
Arguments mkClient {W} _ _.
Arguments set_brightness {W} _ _ _ _.
Arguments set_power {W} _ _ _ _.
Arguments set_effect {W} _ _ _ _.
Arguments fetch_all {W} _ _ _.
Arguments get_multiple_device_states {W} _ _ _.
Arguments ESP32Client {W} _.
Arguments _make_request {W} _ _ _.
Arguments make_request_loop {W} _ _ _ _.

End esp32_client.

(* ================================================================== *)
(** ** [device_manager.py]: the orchestrator and the segment engine    *)
(* ================================================================== *)

Module device_manager.

Import file_helpers.

(** [self.devices_data]: device identifier to device record, in
    insertion order. *)
Definition index := list (key * pydict).

(** [try: int(device_id) / except Exception: device_id] *)
Definition normalize_id (device_id : pyval) : pyval :=
  match int device_id with Ok z => PInt z | Raise _ => device_id end.

(** *** [load_devices]: flattening the inventory document *)

(** The body of the innermost loop (lines 54-65). *)
Definition flatten_device (zone group location : pyval) (flat_devices : index)
  (device : pyval) : res index :=
  (device_id <- get device "device_id" ;;
   let device_id :=
     if isinstance_str device_id
     then match int device_id with Ok z => PInt z | Raise _ => device_id end
     else device_id in
   match device with
   | PDict d =>
       zone_id <- get zone "zone_id" ;;
       group_id <- get group "group_id" ;;
       location_id <- get location "location_id" ;;
       let device_copy :=
         dset (dset (dset d "zone_id" zone_id) "group_id" group_id)
              "location_id" location_id in
       k <- hash_key device_id ;;
       Ok (kset flat_devices k device_copy)
   | _ => Raise TypeError
   end)%res.

Definition flatten_location (zone group : pyval) (flat_devices : index)
  (location : pyval) : res index :=
  (devices <- get_default location "device" (PList []) ;;
   l <- iter (por devices (PList [])) ;;
   foldM (flatten_device zone group location) l flat_devices)%res.

Definition flatten_group (zone : pyval) (flat_devices : index) (group : pyval)
  : res index :=
  (locations <- get_default group "location" (PList []) ;;
   l <- iter locations ;;
   foldM (flatten_location zone group) l flat_devices)%res.

Definition flatten_zone (flat_devices : index) (zone : pyval) : res index :=
  (groups <- get_default zone "groups" (PList []) ;;
   l <- iter groups ;;
   foldM (flatten_group zone) l flat_devices)%res.

(** Lines 43-68: [None] is the early [return False] of line 47. *)
Definition read_and_flatten (fs : filesystem) (devices_file : string)
  : res (option index) :=
  (raw_data <- load_json_file fs devices_file ;;
   missing <- (if negb (truthy raw_data) then Ok true
               else (b <- contains "zones" raw_data ;; Ok (negb b))) ;;
   if (missing : bool) then Ok None
   else
     zones <- get_default raw_data "zones" (PList []) ;;
     l <- iter zones ;;
     flat_devices <- foldM flatten_zone l [] ;;
     Ok (Some flat_devices))%res.

(** [load_devices()] as a function of the files: the value returned and
    the new [self.devices_data]. *)
Definition load_devices_pure (fs : filesystem) (devices_file : string)
  : bool * index :=
  match read_and_flatten fs devices_file with
  | Ok (Some flat_devices) => (true, flat_devices)
  | Ok None => (false, [])
  | Raise _ => (false, [])
  end.

(** [get_device_ip(device_id)] *)
Definition get_device_ip (devices_data : index) (device_id : pyval) : res pyval :=
  (k <- hash_key (normalize_id device_id) ;;
   match klookup k devices_data with
   | Some device =>
       if truthy (PDict device) then Ok (dget device "device_ip") else Ok PNone
   | None => Ok PNone
   end)%res.

(** [self.devices_data.get(device_id_int) or {}] *)
Definition lookup_dev (devices_data : index) (device_id_int : pyval) : res pydict :=
  (k <- hash_key device_id_int ;;
   Ok (match klookup k devices_data with Some d => d | None => [] end))%res.

(** [get_all_device_ips()] *)
Definition get_all_device_ips (devices_data : index) : list (key * pyval) :=
  fold_left
    (fun device_ips kd =>
       let ip := dget (snd kd) "device_ip" in
       if truthy ip then kset device_ips (fst kd) ip else device_ips)
    devices_data [].

(** *** The segment mapping engine *)

(** [_hex_to_rgb(hex_str)], the same nested function in
    [set_device_power] and [apply_saved_state]; [None] is Python's
    [None]. *)
Definition _hex_to_rgb (hex_str : pyval) : option (Z * Z * Z) :=
  match hex_str with
  | PStr h =>
      if negb (truthy hex_str) then None
      else
        let s := lstrip_hash (strip h) in
        let s := if (String.length s =? 3)%nat then double_chars s else s in
        if negb (String.length s =? 6)%nat then None
        else
          match int_of_str 16 (substring 0 2 s),
                int_of_str 16 (substring 2 2 s),
                int_of_str 16 (substring 4 2 s) with
          | Some r, Some g, Some b => Some (r, g, b)
          | _, _, _ => None
          end
  | _ => None
  end.

(** [any('len' in s for s in seg)] *)
Fixpoint any_has_len (seg : list pyval) : res bool :=
  match seg with
  | [] => Ok false
  | s :: r => (b <- contains "len" s ;; if (b : bool) then Ok true else any_has_len r)%res
  end.

(** [sum((s.get('len') or 0) for s in seg)] *)
Definition sum_len (seg : list pyval) : res Z :=
  foldM (fun acc s =>
           (v <- get s "len" ;;
            match as_int (por v (PInt 0)) with
            | Some n => Ok (acc + n)
            | None => Raise TypeError
            end)%res)
        seg 0.

(** LED-count discovery from the device's state (lines 282-297 and
    436-448), [device_state] being the reply [or {}]. *)
Definition detect_total_leds (device_state : pyval) : res pyval :=
  (st0 <- get device_state "state" ;;
   let state_root := if isinstance_dict st0 then st0 else device_state in
   i0 <- get device_state "info" ;;
   i1 <- (if truthy i0 then Ok i0 else get state_root "info") ;;
   let info := por i1 (PDict []) in
   (* 1. info.leds.count *)
   leds <- (if isinstance_dict info then get info "leds" else Ok PNone) ;;
   total_leds <- (if isinstance_dict info && isinstance_dict leds then
                    c <- get leds "count" ;;
                    lc <- get leds "led_count" ;;
                    Ok (por c lc)
                  else Ok PNone) ;;
   total_leds <- (if negb (truthy total_leds) && isinstance_dict info then
                    a <- get info "leds" ;;
                    b <- get info "led_count" ;;
                    c <- get info "count" ;;
                    Ok (por (por a b) c)
                  else Ok total_leds) ;;
   (* 2. the sum of the segments' 'len' *)
   seg <- get state_root "seg" ;;
   total_leds <- (if negb (truthy total_leds) then
                    match seg with
                    | PList l =>
                        some <- any_has_len l ;;
                        if (some : bool) then (n <- sum_len l ;; Ok (PInt n))
                        else Ok total_leds
                    | _ => Ok total_leds
                    end
                  else Ok total_leds) ;;
   (* 3. top-level fields *)
   if negb (truthy total_leds) then
     a <- get state_root "leds" ;;
     b <- get state_root "length" ;;
     let top_len := por (por a b) PNone in
     pos <- (if isinstance_int top_len then gt top_len (PInt 0) else Ok false) ;;
     Ok (if (pos : bool) then top_len else total_leds)
   else Ok total_leds)%res.

(** Lines 308-317 and 459-467: the LED count the mapping is built for. *)
Definition effective_led_count (total_leds seg_colors : pyval) : res pyval :=
  (pos <- (if truthy total_leds then gt total_leds (PInt 0) else Ok false) ;;
   let led_count := if (pos : bool) then total_leds else PInt 60 in
   rtry (if isinstance_list seg_colors then
           n <- len seg_colors ;;
           longer <- gt (PInt n) led_count ;;
           Ok (if (longer : bool) then PInt n else led_count)
         else Ok led_count)
        (Ok led_count))%res.

Definition mapping_entry (color start stop : pyval) : pyval :=
  PDict [("color", color); ("start", start); ("stop", stop)].

(** The [for idx, col in enumerate(seg_colors)] loop, from index [idx]. *)
Fixpoint one_led_segments (cols : list pyval) (idx : Z) (led_count : pyval)
  : res (list pyval) :=
  match cols with
  | [] => Ok []
  | col :: r =>
      (stop <- ge (PInt idx) led_count ;;
       if (stop : bool) then Ok []
       else
         rest <- one_led_segments r (idx + 1) led_count ;;
         Ok (mapping_entry col (PInt idx) (PInt (idx + 1)) :: rest))%res
  end.

(** Lines 318-335 and 468-483: the generated mapping. *)
Definition generate_mapping (seg_colors curr_color led_count : pyval)
  : res (list pyval) :=
  (n <- len seg_colors ;;
   color0 <- (if 0 <? n then subscript seg_colors 0 else Ok PNone) ;;
   color1 <- (if 1 <? n then subscript seg_colors 1 else Ok PNone) ;;
   let color_rest := if truthy curr_color then curr_color else por color1 color0 in
   if negb (truthy seg_colors) && truthy curr_color then
     Ok [mapping_entry color_rest (PInt 0) led_count]
   else
     cols <- iter seg_colors ;;
     segs <- one_led_segments cols 0 led_count ;;
     more <- gt led_count (PInt n) ;;
     if (more : bool) && truthy color_rest
     then Ok (segs ++ [mapping_entry color_rest (PInt n) led_count])%list
     else Ok segs)%res.

(** The whole [if not seg_mapping:] branch. *)
Definition auto_seg_mapping (seg_colors curr_color total_leds : pyval)
  : res (list pyval) :=
  (led_count <- effective_led_count total_leds seg_colors ;;
   generate_mapping seg_colors curr_color led_count)%res.

Definition seg_update (start stop r g b : Z) : pyval :=
  PDict [("start", PInt start); ("stop", PInt stop);
         ("col", PList [PList [PInt r; PInt g; PInt b]])].

(** One pass of the [for entry in seg_mapping] loop (lines 341-367 and
    486-509). *)
Definition convert_entry (seg_updates : list pyval) (entry : pyval)
  : res (list pyval) :=
  (start <- get entry "start" ;;
   stop_exclusive <- get entry "stop" ;;
   color_hex <- get entry "color" ;;
   let rgb := _hex_to_rgb color_hex in
   match (if is_none stop_exclusive then Raise ValueError else int stop_exclusive) with
   | Raise _ => Ok seg_updates          (* continue *)
   | Ok stop_to_send =>
       match rgb with
       | Some (r, g, b) =>
           if negb (is_none start) && (isinstance_int start || isinstance_str start)
           then match int start with
                | Ok start_int =>
                    if start_int <? stop_to_send
                    then Ok (seg_updates ++ [seg_update start_int stop_to_send r g b])%list
                    else Ok seg_updates
                | Raise _ => Ok seg_updates
                end
           else Ok seg_updates
       | None => Ok seg_updates
       end
   end)%res.

(** [if isinstance(seg_mapping, list) and len(seg_mapping) > 0: ...] *)
Definition seg_updates_of (seg_mapping : pyval) : res (list pyval) :=
  match seg_mapping with
  | PList (e :: l) => foldM convert_entry (e :: l) []
  | _ => Ok []
  end.

(** From the device record and the discovered LED count to the ranges
    to send. *)
Definition plan_updates (dev : pydict) (total_leds : pyval) : res (list pyval) :=
  (let seg_colors := por (dget dev "device_segment_colors") (PList []) in
   let curr_color := dget dev "device_current_color" in
   let seg_mapping := dget dev "device_segment_mapping" in
   seg_mapping <- (if negb (truthy seg_mapping)
                   then (l <- auto_seg_mapping seg_colors curr_color total_leds ;;
                         Ok (PList l))
                   else Ok seg_mapping) ;;
   seg_updates_of seg_mapping)%res.

(** Lines 372-373 and 512-513. *)
Definition state_data_of (dev : pydict) (seg_updates : list pyval) : pyval :=
  let bri := match as_int (dget dev "device_brightness") with
             | Some b => b
             | None => 128
             end in
  PDict [("on", PBool true); ("bri", PInt bri);
         ("seg", PList seg_updates); ("psave", PInt 1)].

(** *** The manager's methods *)

Section Manager.

Variable W : Type.

(** [esp32_client], possibly with its methods replaced. *)
Variable esp32 : esp32_client.client W.

(** [self.devices_file] *)
Variable devices_file : string.

(** What a method can change: the flattened index and the outside
    world. *)
Record st : Type := mkSt {
  devices_data : index;
  world : W
}.

Definition call {A} (f : W -> res A * W) : M st A :=
  fun s => let '(r, w) := f (world s) in (r, mkSt (devices_data s) w).

Definition set_index (i : index) : M st unit :=
  mmodify (fun s => mkSt i (world s)).

(** [load_devices()] *)
Definition load_devices (fs : filesystem) : M st bool :=
  (let '(ok, flat_devices) := load_devices_pure fs devices_file in
   _ <- set_index flat_devices ;;
   mret ok)%M.

Definition mark_online (k : key) (now : Z) (i : index) : index :=
  match klookup k i with
  | Some d => kset i k (dset (dset d "last_seen" (PInt now)) "status" (PStr "online"))
  | None => i
  end.

Definition mark_offline (k : key) (i : index) : index :=
  match klookup k i with
  | Some d => kset i k (dset d "status" (PStr "offline"))
  | None => i
  end.

(** [get_device_state(device_id)]; [now] is [int(time.time())]. *)
Definition get_device_state (now : Z) (device_id : pyval) : M st pyval :=
  (s <- mget ;;
   let device_id_int := normalize_id device_id in
   ip_address <- mlift (get_device_ip (devices_data s) device_id_int) ;;
   if negb (truthy ip_address) then mret PNone
   else
     state <- call (esp32_client.get_device_state esp32 ip_address) ;;
     k <- mlift (hash_key device_id_int) ;;
     _ <- (if truthy state
           then mmodify (fun s => mkSt (mark_online k now (devices_data s)) (world s))
           else mmodify (fun s => mkSt (mark_offline k (devices_data s)) (world s))) ;;
     mret state)%M.

(** The loop of [get_all_device_states] (lines 175-185). *)
Fixpoint collect_states (now : Z) (ip_to_states : list (key * pyval))
  (device_ips : list (key * pyval)) (device_states : list (key * pyval))
  (i : index) : res (list (key * pyval) * index) :=
  match device_ips with
  | [] => Ok (device_states, i)
  | (device_id, ip_address) :: r =>
      (ipk <- hash_key ip_address ;;
       let state := match klookup ipk ip_to_states with
                    | Some v => v
                    | None => PNone
                    end in
       collect_states now ip_to_states r (kset device_states device_id state)
         (if truthy state then mark_online device_id now i
          else mark_offline device_id i))%res
  end.

(** [get_all_device_states()] *)
Definition get_all_device_states (now : Z) : M st (list (key * pyval)) :=
  (s <- mget ;;
   let device_ips := get_all_device_ips (devices_data s) in
   match device_ips with
   | [] => mret []
   | _ =>
       ip_to_states <-
         call (esp32_client.get_multiple_device_states esp32 (map snd device_ips)) ;;
       s1 <- mget ;;
       r <- mlift (collect_states now ip_to_states device_ips [] (devices_data s1)) ;;
       _ <- set_index (snd r) ;;
       mret (fst r)
   end)%M.

(** [set_device_state(device_id, state_data)] *)
Definition set_device_state (device_id : pyval) (state_data : pyval) : M st pyval :=
  (s <- mget ;;
   ip_address <- mlift (get_device_ip (devices_data s) (normalize_id device_id)) ;;
   if negb (truthy ip_address) then mret PNone
   else call (esp32_client.set_device_state esp32 ip_address state_data))%M.

(** [set_device_brightness(device_id, brightness)] *)
Definition set_device_brightness (device_id : pyval) (brightness : Z) : M st pyval :=
  (s <- mget ;;
   ip_address <- mlift (get_device_ip (devices_data s) device_id) ;;
   if negb (truthy ip_address) then mret PNone
   else call (esp32_client.set_brightness esp32 ip_address brightness))%M.

(** [set_device_effect(device_id, effect_id)] *)
Definition set_device_effect (device_id : pyval) (effect_id : Z) : M st pyval :=
  (s <- mget ;;
   ip_address <- mlift (get_device_ip (devices_data s) device_id) ;;
   if negb (truthy ip_address) then mret PNone
   else call (esp32_client.set_effect esp32 ip_address effect_id))%M.

Definition nonempty {A} (l : list A) : bool :=
  match l with [] => false | _ => true end.

(** The innermost [try] of [set_device_power] (lines 280-379). *)
Definition reconcile_after_power_on (dev : pydict) (ip_address : pyval) : M st unit :=
  (reply <- call (esp32_client.get_device_state esp32 ip_address) ;;
   let device_state := por reply (PDict []) in
   total_leds <- mlift (detect_total_leds device_state) ;;
   seg_updates <- mlift (plan_updates dev total_leds) ;;
   if nonempty seg_updates then
     mtry (_ <- call (esp32_client.set_device_state esp32 ip_address
                        (state_data_of dev seg_updates)) ;;
           mret tt)
          (mret tt)
   else mret tt)%M.

(** [set_device_power(device_id, on)] *)
Definition set_device_power (device_id : pyval) (on : bool) : M st pyval :=
  (s <- mget ;;
   ip_address <- mlift (get_device_ip (devices_data s) device_id) ;;
   if negb (truthy ip_address) then mret PNone
   else
     result <- call (esp32_client.set_power esp32 ip_address on) ;;
     _ <- (if on && negb (is_none result) then
             mtry (dev <- mlift (lookup_dev (devices_data s) (normalize_id device_id)) ;;
                   mtry (reconcile_after_power_on dev ip_address) (mret tt))
                  (mret tt)
           else mret tt) ;;
     mret result)%M.

(** [apply_saved_state(device_id)] *)
Definition apply_saved_state (fs : filesystem) (device_id : pyval) : M st pyval :=
  (_ <- mtry (load_devices fs) (mret false) ;;
   mtry
     (s <- mget ;;
      let device_id_int := normalize_id device_id in
      dev <- mlift (lookup_dev (devices_data s) device_id_int) ;;
      ip_address <- mlift (get_device_ip (devices_data s) device_id_int) ;;
      if negb (truthy ip_address) then mret PNone
      else
        total_leds <-
          mtry (reply <- call (esp32_client.get_device_state esp32 ip_address) ;;
                mlift (detect_total_leds (por reply (PDict []))))
               (mret PNone) ;;
        seg_updates <- mlift (plan_updates dev total_leds) ;;
        if nonempty seg_updates then
          mtry (call (esp32_client.set_device_state esp32 ip_address
                        (state_data_of dev seg_updates)))
               (mret PNone)
        else mret PNone)
     (mret PNone))%M.

End Manager.

Arguments mkSt {W} _ _.
Arguments devices_data {W} _.
Arguments world {W} _.

(** The text of an index key: the decimal digits of an integer, the
    string itself, [null] for [None].  It is what a URL spells to
    address an integer identifier, and what [json.dump] writes for such
    a key.  The index holds [True] and [False] under the keys 1 and 0
    ([hash_key]: they are the same key to a [dict]), so the texts
    [true] and [false] that [json.dump] gives a key stored as a boolean
    are outside this model. *)
Definition key_text (k : key) : string :=
  match k with
  | KNone => "null"
  | KInt z => NilZero.string_of_int (Z.to_int z)
  | KStr s => s
  end.

Definition index_document (i : index) : pyval :=
  PDict (map (fun kd => (key_text (fst kd), PDict (snd kd))) i).

(** [save_devices()].  The store of [io] performs every write it is
    asked for, so [save_json_file] returns and the answer is [True]; the
    [except] branch (lines 86-88), which answers [False] when the write
    raises, has no run in this store. *)
Definition save_devices (devices_file : string) (devices_data : index) (s : io)
  : bool * io :=
  (true, save_json_file devices_file (index_document devices_data) s).

Fixpoint kremove {V} (d : list (key * V)) (k : key) : list (key * V) :=
  match d with
  | [] => []
  | (k', v) :: r => if key_eqb k k' then r else (k', v) :: kremove r k
  end.

(** [remove_device(device_id)]: the value returned, the new index and
    the store. *)
Definition remove_device (devices_file : string) (device_id : pyval)
  (devices_data : index) (s : io) : res (bool * index * io) :=
  (k <- hash_key device_id ;;
   match klookup k devices_data with
   | None => Ok (false, devices_data, s)
   | Some _ =>
       let devices_data := kremove devices_data k in
       let '(ok, s') := save_devices devices_file devices_data s in
       Ok (ok, devices_data, s')
   end)%res.

End device_manager.

(* ================================================================== *)
(** ** [api/devices.py]: the power route                               *)
(* ================================================================== *)

Module devices.

Import device_manager.

(** A Flask reply: a JSON body with its status code; [ServerError e] is
    the reply [{'status': 'error', 'message': str(e)}, 500] of the
    route's [except Exception as e]. *)
Inductive response : Type :=
| Reply (body : pyval) (status : Z)
| ServerError (e : exn).

Definition error_body (message : string) : pyval :=
  PDict [("status", PStr "error"); ("message", PStr message)].

Section Routes.

Variable W : Type.
Variable esp32 : esp32_client.client W.

(** [data['on']] *)
Definition item_on (data : pyval) : res pyval :=
  match data with
  | PDict d => match assoc "on" d with Some v => Ok v | None => Raise KeyError end
  | _ => Raise TypeError
  end.

(** [POST /api/devices/<device_id>/power]; [data] is [request.get_json()]. *)
Definition set_device_power (data : pyval) (device_id : string) : M (st W) response :=
  mcatch
    ((missing <- mlift (if negb (truthy data) then Ok true
                        else rbind (contains "on" data) (fun b => Ok (negb b))) ;;
      if (missing : bool) then
        mret (Reply (error_body "Power state (on) is required") 400)
      else
        v <- mlift (item_on data) ;;
        let on := truthy v in
        s <- mget ;;
        ip <- mlift (get_device_ip (devices_data s) (PStr device_id)) ;;
        if negb (truthy ip) then
          mret (Reply (error_body "Device not found or unreachable") 404)
        else
          result <- device_manager.set_device_power W esp32 (PStr device_id) on ;;
          if is_none result then
            mret (Reply (error_body "Device not found or unreachable") 404)
          else
            mret (Reply (PDict [("status", PStr "success"); ("device_ip", ip);
                                ("result", result)]) 200))%M)
    (fun e => mret (ServerError e)).

End Routes.

End devices.

(* ================================================================== *)
(** ** [app/__init__.py]: the hierarchy route's write                  *)
(* ================================================================== *)

Module app.

Import file_helpers.

(** The write that ends [PUT /api/hierarchy] (lines 396-398):
    [with open(data_path, 'w') as fh: json.dump(final_payload, fh, ...)]. *)
Definition write_hierarchy (data_path : string) (final_payload : pyval) (s : io) : io :=
  let s1 := emit (EOpenW data_path) (fs_set (files s) data_path NotJson) s in
  let s2 := emit (EDump data_path final_payload)
              (fs_set (files s1) data_path (Doc final_payload)) s1 in
  emit (EClose data_path) (files s2) s2.

End app.

(* ================================================================== *)
(** ** Vocabulary of the properties, and the repository's test fixture *)
(* ================================================================== *)

Module props.

Import file_helpers device_manager.

(** The bounds of a range of an outbound [seg] list. *)
Definition range_bounds (u : pyval) : option (Z * Z) :=
  match u with
  | PDict d =>
      match assoc "start" d, assoc "stop" d with
      | Some (PInt a), Some (PInt b) => Some (a, b)
      | _, _ => None
      end
  | _ => None
  end.

(** LED [k] lies in the half-open range [u]. *)
Definition covers (k : Z) (u : pyval) : bool :=
  match range_bounds u with
  | Some (a, b) => (a <=? k) && (k <? b)
  | None => false
  end.

(** How many ranges of [l] light LED [k]. *)
Definition cover_count (k : Z) (l : list pyval) : nat :=
  List.length (filter (covers k) l).

Definition proper_range (u : pyval) : Prop :=
  exists a b, range_bounds u = Some (a, b) /\ a < b.

(** A candidate range as a stored mapping holds it. *)
Definition candidate : Type := (pyval * Z * Z)%type.

Definition entry_of (c : candidate) : pyval :=
  let '(color, start, stop) := c in mapping_entry color (PInt start) (PInt stop).

(** What one candidate contributes to the outbound list. *)
Definition updates_of_candidate (c : candidate) : list pyval :=
  let '(color, start, stop) := c in
  match _hex_to_rgb color with
  | Some (r, g, b) => if start <? stop then [seg_update start stop r g b] else []
  | None => []
  end.

(** The ranges generated for saved colours [cols] from LED [idx] on. *)
Fixpoint one_led_candidates (cols : list pyval) (idx : Z) : list candidate :=
  match cols with
  | [] => []
  | col :: r => (col, idx, idx + 1) :: one_led_candidates r (idx + 1)
  end.




(** The device's stored brightness, 128 when none is stored. *)
Definition stored_brightness (dev : pydict) : Z :=
  match as_int (dget dev "device_brightness") with Some b => b | None => 128 end.

(** The fallback colour of the ranges past the saved colours. *)
Definition rest_color (cols : list pyval) (curr : pyval) : pyval :=
  if truthy curr then curr else por (nth 1 cols PNone) (nth 0 cols PNone).

(** The candidates generated for the saved colours [cols], the current
    colour [curr] and [c] LEDs. *)
Definition generated_candidates (cols : list pyval) (curr : pyval) (c : Z)
  : list candidate :=
  match cols with
  | [] => if truthy curr then [(curr, 0, c)] else []
  | _ :: _ =>
      let n := Z.of_nat (List.length cols) in
      (one_led_candidates cols 0
       ++ (if (n <? c) && truthy (rest_color cols curr)
           then [(rest_color cols curr, n, c)] else []))%list
  end.

(** The LED count a device reported, if it reported one: the count the
    mapping starts from, and the value the code holds in [total_leds]. *)
Definition base_led_count (reported : option Z) : Z :=
  match reported with
  | Some n => if 0 <? n then n else 60
  | None => 60
  end.

Definition reported_value (reported : option Z) : pyval :=
  match reported with Some n => PInt n | None => PNone end.

(** A state reply whose information block holds the object [leds]. *)
Definition leds_object_reply (leds : pydict) : pyval :=
  PDict [("info", PDict [("leds", PDict leds)])].

(** A device that reports a count of 0 there. *)
Definition zero_count_reply : pyval := leds_object_reply [("count", PInt 0)].


(** *** The fixture of [tests/test_device_manager_segments.py] *)

Definition fixture_device : pyval :=
  PDict [("device_id", PInt 1);
         ("device_name", PStr "LED Strip1");
         ("device_ip", PStr "10.0.0.140");
         ("device_mac", PStr "20:6E:F1:6D:F4:78");
         ("device_current_color", PStr "#afab2c");
         ("device_segment_colors", PList [PStr "#3dd1db"; PStr "#a52222"])].

Definition fixture_document : pyval :=
  PDict [("zones", PList [
    PDict [("zone_id", PInt 1);
           ("groups", PList [
             PDict [("group_id", PInt 1);
                    ("location", PList [
                      PDict [("location_id", PStr "1");
                             ("device", PList [fixture_device])]])]])]])].

Definition fixture_path : string := "network_devices.json".

Definition fixture_fs : filesystem := [(fixture_path, Doc fixture_document)].

(** [mock_get_state]: the device reports 300 LEDs at top level. *)
Definition reply_300 : pyval := PDict [("seg", PList []); ("leds", PInt 300)].

Definition ack : pyval := PDict [("success", PBool true)].

(** The test's doubles: [get_device_state] answers [state_reply];
    [set_device_state] records the payload and acknowledges.  The world
    is the list of payloads sent so far. *)
Definition recording_client (state_reply : res pyval) : esp32_client.client (list pyval) :=
  esp32_client.mkClient
    (fun _ sent => (state_reply, sent))
    (fun _ payload sent => (Ok ack, sent ++ [payload])%list).

(** [dm = DeviceManager(str(file_path))] *)
Definition fixture_manager : st (list pyval) :=
  mkSt (snd (load_devices_pure fixture_fs fixture_path)) [].

(** The flattened record of the fixture's device. *)
Definition fixture_record : pydict :=
  match klookup (KInt 1) (devices_data fixture_manager) with
  | Some d => d
  | None => []
  end.

(** The [seg] list of the last payload sent. *)
Definition last_segments (sent : list pyval) : list pyval :=
  match rev sent with
  | PDict d :: _ => match assoc "seg" d with Some (PList l) => l | _ => [] end
  | _ => []
  end.

(** [dm.set_device_power(1, True)] under the test's doubles. *)
Definition fixture_power_on : res pyval * st (list pyval) :=
  device_manager.set_device_power (list pyval) (recording_client (Ok reply_300))
    (PInt 1) true fixture_manager.

Definition fixture_segments : list pyval :=
  last_segments (world (snd fixture_power_on)).

Definition rgb_of (u : pyval) : option (Z * Z * Z) :=
  match u with
  | PDict d =>
      match assoc "col" d with
      | Some (PList [PList [PInt r; PInt g; PInt b]]) => Some (r, g, b)
      | _ => None
      end
  | _ => None
  end.

(** A device that answers the first state query with 300 LEDs and does
    not answer later ones; payloads are recorded. *)
Record flaky_world : Type := mkFlaky { queries : nat; sent : list pyval }.

Definition flaky_client : esp32_client.client flaky_world :=
  esp32_client.mkClient
    (fun _ w => (Ok (match queries w with O => reply_300 | S _ => PNone end),
                 mkFlaky (S (queries w)) (sent w)))
    (fun _ payload w => (Ok ack, mkFlaky (queries w) (sent w ++ [payload])%list)).

(** A client that forwards to [cl] and records what is sent. *)
Definition capture {W} (cl : esp32_client.client W) : esp32_client.client (W * list pyval) :=
  esp32_client.mkClient
    (fun ip w => let '(r, w') := esp32_client.get_device_state cl ip (fst w)
                 in (r, (w', snd w)))
    (fun ip payload w =>
       let '(r, w') := esp32_client.set_device_state cl ip payload (fst w)
       in (r, (w', snd w ++ [payload])%list)).

(** What [apply_saved_state] sends when the device answers the state
    query with [answer]: at most one payload. *)
Definition sent_by (fs : filesystem) (devices_file : string) (device_id : pyval)
  (answer : pyval -> res pyval) : list pyval :=
  let i := snd (load_devices_pure fs devices_file) in
  let device_id_int := normalize_id device_id in
  match lookup_dev i device_id_int, get_device_ip i device_id_int with
  | Ok dev, Ok ip_address =>
      if truthy ip_address then
        let total_leds :=
          match answer ip_address with
          | Ok reply =>
              match detect_total_leds (por reply (PDict [])) with
              | Ok t => t
              | Raise _ => PNone
              end
          | Raise _ => PNone
          end in
        match plan_updates dev total_leds with
        | Ok seg_updates =>
            if nonempty seg_updates then [state_data_of dev seg_updates] else []
        | Raise _ => []
        end
      else []
  | _, _ => []
  end.

(** Two invocations of [apply_saved_state(1)] in succession on the
    fixture's inventory, against the device that answers only once. *)
Definition flaky_first : st flaky_world :=
  snd (apply_saved_state flaky_world flaky_client fixture_path fixture_fs (PInt 1)
         (mkSt [] (mkFlaky O []))).

Definition flaky_second : st flaky_world :=
  snd (apply_saved_state flaky_world flaky_client fixture_path fixture_fs (PInt 1)
         flaky_first).

(** A device that always answers with 300 LEDs. *)
Definition steady_client : esp32_client.client unit :=
  esp32_client.mkClient (fun _ w => (Ok reply_300, w)) (fun _ _ w => (Ok ack, w)).

(** *** The inventory file while another writer holds its lock *)

Definition inventory_path : string := "data/network_devices.json".

Definition inventory_lock : string := "data/.network_devices.json.lock".

Definition locked_store : io :=
  mkIO [(inventory_path, Doc fixture_document); (inventory_lock, NotJson)] 0 [].

(** The events of a trace, and the target's content after each. *)
Definition events (s : io) : list event := map fst (trace s).

Definition contents_of (path : string) (s : io) : list file :=
  map (fun p => content_of (snd p) path) (trace s).

(** Operations that change no file. *)
Definition waits_only (lock_path : string) (files0 : filesystem)
  (p : event * filesystem) : Prop :=
  snd p = files0 /\ (fst p = EOpenExcl lock_path false \/ fst p = ESleep 50).

(** A snapshot in which the target is whole: as it was, or the new
    document. *)
Definition target_whole (path : string) (files0 : filesystem) (data : pyval)
  (p : event * filesystem) : Prop :=
  assoc path (snd p) = assoc path files0 \/ assoc path (snd p) = Some (Doc data).

(** A network on which every exchange times out; the world counts the
    attempts. *)
Definition network_down (_ : esp32_client.request) (attempts : nat)
  : esp32_client.http_outcome * nat :=
  (esp32_client.HTimeout, S attempts).

Definition unreachable_client : esp32_client.client nat :=
  esp32_client.ESP32Client network_down.

Definition power_on_request : pyval := PDict [("on", PBool true)].

(** A computation that leaves the flattened index as it found it. *)
Definition keeps_index {W A : Type} (m : M (st W) A) : Prop :=
  forall s, devices_data (snd (m s)) = devices_data s.

(** The record of a device after a state read that returned [state] at
    time [now]. *)
Definition seen (now : Z) (state : pyval) (d : pydict) : pydict :=
  if truthy state
  then dset (dset d "last_seen" (PInt now)) "status" (PStr "online")
  else dset d "status" (PStr "offline").

(** The manager of the fixture on that network. *)
Definition fixture_offline : st nat :=
  mkSt (snd (load_devices_pure fixture_fs fixture_path)) O.

Definition not_found_or_unreachable : devices.response :=
  devices.Reply (devices.error_body "Device not found or unreachable") 404.

End props.

(* ================================================================== *)
(** ** [esp32_client.py]: the colour setter                             *)
(* ================================================================== *)

Module esp32_setters.

Section Setters.

Variable W : Type.
Variable self : esp32_client.client W.

(** [max(0, min(255, n))] *)
Definition clamp_byte (n : Z) : Z := Z.max 0 (Z.min 255 n).

(** [set_color(ip_address, r, g, b, w)] *)
Definition set_color (ip_address : pyval) (r g b w : Z) : W -> res pyval * W :=
  let color := [PInt (clamp_byte r); PInt (clamp_byte g); PInt (clamp_byte b)] in
  let color := if 0 <? w then (color ++ [PInt (clamp_byte w)])%list else color in
  esp32_client.set_device_state self ip_address
    (PDict [("seg", PList [PDict [("col", PList [PList color])]])]).

End Setters.

Arguments clamp_byte _ : assert.
Arguments set_color {W} _ _ _ _ _ _ _.

End esp32_setters.

(* ================================================================== *)
(** ** [esp32_errors.py]: validation of identifiers and addresses      *)
(* ================================================================== *)

Module esp32_errors.

Inductive esp32_exception : Type :=
| ESP32Error (message : string)
| ESP32DeviceNotFoundError (message : string).

Inductive checked (A : Type) : Type :=
| Returns : A -> checked A
| Raises : esp32_exception -> checked A.
Arguments Returns {A} _.
Arguments Raises {A} _.

(** [validate_device_id(device_id)] *)
Definition validate_device_id (device_id : pyval) : checked string :=
  match device_id with
  | PStr s =>
      if negb (truthy device_id)
      then Raises (ESP32DeviceNotFoundError "Device ID must be a non-empty string")
      else
        let device_id := strip s in
        if negb (truthy (PStr device_id))
        then Raises (ESP32DeviceNotFoundError "Device ID cannot be empty")
        else Returns device_id
  | _ => Raises (ESP32DeviceNotFoundError "Device ID must be a non-empty string")
  end.

(** [s.split('.')] on the characters of [s]; [cur] holds the part being
    read, last character first. *)
Fixpoint split_dots (cs cur : list ascii) : list string :=
  match cs with
  | [] => [string_of_list_ascii (rev cur)]
  | c :: r =>
      if Ascii.eqb c "."%char
      then string_of_list_ascii (rev cur) :: split_dots r []
      else split_dots r (c :: cur)
  end.

Definition split_dot (s : string) : list string :=
  split_dots (list_ascii_of_string s) [].

Definition invalid_format (ip_address : string) : esp32_exception :=
  ESP32Error (String.append "Invalid IP address format: " ip_address).

(** The [for part in parts] loop: [true] when every part reads as an
    integer from 0 to 255. *)
Fixpoint parts_in_range (parts : list string) : bool :=
  match parts with
  | [] => true
  | part :: r =>
      match int_of_str 10 part with
      | Some num => if (num <? 0) || (255 <? num) then false else parts_in_range r
      | None => false
      end
  end.

(** [validate_ip_address(ip_address)] *)
Definition validate_ip_address (ip_address : pyval) : checked string :=
  match ip_address with
  | PStr s =>
      if negb (truthy ip_address)
      then Raises (ESP32Error "IP address must be a non-empty string")
      else
        let ip_address := strip s in
        let parts := split_dot ip_address in
        if negb (List.length parts =? 4)%nat then Raises (invalid_format ip_address)
        else if parts_in_range parts then Returns ip_address
        else Raises (invalid_format ip_address)
  | _ => Raises (ESP32Error "IP address must be a non-empty string")
  end.

End esp32_errors.

(* ================================================================== *)
(** ** [api/devices.py]: the other control routes                      *)
(* ================================================================== *)

Module device_routes.

Import file_helpers device_manager devices.

(** What a route wrapped in [handle_esp32_api_errors] sends: the reply
    of the wrapped function, the reply of the handler of an ESP32
    exception, or the reply of the last handler (status 500, error type
    'internal_error', a message that depends on [current_app.debug]). *)
Inductive guarded : Type :=
| Passed (r : response)
| Handled (r : response)
| InternalError (e : exn).

(** The body of the five ESP32 handlers. *)
Definition esp32_error_body (error_type message : string) : pyval :=
  PDict [("status", PStr "error"); ("error_type", PStr error_type);
         ("message", PStr message)].

(** The [except] clauses of the decorator (lines 124-178), tried in
    order: the four derived classes come before [ESP32Error], and
    [Exception] is last. *)
Definition on_exception (e : exn) : guarded :=
  match e with
  | ESP32DeviceNotFoundError msg =>
      Handled (Reply (esp32_error_body "device_not_found" msg) 404)
  | ESP32ConnectionError _ =>
      Handled (Reply (esp32_error_body "connection_error"
                        "Unable to connect to device. Please check if device is online.")
                 503)
  | ESP32TimeoutError _ =>
      Handled (Reply (esp32_error_body "timeout_error"
                        "Device did not respond within the timeout period.")
                 504)
  | ESP32InvalidResponseError _ =>
      Handled (Reply (esp32_error_body "invalid_response"
                        "Device returned an invalid response.")
                 502)
  | ESP32Error msg =>
      Handled (Reply (esp32_error_body "esp32_error" msg) 500)
  | _ => InternalError e
  end.

(** The status code of what is sent. *)
Definition status_of (g : guarded) : Z :=
  match g with
  | Passed (Reply _ status) | Handled (Reply _ status) => status
  | Passed (ServerError _) | Handled (ServerError _) | InternalError _ => 500
  end.

(** [data[k]] for a string literal [k]. *)
Definition item (data : pyval) (k : string) : res pyval :=
  match data with
  | PDict d => match assoc k d with Some v => Ok v | None => Raise KeyError end
  | _ => Raise TypeError
  end.

(** [not data or k not in data] *)
Definition lacks (data : pyval) (k : string) : res bool :=
  if negb (truthy data) then Ok true
  else (b <- contains k data ;; Ok (negb b))%res.

Definition success (result : pyval) : response :=
  Reply (PDict [("status", PStr "success"); ("result", result)]) 200.

Definition not_found : response :=
  Reply (error_body "Device not found or unreachable") 404.

(** The stand-in state of lines 472-479. *)
Definition minimal_state (dev_meta : pydict) : pyval :=
  PDict [("on", PBool false);
         ("bri", match assoc "device_brightness" dev_meta with
                 | Some v => v
                 | None => PInt 128
                 end);
         ("device_current_color", dget dev_meta "device_current_color");
         ("device_segment_colors",
          match assoc "device_segment_colors" dev_meta with
          | Some v => v
          | None => PList []
          end);
         ("device_ip", dget dev_meta "device_ip");
         ("status", match assoc "status" dev_meta with
                    | Some v => v
                    | None => PStr "offline"
                    end)].

Definition state_reply (state : pyval) : response :=
  Reply (PDict [("status", PStr "success"); ("state", state)]) 200.

Section Routes.

Variable W : Type.
Variable esp32 : esp32_client.client W.

(** The decorator [handle_esp32_api_errors]. *)
Definition handle_esp32_api_errors (func : M (st W) response) : M (st W) guarded :=
  mcatch (r <- func ;; mret (Passed r))%M (fun e => mret (on_exception e)).

(** [POST /api/devices/<device_id>/brightness] *)
Definition set_device_brightness (data : pyval) (device_id : string)
  : M (st W) response :=
  mcatch
    ((missing <- mlift (lacks data "brightness") ;;
      if (missing : bool) then
        mret (Reply (error_body "Brightness level is required") 400)
      else
        v <- mlift (item data "brightness") ;;
        brightness <- mlift (int v) ;;
        if (brightness <? 0) || (255 <? brightness) then
          mret (Reply (error_body "Brightness must be between 0 and 255") 400)
        else
          result <- device_manager.set_device_brightness W esp32 (PStr device_id)
                      brightness ;;
          if is_none result then mret not_found else mret (success result))%M)
    (fun e => mret (ServerError e)).

(** [POST /api/devices/<device_id>/effect] *)
Definition set_device_effect (data : pyval) (device_id : string)
  : M (st W) response :=
  mcatch
    ((missing <- mlift (lacks data "effect_id") ;;
      if (missing : bool) then
        mret (Reply (error_body "Effect ID is required") 400)
      else
        v <- mlift (item data "effect_id") ;;
        effect_id <- mlift (int v) ;;
        if effect_id <? 0 then
          mret (Reply (error_body "Effect ID must be positive") 400)
        else
          result <- device_manager.set_device_effect W esp32 (PStr device_id)
                      effect_id ;;
          if is_none result then mret not_found else mret (success result))%M)
    (fun e => mret (ServerError e)).

(** The function behind [GET /api/devices/<device_id>/state], before
    the decorator; [now] is the clock the manager reads. *)
Definition get_device_state_body (now : Z) (device_id : string) : M (st W) response :=
  (state <- device_manager.get_device_state W esp32 now (PStr device_id) ;;
   if is_none state then
     mtry (s <- mget ;;
           let did_int := normalize_id (PStr device_id) in
           dev_meta <- mlift (lookup_dev (devices_data s) did_int) ;;
           mret (state_reply (minimal_state dev_meta)))
          (mret not_found)
   else mret (state_reply state))%M.

(** [GET /api/devices/<device_id>/state] *)
Definition get_device_state (now : Z) (device_id : string) : M (st W) guarded :=
  handle_esp32_api_errors (get_device_state_body now device_id).

(** [POST /api/devices/<device_id>/apply_saved]; [fs] is the content of
    the disk when the manager reloads [devices_file]. *)
Definition apply_saved_device_state (devices_file : string) (fs : filesystem)
  (device_id : string) : M (st W) response :=
  mcatch
    ((result <- device_manager.apply_saved_state W esp32 devices_file fs
                  (PStr device_id) ;;
      if is_none result then
        mret (Reply (error_body "No saved state applied or device unreachable") 404)
      else mret (success result))%M)
    (fun e => mret (ServerError e)).

End Routes.

End device_routes.

(* ================================================================== *)
(** ** [device_manager.py]: registering devices                        *)
(* ================================================================== *)

Module device_registry.

Import file_helpers device_manager.

Section Registry.

Variable W : Type.

(** [esp32_client.get_device_info], possibly replaced. *)
Variable get_device_info : pyval -> W -> res pyval * W.

Variable devices_file : string.

(** [str(device_id)] in the f-string of the default name, for the
    values a dict accepts as keys. *)
Definition id_text (device_id : pyval) : option string :=
  match device_id with
  | PNone => Some "None"
  | PBool true => Some "True"
  | PBool false => Some "False"
  | PInt z => Some (NilZero.string_of_int (Z.to_int z))
  | PStr s => Some s
  | _ => None
  end.

(** The record of lines 641-649. *)
Definition new_record (now : Z) (id_as_text : string)
  (ip_address name location device_info : pyval) : pydict :=
  [("ip_address", ip_address);
   ("name", if truthy name then name
            else PStr (String.append "WLED Device " id_as_text));
   ("location", if truthy location then location else PStr "Unknown");
   ("type", PStr "wled");
   ("status", PStr "online");
   ("last_seen", PInt now);
   ("device_info", device_info)].

(** [add_device(device_id, ip_address, name, location)]: the value
    returned, the manager and the store; [now] is [int(time.time())].
    An unhashable [device_id] fails the membership test of line 631. *)
Definition add_device (now : Z) (device_id ip_address name location : pyval)
  (m : st W) (s : io) : res bool * st W * io :=
  match hash_key device_id, id_text device_id with
  | Ok k, Some id_as_text =>
      match klookup k (devices_data m) with
      | Some _ => (Ok false, m, s)
      | None =>
          let '(r, w1) := get_device_info ip_address (world m) in
          match r with
          | Raise e => (Raise e, mkSt (devices_data m) w1, s)
          | Ok device_info =>
              if negb (truthy device_info)
              then (Ok false, mkSt (devices_data m) w1, s)
              else
                let devices_data :=
                  kset (devices_data m) k
                    (new_record now id_as_text ip_address name location device_info) in
                let '(ok, s') := save_devices devices_file devices_data s in
                (Ok ok, mkSt devices_data w1, s')
          end
      end
  | _, _ => (Raise TypeError, m, s)
  end.

(** [esp32_client.discover_devices], possibly replaced. *)
Variable discover_devices : pyval -> W -> res (list pyval) * W.

(** [set(self.get_all_device_ips().values())] *)
Definition known_ips (devices_data : index) : res (list key) :=
  foldM (fun known ip => (k <- hash_key ip ;;
                          Ok (if existsb (key_eqb k) known then known
                              else (known ++ [k])%list))%res)
        (map snd (get_all_device_ips devices_data)) [].

(** [[ip for ip in discovered_ips if ip not in known_ips]] *)
Fixpoint not_known (known : list key) (discovered_ips : list pyval)
  : res (list pyval) :=
  match discovered_ips with
  | [] => Ok []
  | ip :: r =>
      (k <- hash_key ip ;;
       rest <- not_known known r ;;
       Ok (if existsb (key_eqb k) known then rest else ip :: rest))%res
  end.

(** [discover_new_devices(ip_range)] *)
Definition discover_new_devices (ip_range : pyval) (m : st W)
  : res (list pyval) * st W :=
  let '(r, w1) := discover_devices ip_range (world m) in
  let m1 := mkSt (devices_data m) w1 in
  match r with
  | Raise e => (Raise e, m1)
  | Ok discovered_ips =>
      ((known <- known_ips (devices_data m) ;; not_known known discovered_ips)%res, m1)
  end.

End Registry.

Arguments add_device {W} _ _ _ _ _ _ _ _ _.
Arguments discover_new_devices {W} _ _ _.

End device_registry.

(* ================================================================== *)
(** ** [file_helpers.py]: the hierarchy views of the inventory         *)
(* ================================================================== *)

Module hierarchy_files.

Import file_helpers.

(** [[f(x) for x in l]] and the loops that append [f(x)] to a list. *)
Fixpoint mapM {A B} (f : A -> res B) (l : list A) : res (list B) :=
  match l with
  | [] => Ok []
  | a :: r => (b <- f a ;; bs <- mapM f r ;; Ok (b :: bs))%res
  end.

(** Lines 76-89: one location of [load_hierarchy]. *)
Definition location_view (l : pyval) : res pyval :=
  (d0 <- get_default l "device_id" (PList []) ;;
   let devs := por d0 (PList []) in
   n <- len devs ;;
   first_dev <- (if 0 <? n then subscript devs 0 else Ok PNone) ;;
   id <- get l "location_id" ;;
   name <- get l "location_name" ;;
   description <- get_default l "location_description" (PStr "") ;;
   mac <- (if truthy first_dev then get first_dev "device_mac" else Ok PNone) ;;
   Ok (PDict [("id", id); ("name", name); ("description", description);
              ("device_id", devs); ("assigned_device_mac", mac)]))%res.

(** Lines 67-91. *)
Definition group_view (g : pyval) : res pyval :=
  (id <- get g "group_id" ;;
   name <- get g "group_name" ;;
   description <- get_default g "group_description" (PStr "") ;;
   locations <- get_default g "location" (PList []) ;;
   ll <- iter locations ;;
   location <- mapM location_view ll ;;
   Ok (PDict [("id", id); ("name", name); ("description", description);
              ("location", PList location)]))%res.

(** Lines 60-92. *)
Definition zone_view (z : pyval) : res pyval :=
  (id <- get z "zone_id" ;;
   name <- get z "zone_name" ;;
   description <- get_default z "zone_description" (PStr "") ;;
   groups <- get_default z "groups" (PList []) ;;
   gl <- iter groups ;;
   groups <- mapM group_view gl ;;
   Ok (PDict [("id", id); ("name", name); ("description", description);
              ("groups", PList groups)]))%res.

(** [load_hierarchy()] *)
Definition load_hierarchy (fs : filesystem) (path : string) : res pyval :=
  (net <- load_network_devices fs path ;;
   zones <- get_default net "zones" (PList []) ;;
   zl <- iter zones ;;
   out <- mapM zone_view zl ;;
   Ok (PDict [("zones", PList out)]))%res.

(** The keys of [existing_map]: tuples of three identifiers. *)
Definition key3 : Type := key * key * key.

Definition key3_eqb (a b : key3) : bool :=
  let '(a1, a2, a3) := a in
  let '(b1, b2, b3) := b in
  key_eqb a1 b1 && key_eqb a2 b2 && key_eqb a3 b3.

Definition hash3 (x y z : pyval) : res key3 :=
  (a <- hash_key x ;; b <- hash_key y ;; c <- hash_key z ;; Ok (a, b, c))%res.

Fixpoint k3lookup {V} (k : key3) (m : list (key3 * V)) : option V :=
  match m with
  | [] => None
  | (k', v) :: r => if key3_eqb k k' then Some v else k3lookup k r
  end.

Fixpoint k3set {V} (m : list (key3 * V)) (k : key3) (v : V) : list (key3 * V) :=
  match m with
  | [] => [(k, v)]
  | (k', v') :: r => if key3_eqb k k' then (k', v) :: r else (k', v') :: k3set r k v
  end.

(** Lines 110-112: one location of the network file goes into
    [existing_map]. *)
Definition record_location (z g : pyval) (existing_map : list (key3 * pyval))
  (l : pyval) : res (list (key3 * pyval)) :=
  (zid <- get z "zone_id" ;;
   gid <- get g "group_id" ;;
   lid <- get l "location_id" ;;
   d0 <- get_default l "device_id" (PList []) ;;
   k <- hash3 zid gid lid ;;
   Ok (k3set existing_map k (por d0 (PList []))))%res.

Definition record_group (z : pyval) (existing_map : list (key3 * pyval)) (g : pyval)
  : res (list (key3 * pyval)) :=
  (locations <- get_default g "location" (PList []) ;;
   ll <- iter locations ;;
   foldM (record_location z g) ll existing_map)%res.

Definition record_zone (existing_map : list (key3 * pyval)) (z : pyval)
  : res (list (key3 * pyval)) :=
  (groups <- get_default z "groups" (PList []) ;;
   gl <- iter groups ;;
   foldM (record_group z) gl existing_map)%res.

(** Lines 128-143: one location of the hierarchy goes back into the
    network shape. *)
Definition location_back (existing_map : list (key3 * pyval)) (z g l : pyval)
  : res pyval :=
  (supplied_devs <- get l "device" ;;
   devices_for_loc <-
     (if negb (is_none supplied_devs) then Ok supplied_devs
      else
        zid <- get z "id" ;;
        gid <- get g "id" ;;
        lid <- get l "id" ;;
        k <- hash3 zid gid lid ;;
        Ok (match k3lookup k existing_map with Some v => v | None => PList [] end)) ;;
   id <- get l "id" ;;
   name <- get l "name" ;;
   description <- get_default l "description" (PStr "") ;;
   Ok (PDict [("location_id", id); ("location_name", name);
              ("location_description", description);
              ("device", devices_for_loc)]))%res.

Definition group_back (existing_map : list (key3 * pyval)) (z g : pyval) : res pyval :=
  (id <- get g "id" ;;
   name <- get g "name" ;;
   description <- get_default g "description" (PStr "") ;;
   locations <- get_default g "location" (PList []) ;;
   ll <- iter locations ;;
   location <- mapM (location_back existing_map z g) ll ;;
   Ok (PDict [("group_id", id); ("group_name", name);
              ("group_description", description);
              ("location", PList location)]))%res.

Definition zone_back (existing_map : list (key3 * pyval)) (z : pyval) : res pyval :=
  (id <- get z "id" ;;
   name <- get z "name" ;;
   description <- get_default z "description" (PStr "") ;;
   groups <- get_default z "groups" (PList []) ;;
   gl <- iter groups ;;
   groups <- mapM (group_back existing_map z) gl ;;
   Ok (PDict [("zone_id", id); ("zone_name", name);
              ("zone_description", description);
              ("groups", PList groups)]))%res.

(** Lines 103-145: the document [save_hierarchy] is about to write. *)
Definition merged_network (fs : filesystem) (path : string) (hierarchy : pyval)
  : res pyval :=
  (net <- load_network_devices fs path ;;
   zones <- get_default net "zones" (PList []) ;;
   zl <- iter zones ;;
   existing_map <- foldM record_zone zl [] ;;
   hzones <- get_default hierarchy "zones" (PList []) ;;
   hl <- iter hzones ;;
   new_zones <- mapM (zone_back existing_map) hl ;;
   Ok (PDict [("zones", PList new_zones)]))%res.

(** [save_hierarchy(hierarchy)] *)
Definition save_hierarchy (path : string) (hierarchy : pyval) (s : io)
  : option (res unit * io) :=
  match merged_network (files s) path hierarchy with
  | Ok new_net => save_network_devices path new_net s
  | Raise e => Some (Raise e, s)
  end.

(** Lines 161-178: one device of [load_available_devices]. *)
Definition available_device (z g l : pyval) (devices : list pyval) (d : pyval)
  : res (list pyval) :=
  (id <- get d "device_id" ;;
   name <- get d "device_name" ;;
   mac_address <- get d "device_mac" ;;
   ip_address <- get d "device_ip" ;;
   description <- get_default d "device_description" (PStr "") ;;
   hostname <- get_default d "device_hostname" (PStr "") ;;
   current_color <- get_default d "device_current_color" PNone ;;
   segment_colors <- get_default d "device_segment_colors" (PList []) ;;
   zone_id <- get z "zone_id" ;;
   group_id <- get g "group_id" ;;
   location_id <- get l "location_id" ;;
   Ok (devices ++
       [PDict [("id", id); ("name", name); ("mac_address", mac_address);
               ("ip_address", ip_address); ("description", description);
               ("hostname", hostname); ("current_color", current_color);
               ("segment_colors", segment_colors);
               ("assigned_to_location",
                PDict [("zone_id", zone_id); ("group_id", group_id);
                       ("location_id", location_id)])]])%list)%res.

Definition available_in_location (z g : pyval) (devices : list pyval) (l : pyval)
  : res (list pyval) :=
  (ds <- get_default l "device" (PList []) ;;
   dl <- iter (por ds (PList [])) ;;
   foldM (available_device z g l) dl devices)%res.

Definition available_in_group (z : pyval) (devices : list pyval) (g : pyval)
  : res (list pyval) :=
  (locations <- get_default g "location" (PList []) ;;
   ll <- iter locations ;;
   foldM (available_in_location z g) ll devices)%res.

Definition available_in_zone (devices : list pyval) (z : pyval) : res (list pyval) :=
  (groups <- get_default z "groups" (PList []) ;;
   gl <- iter groups ;;
   foldM (available_in_group z) gl devices)%res.

(** [load_available_devices()]: the list under ['available_devices']. *)
Definition load_available_devices (fs : filesystem) (path : string)
  : res (list pyval) :=
  (net <- load_network_devices fs path ;;
   zones <- get_default net "zones" (PList []) ;;
   zl <- iter zones ;;
   foldM available_in_zone zl [])%res.

End hierarchy_files.

(* ================================================================== *)
(** ** [api/zones.py]: creating a zone                                 *)
(* ================================================================== *)

Module zones.

Import file_helpers.

(** [hierarchy['zones'].append(new_zone)]: the document afterwards. *)
Definition append_zone (hierarchy new_zone : pyval) : res pyval :=
  match hierarchy with
  | PDict d =>
      match assoc "zones" d with
      | Some (PList l) => Ok (PDict (dset d "zones" (PList (l ++ [new_zone])%list)))
      | Some _ => Raise AttributeError
      | None => Raise KeyError
      end
  | _ => Raise TypeError
  end.

(** The zone of lines 11-43, for the request body [data] and the
    number [n] of zones already there. *)
Definition new_zone_of (data : pyval) (n : Z) : res pyval :=
  (name <- get_default data "default_device_name" (PStr "Device 1") ;;
   mac <- get_default data "default_device_mac" PNone ;;
   description <- get_default data "default_device_description" (PStr "") ;;
   hostname <- get_default data "default_device_hostname" (PStr "") ;;
   current_color <- get_default data "default_device_current_color" PNone ;;
   segment_colors <- get_default data "default_device_segment_colors" (PList []) ;;
   let default_device :=
     PDict [("device_id", PInt 1); ("device_name", name); ("device_mac", mac);
            ("device_description", description); ("device_hostname", hostname);
            ("device_current_color", current_color);
            ("device_segment_colors", segment_colors)] in
   lname <- get_default data "default_location_name" (PStr "Location 1") ;;
   ldescription <- get_default data "default_location_description" (PStr "") ;;
   let default_location :=
     PDict [("location_id", PInt 1); ("location_name", lname);
            ("location_description", ldescription);
            ("device_id", PList [default_device])] in
   gname <- get_default data "default_group_name" (PStr "Group 1") ;;
   gdescription <- get_default data "default_group_description" (PStr "") ;;
   let default_group :=
     PDict [("group_id", PInt 1); ("group_name", gname);
            ("group_description", gdescription);
            ("locations", PList [default_location])] in
   zname <- get data "name" ;;
   zdescription <- get_default data "description" (PStr "") ;;
   Ok (PDict [("zone_id", PInt (n + 1)); ("zone_name", zname);
              ("zone_description", zdescription);
              ("groups", PList [default_group])]))%res.

(** Lines 8-44: the zone created and the document to save. *)
Definition zone_and_document (fs : filesystem) (path : string) (data : pyval)
  : res (pyval * pyval) :=
  (hierarchy <- load_network_devices fs path ;;
   zones <- get_default hierarchy "zones" (PList []) ;;
   n <- len zones ;;
   new_zone <- new_zone_of data n ;;
   document <- append_zone hierarchy new_zone ;;
   Ok (new_zone, document))%res.

(** [POST /api/zones]: the zone sent back in the reply; an exception
    leaves the route, which has no handler of its own. *)
Definition create_zone (path : string) (data : pyval) (s : io)
  : option (res pyval * io) :=
  match zone_and_document (files s) path data with
  | Raise e => Some (Raise e, s)
  | Ok (new_zone, document) =>
      match save_network_devices path document s with
      | Some (Ok _, s') => Some (Ok new_zone, s')
      | Some (Raise e, s') => Some (Raise e, s')
      | None => None
      end
  end.

End zones.

(* ================================================================== *)
(** ** [api/assignments.py]: assigning a device                        *)
(* ================================================================== *)

Module assignments.

Import file_helpers hierarchy_files.

(** [a == b] between parsed JSON values. *)
Fixpoint py_eq (a b : pyval) {struct a} : bool :=
  match a, b with
  | PNone, PNone => true
  | PStr s, PStr t => String.eqb s t
  | PList l, PList m =>
      (fix all2 (l : list pyval) (m : list pyval) {struct l} : bool :=
         match l, m with
         | [], [] => true
         | x :: l', y :: m' => py_eq x y && all2 l' m'
         | _, _ => false
         end) l m
  | PDict d, PDict e =>
      (List.length d =? List.length e)%nat &&
      (fix every (d : list (string * pyval)) {struct d} : bool :=
         match d with
         | [] => true
         | (k, v) :: d' =>
             match assoc k e with
             | Some v' => py_eq v v'
             | None => false
             end && every d'
         end) d
  | _, _ =>
      match as_int a, as_int b with
      | Some x, Some y => x =? y
      | _, _ => false
      end
  end.

(** [x[k]] for a string literal [k]. *)
Definition item (x : pyval) (k : string) : res pyval :=
  match x with
  | PDict d => match assoc k d with Some v => Ok v | None => Raise KeyError end
  | _ => Raise TypeError
  end.

(** [next((x for x in l if x['id'] == wanted), None)] *)
Fixpoint next_with_id (l : list pyval) (wanted : pyval) : res pyval :=
  match l with
  | [] => Ok PNone
  | x :: r =>
      (id <- item x "id" ;;
       if py_eq id wanted then Ok x else next_with_id r wanted)%res
  end.

Definition error_reply (message : string) : pyval :=
  PDict [("status", PStr "error"); ("message", PStr message)].

(** Lines 8-22, up to the evaluation of [group['locations']]: an early
    reply, or the hierarchy, the group and its locations. *)
Definition find_group (fs : filesystem) (path : string) (data : pyval)
  : res (pyval + pyval * pyval * pyval) :=
  (_ <- get data "mac_address" ;;
   zone_id <- get data "zone_id" ;;
   group_id <- get data "group_id" ;;
   _ <- get data "location_id" ;;
   hierarchy <- load_hierarchy fs path ;;
   zones <- item hierarchy "zones" ;;
   zl <- iter zones ;;
   zone <- next_with_id zl zone_id ;;
   if negb (truthy zone) then Ok (inl (error_reply "Zone not found"))
   else
     groups <- item zone "groups" ;;
     gl <- iter groups ;;
     group <- next_with_id gl group_id ;;
     if negb (truthy group) then Ok (inl (error_reply "Group not found"))
     else
       locations <- item group "locations" ;;
       Ok (inr (hierarchy, group, locations)))%res.

Section Assign.

(** Lines 22-37, from the search among the group's locations on. *)
Variable rest : pyval -> pyval * pyval * pyval -> io -> option (res pyval * io).

(** [POST /api/assign_device]: the body sent back; an exception leaves
    the route, which has no handler of its own. *)
Definition assign_device (path : string) (data : pyval) (s : io)
  : option (res pyval * io) :=
  match find_group (files s) path data with
  | Raise e => Some (Raise e, s)
  | Ok (inl reply) => Some (Ok reply, s)
  | Ok (inr found) => rest data found s
  end.

End Assign.

End assignments.

(* ================================================================== *)
(** ** [app/__init__.py]: the property order of a device               *)
(* ================================================================== *)

Module app_order.

Import assignments.

Definition device_order : list string :=
  ["device_id"; "device_name"; "device_description"; "device_hostname";
   "device_ip"; "device_mac"; "device_current_color"; "device_segment_colors"].

(** [x[i]] for an integer [i] on a sequence of [n] elements: negative
    indices count from the end. *)
Definition position (n : nat) (i : Z) : option nat :=
  if (0 <=? i) && (i <? Z.of_nat n) then Some (Z.to_nat i)
  else if (i <? 0) && (0 <=? Z.of_nat n + i) then Some (Z.to_nat (Z.of_nat n + i))
  else None.

(** [device_data[key]] *)
Definition at_key (device_data field : pyval) : res pyval :=
  match device_data with
  | PDict d =>
      match field with
      | PStr s => match assoc s d with Some v => Ok v | None => Raise KeyError end
      | PNone | PBool _ | PInt _ => Raise KeyError
      | _ => Raise TypeError
      end
  | PList l =>
      match as_int field with
      | Some i =>
          match position (List.length l) i with
          | Some p => match nth_error l p with Some v => Ok v | None => Raise IndexError end
          | None => Raise IndexError
          end
      | None => Raise TypeError
      end
  | PStr s =>
      match as_int field with
      | Some i =>
          match position (String.length s) i with
          | Some p =>
              match nth_error (chars s) p with Some v => Ok v | None => Raise IndexError end
          | None => Raise IndexError
          end
      | None => Raise TypeError
      end
  | _ => Raise TypeError
  end.

(** [key in device_order] *)
Definition in_order (field : pyval) : bool :=
  existsb (fun o => py_eq field (PStr o)) device_order.

(** The first loop (lines 102-104): the known properties, in the fixed
    order. *)
Definition known_first (device_data : pyval) (ordered_device : list (key * pyval))
  (k : string) : res (list (key * pyval)) :=
  (present <- contains k device_data ;;
   if (present : bool) then
     v <- at_key device_data (PStr k) ;;
     Ok (kset ordered_device (KStr k) v)
   else Ok ordered_device)%res.

(** The second loop (lines 107-109): any remaining property. *)
Definition remaining_next (device_data : pyval) (ordered_device : list (key * pyval))
  (field : pyval) : res (list (key * pyval)) :=
  if in_order field then Ok ordered_device
  else (v <- at_key device_data field ;;
        k <- hash_key field ;;
        Ok (kset ordered_device k v))%res.

(** [normalize_device(device_data)]: the [OrderedDict] returned, as its
    items in order. *)
Definition normalize_device (device_data : pyval) : res (list (key * pyval)) :=
  (ordered_device <- foldM (known_first device_data) device_order [] ;;
   keys <- iter device_data ;;
   foldM (remaining_next device_data) keys ordered_device)%res.

End app_order.

(* ================================================================== *)
(** ** [api/groups.py]: creating a group                               *)
(* ================================================================== *)

Module groups.

Import file_helpers devices assignments.

(** [a > b] between parsed JSON values: numbers with numbers, strings
    with strings, lists with lists (at the first pair of elements that
    differ); anything else is a [TypeError]. *)
Fixpoint py_gt (a b : pyval) {struct a} : res bool :=
  match a, b with
  | PStr s, PStr t => Ok (match String.compare s t with Gt => true | _ => false end)
  | PList l, PList m =>
      (fix cmp (l : list pyval) (m : list pyval) {struct l} : res bool :=
         match l, m with
         | [], _ => Ok false
         | _ :: _, [] => Ok true
         | x :: l', y :: m' => if py_eq x y then cmp l' m' else py_gt x y
         end) l m
  | _, _ =>
      match as_int a, as_int b with
      | Some x, Some y => Ok (y <? x)
      | _, _ => Raise TypeError
      end
  end.

(** The loop of [max]: the elements are read one by one, [cur] being
    the greatest so far. *)
Fixpoint max_loop (k : string) (l : list pyval) (cur : pyval) : res pyval :=
  match l with
  | [] => Ok cur
  | g :: r =>
      (v <- get_default g k (PInt 0) ;;
       b <- py_gt v cur ;;
       max_loop k r (if (b : bool) then v else cur))%res
  end.

(** [max((g.get(k, 0) for g in l), default=0)] *)
Definition max_of (k : string) (l : list pyval) : res pyval :=
  match l with
  | [] => Ok (PInt 0)
  | g :: r => (v <- get_default g k (PInt 0) ;; max_loop k r v)%res
  end.

(** [max_id + 1] *)
Definition plus_one (max_id : pyval) : res pyval :=
  match as_int max_id with
  | Some n => Ok (PInt (n + 1))
  | None => Raise TypeError
  end.

(** [next((z for z in l if z.get(k) == wanted), None)], with the
    position of the element found. *)
Fixpoint next_where (k : string) (wanted : Z) (l : list pyval) (pos : nat)
  : res (option (nat * pyval)) :=
  match l with
  | [] => Ok None
  | z :: r =>
      (v <- get z k ;;
       if py_eq v (PInt wanted) then Ok (Some (pos, z))
       else next_where k wanted r (S pos))%res
  end.

Fixpoint replace_at (pos : nat) (v : pyval) (l : list pyval) : list pyval :=
  match l, pos with
  | [], _ => []
  | _ :: r, O => v :: r
  | x :: r, S p => x :: replace_at p v r
  end.

(** Lines 70-98: the group to add, for the request body [data] and the
    identifier [new_id]. *)
Definition new_group_of (data new_id : pyval) : res pyval :=
  (name <- get_default data "default_device_name" (PStr "Device 1") ;;
   description <- get_default data "default_device_description" (PStr "") ;;
   hostname <- get_default data "default_device_hostname" PNone ;;
   ip <- get_default data "default_device_ip" PNone ;;
   mac <- get_default data "default_device_mac" PNone ;;
   current_color <- get_default data "default_device_current_color" PNone ;;
   segment_colors <- get_default data "default_device_segment_colors" (PList []) ;;
   let default_device :=
     PDict [("device_id", PInt 1); ("device_name", name);
            ("device_description", description); ("device_hostname", hostname);
            ("device_ip", ip); ("device_mac", mac);
            ("device_current_color", current_color);
            ("device_segment_colors", segment_colors)] in
   ldescription <- get_default data "default_location_description" (PStr "") ;;
   lname <- get_default data "default_location_name" (PStr "Location 1") ;;
   let default_location :=
     PDict [("location_description", ldescription); ("location_id", PInt 1);
            ("location_name", lname); ("device", PList [default_device])] in
   gdescription <- get_default data "description" (PStr "") ;;
   gname <- get data "name" ;;
   Ok (PDict [("group_description", gdescription); ("group_id", new_id);
              ("group_name", gname); ("location", PList [default_location])]))%res.

(** Lines 63-100: the zone with the new group, and the new group. *)
Definition zone_with_new_group (zone data : pyval) : res (pyval * pyval) :=
  (existing_groups <- get_default zone "groups" (PList []) ;;
   new_id <- (if negb (truthy existing_groups) then Ok (PInt 1)
              else
                gl <- iter existing_groups ;;
                max_id <- max_of "group_id" gl ;;
                plus_one max_id) ;;
   new_group <- new_group_of data new_id ;;
   match zone with
   | PDict zd =>
       if negb (truthy existing_groups)
       then Ok (PDict (dset zd "groups" (PList [new_group])), new_group)
       else match existing_groups with
            | PList gl => Ok (PDict (dset zd "groups" (PList (gl ++ [new_group])%list)),
                              new_group)
            | _ => Raise AttributeError
            end
   | _ => Raise AttributeError
   end)%res.

Definition created (new_group : pyval) : response :=
  Reply (PDict [("status", PStr "success"); ("group", new_group)]) 201.

(** Lines 47-100: an early reply, or the group created and the
    document to save. *)
Definition group_and_document (fs : filesystem) (path : string) (zone_id : Z)
  (data : pyval) : res (response + pyval * pyval) :=
  (unnamed <- (if negb (truthy data) then Ok true
               else (name <- get data "name" ;; Ok (negb (truthy name)))) ;;
   if (unnamed : bool) then Ok (inl (Reply (error_body "Group name is required") 400))
   else
     hierarchy <- load_network_devices fs path ;;
     zones <- get_default hierarchy "zones" (PList []) ;;
     zl <- iter zones ;;
     found <- next_where "zone_id" zone_id zl 0 ;;
     match found with
     | None => Ok (inl (Reply (error_body "Zone not found") 404))
     | Some (pos, zone) =>
         if negb (truthy zone) then Ok (inl (Reply (error_body "Zone not found") 404))
         else
           zg <- zone_with_new_group zone data ;;
           match hierarchy with
           | PDict hd =>
               Ok (inr (snd zg,
                        PDict (dset hd "zones" (PList (replace_at pos (fst zg) zl)))))
           | _ => Raise AttributeError
           end
     end)%res.

(** [POST /api/zones/<int:zone_id>/groups] *)
Definition create_group (path : string) (zone_id : Z) (data : pyval) (s : io)
  : option (response * io) :=
  match group_and_document (files s) path zone_id data with
  | Raise e => Some (ServerError e, s)
  | Ok (inl reply) => Some (reply, s)
  | Ok (inr (new_group, document)) =>
      match save_network_devices path document s with
      | Some (Ok _, s') => Some (created new_group, s')
      | Some (Raise e, s') => Some (ServerError e, s')
      | None => None
      end
  end.

End groups.

(* ================================================================== *)
(** ** Vocabulary of the index properties                              *)
(* ================================================================== *)

Module index_props.

Import file_helpers device_manager.

(** The three identifiers [load_devices] stamps on every record. *)
Definition stamped (d : pydict) : Prop :=
  assoc "zone_id" d <> None /\ assoc "group_id" d <> None
  /\ assoc "location_id" d <> None.

(** A key as [load_devices] stores it: never a string that reads as an
    integer. *)
Definition normal_key (k : key) : Prop :=
  match k with KStr s => int_of_str 10 s = None | _ => True end.

Definition loaded_entry (kd : key * pydict) : Prop :=
  normal_key (fst kd) /\ stamped (snd kd).

(** The value of a decimal numeral read digit by digit from [acc]. *)
Fixpoint uint_value (d : Decimal.uint) (acc : Z) : Z :=
  match d with
  | Decimal.Nil => acc
  | Decimal.D0 r => uint_value r (acc * 10 + 0)
  | Decimal.D1 r => uint_value r (acc * 10 + 1)
  | Decimal.D2 r => uint_value r (acc * 10 + 2)
  | Decimal.D3 r => uint_value r (acc * 10 + 3)
  | Decimal.D4 r => uint_value r (acc * 10 + 4)
  | Decimal.D5 r => uint_value r (acc * 10 + 5)
  | Decimal.D6 r => uint_value r (acc * 10 + 6)
  | Decimal.D7 r => uint_value r (acc * 10 + 7)
  | Decimal.D8 r => uint_value r (acc * 10 + 8)
  | Decimal.D9 r => uint_value r (acc * 10 + 9)
  end.

(** The length a segment of a state reply declares, 0 when it declares
    none. *)
Definition seg_len (sd : pydict) : Z :=
  match assoc "len" sd with
  | Some v => match as_int (por v (PInt 0)) with Some n => n | None => 0 end
  | None => 0
  end.

Definition total_len (segs : list pydict) : Z :=
  fold_right Z.add 0 (map seg_len segs).

(** A segment whose ['len'], if any, is a number. *)
Definition plain_segment (sd : pydict) : Prop :=
  match assoc "len" sd with
  | Some v => v = PNone \/ exists n, as_int v = Some n
  | None => True
  end.

(** A manager with an empty index, and a device that answers every
    information query with [info]. *)
Definition answering (info : pyval) (_ : pyval) (w : unit) : res pyval * unit :=
  (Ok info, w).

Definition empty_store : io := mkIO [] 0 [].

End index_props.

(* ================================================================== *)
(** ** Vocabulary of the validation properties                         *)
(* ================================================================== *)

Module address_props.

(** [str(n)] *)
Definition decimal (n : Z) : string := NilZero.string_of_int (Z.to_int n).

(** The text [a.b.c.d]. *)
Definition dotted_quad (a b c d : Z) : string :=
  String.append (decimal a)
    (String "." (String.append (decimal b)
       (String "." (String.append (decimal c) (String "." (decimal d)))))).

Definition octet (n : Z) : Prop := 0 <= n <= 255.

(** A network that counts the exchanges made on it. *)
Definition counted {W : Type}
  (http : esp32_client.request -> W -> esp32_client.http_outcome * W)
  (rq : esp32_client.request) (wn : W * nat) : esp32_client.http_outcome * (W * nat) :=
  let '(o, w') := http rq (fst wn) in (o, (w', S (snd wn))).

(** The state [set_color] sends for the channels [cs]. *)
Definition color_payload (cs : list Z) : pyval :=
  PDict [("seg", PList [PDict [("col", PList [PList (map PInt cs)])]])].

(** A part of an address that reads as an octet. *)
Definition reads_as_octet (part : string) : Prop :=
  exists n, int_of_str 10 part = Some n /\ octet n.

Definition no_dot (c : ascii) : bool := negb (Ascii.eqb c "."%char).

(** A list that does not start with a character [p] accepts. *)
Definition trimmed_front (p : ascii -> bool) (l : list ascii) : Prop :=
  match l with [] => True | h :: _ => p h = false end.

(** A character that is neither white space nor a dot. *)
Definition plain (c : ascii) : Prop := is_space c = false /\ no_dot c = true.

End address_props.

(* ================================================================== *)
(** ** Vocabulary of the hierarchy properties                          *)
(* ================================================================== *)

Module inventory_props.

Import file_helpers.

(** An inventory in the shape the routes that create groups, locations
    and devices write: zones of groups of locations, each location with
    its devices under ['device']. *)
Record location_spec : Type := mkLocation {
  l_id : Z; l_name : pyval; l_description : pyval; l_devices : list pyval
}.

Record group_spec : Type := mkGroup {
  g_id : Z; g_name : pyval; g_description : pyval; g_locations : list location_spec
}.

Record zone_spec : Type := mkZone {
  z_id : Z; z_name : pyval; z_description : pyval; z_groups : list group_spec
}.

Definition render_location (l : location_spec) : pyval :=
  PDict [("location_id", PInt (l_id l)); ("location_name", l_name l);
         ("location_description", l_description l);
         ("device", PList (l_devices l))].

Definition render_group (g : group_spec) : pyval :=
  PDict [("group_id", PInt (g_id g)); ("group_name", g_name g);
         ("group_description", g_description g);
         ("location", PList (map render_location (g_locations g)))].

Definition render_zone (z : zone_spec) : pyval :=
  PDict [("zone_id", PInt (z_id z)); ("zone_name", z_name z);
         ("zone_description", z_description z);
         ("groups", PList (map render_group (z_groups z)))].

Definition render (zones : list zone_spec) : pyval :=
  PDict [("zones", PList (map render_zone zones))].

(** The same inventory with every device list emptied. *)
Definition location_without_devices (l : location_spec) : location_spec :=
  mkLocation (l_id l) (l_name l) (l_description l) [].

Definition group_without_devices (g : group_spec) : group_spec :=
  mkGroup (g_id g) (g_name g) (g_description g)
          (map location_without_devices (g_locations g)).

Definition without_devices (z : zone_spec) : zone_spec :=
  mkZone (z_id z) (z_name z) (z_description z) (map group_without_devices (z_groups z)).

(** What [load_hierarchy] makes of such an inventory. *)
Definition view_of_location (l : location_spec) : pyval :=
  PDict [("id", PInt (l_id l)); ("name", l_name l); ("description", l_description l);
         ("device_id", PList []); ("assigned_device_mac", PNone)].

Definition view_of_group (g : group_spec) : pyval :=
  PDict [("id", PInt (g_id g)); ("name", g_name g); ("description", g_description g);
         ("location", PList (map view_of_location (g_locations g)))].

Definition view_of_zone (z : zone_spec) : pyval :=
  PDict [("id", PInt (z_id z)); ("name", z_name z); ("description", z_description z);
         ("groups", PList (map view_of_group (z_groups z)))].

Definition view (zones : list zone_spec) : pyval :=
  PDict [("zones", PList (map view_of_zone zones))].

(** A group as [load_hierarchy] returns it: its locations are under
    ['location']. *)
Definition group_shaped (g : pyval) : Prop :=
  exists id name description location,
    g = PDict [("id", id); ("name", name); ("description", description);
               ("location", PList location)].

Definition zone_shaped (z : pyval) : Prop :=
  exists id name description groups,
    z = PDict [("id", id); ("name", name); ("description", description);
               ("groups", PList groups)]
    /\ Forall group_shaped groups.

(** The key [load_devices] gives a device identifier: a string that
    reads as an integer becomes that integer. *)
Definition key_of_id (id : pyval) : res key :=
  hash_key (if isinstance_str id
            then match int id with Ok n => PInt n | Raise _ => id end
            else id).

(** An indexed record and an available device that describe the same
    device: the record's key is the device's identifier as
    [load_devices] reads it, and they agree on the address and on the
    zone, group and location. *)
Definition same_device (k : key) (record : pydict) (dev : pyval) : Prop :=
  exists d id,
    dev = PDict d
    /\ assoc "id" d = Some id
    /\ key_of_id id = Ok k
    /\ dget d "ip_address" = dget record "device_ip"
    /\ dget d "assigned_to_location"
       = PDict [("zone_id", dget record "zone_id");
                ("group_id", dget record "group_id");
                ("location_id", dget record "location_id")].

(** The index and the list of available devices describe the same
    devices: every indexed record has its available device, and the
    identifier of every available device is a key of the index. *)
Definition same_devices (i : device_manager.index) (devices : list pyval) : Prop :=
  (forall k record, klookup k i = Some record ->
                    exists dev, In dev devices /\ same_device k record dev)
  /\ (forall dev, In dev devices ->
                  exists d id k,
                    dev = PDict d /\ assoc "id" d = Some id
                    /\ key_of_id id = Ok k /\ klookup k i <> None).

(** One pass of a loop of [normalize_device] on a record [d]: the
    field [k] is copied when it satisfies [c]. *)
Definition copy_field (d : pydict) (c : string -> bool) (a : list (key * pyval))
  (k : string) : list (key * pyval) :=
  if c k then kset a (KStr k) (dget d k) else a.

(** The properties of a device record [d] that [normalize_device]
    knows, in its fixed order, and the others, in the record's order. *)
Definition known_fields (d : pydict) : list string :=
  filter (fun k => match assoc k d with Some _ => true | None => false end)
         app_order.device_order.

Definition other_fields (d : pydict) : list string :=
  filter (fun k => negb (existsb (String.eqb k) app_order.device_order)) (map fst d).

(** What the search of [assign_device] can come to. *)
Definition find_group_outcome (r : res (pyval + pyval * pyval * pyval)) : Prop :=
  r = Ok (inl (assignments.error_reply "Zone not found"))
  \/ r = Ok (inl (assignments.error_reply "Group not found"))
  \/ exists e, r = Raise e.

(** The inventory of the repository's fixture, in that shape. *)
Definition fixture_zones : list zone_spec :=
  [mkZone 1 (PStr "Zone 1") (PStr "")
     [mkGroup 1 (PStr "Group 1") (PStr "")
        [mkLocation 1 (PStr "Location 1") (PStr "")
           [PDict [("device_id", PInt 1); ("device_ip", PStr "10.0.0.140")]]]]].

Definition fixture_store : io :=
  mkIO [("data/network_devices.json", Doc (render fixture_zones))] 0 [].

End inventory_props.

(* ================================================================== *)
(** ** The segment mapping engine                                      *)
(* ================================================================== *)

Module engine_facts.

Import file_helpers device_manager props.
Local Open Scope list_scope.

Arguments _hex_to_rgb : simpl never.

Lemma rbind_ok {A B} (a : A) (k : A -> res B) : rbind (Ok a) k = k a.
Proof. reflexivity. Qed.

Lemma foldM_app {A B} (f : A -> B -> res A) (l1 l2 : list B) (a : A) :
  foldM f (l1 ++ l2) a = rbind (foldM f l1 a) (foldM f l2).
Proof.
  revert a; induction l1 as [|b l1 IH]; intros a; simpl.
  - reflexivity.
  - destruct (f a b) as [a'|e]; simpl; [apply IH | reflexivity].
Qed.

(** One candidate is converted on its own, whatever was collected
    before it. *)
Lemma convert_entry_candidate (acc : list pyval) (c : candidate) :
  convert_entry acc (entry_of c) = Ok (acc ++ updates_of_candidate c).
Proof.
  destruct c as [[color start] stop].
  unfold convert_entry, entry_of, mapping_entry, updates_of_candidate; simpl.
  destruct (_hex_to_rgb color) as [[[r g] b]|]; simpl.
  - destruct (start <? stop); [reflexivity | now rewrite app_nil_r].
  - now rewrite app_nil_r.
Qed.

Lemma convert_candidates (cs : list candidate) (acc : list pyval) :
  foldM convert_entry (map entry_of cs) acc
  = Ok (acc ++ flat_map updates_of_candidate cs).
Proof.
  revert acc; induction cs as [|c cs IH]; intros acc; simpl.
  - now rewrite app_nil_r.
  - rewrite convert_entry_candidate; simpl. rewrite IH, <- app_assoc. reflexivity.
Qed.

Lemma seg_updates_of_candidates (cs : list candidate) :
  seg_updates_of (PList (map entry_of cs)) = Ok (flat_map updates_of_candidate cs).
Proof.
  destruct cs as [|c cs]; [reflexivity|].
  unfold seg_updates_of. change (entry_of c :: map entry_of cs) with (map entry_of (c :: cs)).
  simpl map. apply (convert_candidates (c :: cs) []).
Qed.

Lemma one_led_segments_all (cols : list pyval) (idx c : Z) :
  idx + Z.of_nat (List.length cols) <= c ->
  one_led_segments cols idx (PInt c) = Ok (map entry_of (one_led_candidates cols idx)).
Proof.
  revert idx; induction cols as [|col cols IH]; intros idx H; simpl in *.
  - reflexivity.
  - unfold ge; simpl.
    replace (c <=? idx) with false by (symmetry; apply Z.leb_gt; lia).
    rewrite IH by lia. reflexivity.
Qed.

Lemma generate_mapping_list (cols : list pyval) (curr : pyval) (c : Z) :
  Z.of_nat (List.length cols) <= c ->
  generate_mapping (PList cols) curr (PInt c)
  = Ok (map entry_of (generated_candidates cols curr c)).
Proof.
  intros H. unfold generate_mapping, generated_candidates.
  destruct cols as [|c0 cols].
  - simpl. destruct (truthy curr); simpl; [reflexivity|].
    unfold gt; simpl. destruct (0 <? c); reflexivity.
  - cbn [len rbind].
    set (n := Z.of_nat (List.length (c0 :: cols))) in *.
    assert (Hn : (0 <? n) = true) by (apply Z.ltb_lt; subst n; simpl; lia).
    rewrite Hn. cbn [subscript nth_error rbind truthy negb andb iter].
    assert (Hc1 : (if 1 <? n
                   then match match cols with [] => None | x :: _ => Some x end with
                        | Some v => Ok v
                        | None => Raise IndexError
                        end
                   else Ok PNone)
                  = Ok (nth 1 (c0 :: cols) PNone)).
    { destruct cols as [|c1 cols]; subst n; [reflexivity|].
      replace (1 <? Z.of_nat (List.length (c0 :: c1 :: cols))) with true
        by (symmetry; apply Z.ltb_lt; simpl List.length; lia).
      reflexivity. }
    rewrite Hc1. cbn [rbind].
    rewrite (one_led_segments_all (c0 :: cols) 0 c) by (fold n; lia).
    cbn [rbind]. unfold gt; cbn [as_int rbind].
    fold (rest_color (c0 :: cols) curr).
    change (if truthy curr then curr else por (nth 1 (c0 :: cols) PNone) c0)
      with (rest_color (c0 :: cols) curr).
    destruct ((n <? c) && truthy (rest_color (c0 :: cols) curr)).
    + rewrite map_app. reflexivity.
    + rewrite app_nil_r. reflexivity.
Qed.

Lemma effective_led_count_value (reported : option Z) (cols : list pyval) :
  effective_led_count (match reported with Some n => PInt n | None => PNone end)
    (PList cols)
  = Ok (PInt (Z.max (match reported with
                     | Some n => if 0 <? n then n else 60
                     | None => 60
                     end) (Z.of_nat (List.length cols)))).
Proof.
  unfold effective_led_count.
  destruct reported as [n|]; cbn [truthy].
  - destruct (Z.eqb_spec n 0) as [->|Hn]; cbn [negb rbind].
    + cbn. destruct (60 <? Z.of_nat (List.length cols)) eqn:E.
      * apply Z.ltb_lt in E. f_equal. f_equal. lia.
      * apply Z.ltb_ge in E. f_equal. f_equal. lia.
    + unfold gt at 1. cbn [as_int rbind]. destruct (0 <? n) eqn:Hp.
      * cbn. destruct (n <? Z.of_nat (List.length cols)) eqn:E.
        -- apply Z.ltb_lt in E. f_equal. f_equal. lia.
        -- apply Z.ltb_ge in E. f_equal. f_equal. lia.
      * cbn. destruct (60 <? Z.of_nat (List.length cols)) eqn:E.
        -- apply Z.ltb_lt in E. f_equal. f_equal. lia.
        -- apply Z.ltb_ge in E. f_equal. f_equal. lia.
  - cbn. destruct (60 <? Z.of_nat (List.length cols)) eqn:E.
    + apply Z.ltb_lt in E. f_equal. f_equal. lia.
    + apply Z.ltb_ge in E. f_equal. f_equal. lia.
Qed.

Lemma nth_error_one_led (cols : list pyval) (idx : Z) (i : nat) (col : pyval) :
  nth_error cols i = Some col ->
  nth_error (one_led_candidates cols idx) i
  = Some (col, idx + Z.of_nat i, idx + Z.of_nat i + 1).
Proof.
  revert idx i; induction cols as [|c0 cols IH]; intros idx [|i] H; simpl in *;
    try discriminate.
  - injection H as ->. now rewrite Z.add_0_r.
  - rewrite (IH (idx + 1) i H). f_equal. f_equal; [f_equal|]; lia.
Qed.

(** *** Colours *)


Lemma drop_while_all_false (p : ascii -> bool) (l : list ascii) :
  Forall (fun c => p c = false) l -> drop_while p l = l.
Proof.
  intros H; destruct H as [|c l Hc _]; simpl; [reflexivity | now rewrite Hc].
Qed.

Lemma strip_with_all_false (p : ascii -> bool) (l : list ascii) :
  Forall (fun c => p c = false) l -> strip_with p l = l.
Proof.
  intros H. unfold strip_with.
  rewrite (drop_while_all_false p l H).
  rewrite drop_while_all_false by (apply Forall_rev; exact H).
  apply rev_involutive.
Qed.






(** *** Coverage of the strip *)

Lemma covers_seg_update (k a b r g bl : Z) :
  covers k (seg_update a b r g bl) = (a <=? k) && (k <? b).
Proof. reflexivity. Qed.

Lemma cover_count_cons (k : Z) (u : pyval) (l : list pyval) :
  cover_count k (u :: l) = ((if covers k u then 1 else 0) + cover_count k l)%nat.
Proof. unfold cover_count; simpl. now destruct (covers k u). Qed.

Lemma cover_count_app (k : Z) (l1 l2 : list pyval) :
  cover_count k (l1 ++ l2) = (cover_count k l1 + cover_count k l2)%nat.
Proof. unfold cover_count. now rewrite filter_app, length_app. Qed.

Lemma accepted_is_truthy (color : pyval) :
  _hex_to_rgb color <> None -> truthy color = true.
Proof.
  unfold _hex_to_rgb. destruct color; try congruence.
  destruct (truthy (PStr s)); [reflexivity | cbn; congruence].
Qed.

Lemma updates_of_accepted (color : pyval) (a b : Z) :
  _hex_to_rgb color <> None ->
  exists r g bl, _hex_to_rgb color = Some (r, g, bl)
                 /\ updates_of_candidate (color, a, b)
                    = if a <? b then [seg_update a b r g bl] else [].
Proof.
  intros H. unfold updates_of_candidate.
  destruct (_hex_to_rgb color) as [[[r g] bl]|]; [|congruence].
  now exists r, g, bl.
Qed.

Lemma cover_one_led (cols : list pyval) (idx k : Z) :
  Forall (fun col => _hex_to_rgb col <> None) cols ->
  cover_count k (flat_map updates_of_candidate (one_led_candidates cols idx))
  = if (idx <=? k) && (k <? idx + Z.of_nat (List.length cols)) then 1%nat else 0%nat.
Proof.
  intros H; revert idx; induction H as [|col cols Hcol _ IH]; intros idx.
  - simpl. rewrite Z.add_0_r.
    destruct (Z.leb_spec idx k), (Z.ltb_spec k idx); simpl; try reflexivity; lia.
  - cbn [one_led_candidates flat_map].
    destruct (updates_of_accepted col idx (idx + 1) Hcol) as (r & g & bl & _ & ->).
    replace (idx <? idx + 1) with true by (symmetry; apply Z.ltb_lt; lia).
    cbn [app]. rewrite cover_count_cons, covers_seg_update, IH.
    simpl List.length. rewrite Nat2Z.inj_succ.
    destruct (Z.leb_spec idx k), (Z.ltb_spec k (idx + 1)),
      (Z.leb_spec (idx + 1) k), (Z.ltb_spec k (idx + 1 + Z.of_nat (List.length cols))),
      (Z.ltb_spec k (idx + Z.succ (Z.of_nat (List.length cols))));
      simpl; try reflexivity; lia.
Qed.

Lemma proper_one_led (cols : list pyval) (idx : Z) :
  Forall proper_range (flat_map updates_of_candidate (one_led_candidates cols idx)).
Proof.
  revert idx; induction cols as [|col cols IH]; intros idx; simpl.
  - constructor.
  - apply Forall_app; split; [|apply IH].
    destruct (_hex_to_rgb col) as [[[r g] bl]|]; [|constructor].
    replace (idx <? idx + 1) with true by (symmetry; apply Z.ltb_lt; lia).
    constructor; [|constructor].
    exists idx, (idx + 1). split; [reflexivity | lia].
Qed.

(** C2.  For every LED count [c >= len(segment_colors)], non-empty saved
    colours that all convert and a current colour that converts, the
    generated mapping is converted to ranges that tile [[0, c)]: every
    LED of the strip lies in exactly one range, no range reaches outside
    the strip, and every range has [start < stop]. *)
Theorem generated_ranges_tile_the_strip
  (cols : list pyval) (curr : pyval) (c : Z) :
  cols <> [] ->
  Z.of_nat (List.length cols) <= c ->
  Forall (fun col => _hex_to_rgb col <> None) cols ->
  _hex_to_rgb curr <> None ->
  exists mapping ranges,
    generate_mapping (PList cols) curr (PInt c) = Ok mapping
    /\ seg_updates_of (PList mapping) = Ok ranges
    /\ (forall k, 0 <= k < c -> cover_count k ranges = 1%nat)
    /\ (forall k, ~ (0 <= k < c) -> cover_count k ranges = 0%nat)
    /\ Forall proper_range ranges.
Proof.
  intros Hne Hlen Hcols Hcurr.
  exists (map entry_of (generated_candidates cols curr c)),
         (flat_map updates_of_candidate (generated_candidates cols curr c)).
  split; [now apply generate_mapping_list|].
  split; [apply seg_updates_of_candidates|].
  unfold generated_candidates.
  destruct cols as [|c0 cols]; [contradiction|].
  set (l := c0 :: cols) in *. set (n := Z.of_nat (List.length l)) in *.
  assert (Hrest : rest_color l curr = curr).
  { unfold rest_color. now rewrite (accepted_is_truthy curr Hcurr). }
  rewrite Hrest, (accepted_is_truthy curr Hcurr), andb_true_r, flat_map_app.
  destruct (updates_of_accepted curr n c Hcurr) as (r & g & bl & _ & Hu).
  assert (Htail : flat_map updates_of_candidate
                    (if n <? c then [(curr, n, c)] else [])
                  = if n <? c then [seg_update n c r g bl] else []).
  { destruct (n <? c) eqn:E; [|reflexivity].
    cbn [flat_map]. rewrite Hu. reflexivity. }
  rewrite Htail. repeat split.
  - intros k Hk. rewrite cover_count_app, cover_one_led by assumption. fold n.
    destruct (n <? c) eqn:E.
    + rewrite cover_count_cons, covers_seg_update.
      destruct (Z.leb_spec 0 k), (Z.ltb_spec k (0 + n)), (Z.leb_spec n k),
        (Z.ltb_spec k c); simpl; try reflexivity; lia.
    + apply Z.ltb_ge in E.
      destruct (Z.leb_spec 0 k), (Z.ltb_spec k (0 + n)); simpl; try reflexivity; lia.
  - intros k Hk. rewrite cover_count_app, cover_one_led by assumption. fold n.
    destruct (n <? c) eqn:E.
    + rewrite cover_count_cons, covers_seg_update.
      destruct (Z.leb_spec 0 k), (Z.ltb_spec k (0 + n)), (Z.leb_spec n k),
        (Z.ltb_spec k c); simpl; try reflexivity; lia.
    + apply Z.ltb_ge in E.
      destruct (Z.leb_spec 0 k), (Z.ltb_spec k (0 + n)); simpl; try reflexivity; lia.
  - apply Forall_app; split; [apply proper_one_led|].
    destruct (n <? c) eqn:E; constructor; [|constructor].
    exists n, c. split; [reflexivity | now apply Z.ltb_lt].
Qed.

(** The tiling at the fixture's colours and 300 LEDs. *)
Lemma generated_ranges_tile_the_strip_fixture :
  exists mapping ranges,
    generate_mapping (PList [PStr "#3dd1db"; PStr "#a52222"]) (PStr "#afab2c")
      (PInt 300) = Ok mapping
    /\ seg_updates_of (PList mapping) = Ok ranges
    /\ (forall k, 0 <= k < 300 -> cover_count k ranges = 1%nat)
    /\ (forall k, ~ (0 <= k < 300) -> cover_count k ranges = 0%nat)
    /\ Forall proper_range ranges.
Proof.
  apply (generated_ranges_tile_the_strip
           [PStr "#3dd1db"; PStr "#a52222"] (PStr "#afab2c") 300).
  - discriminate.
  - simpl; lia.
  - repeat constructor; vm_compute; discriminate.
  - vm_compute; discriminate.
Defined.

(** *** The effective LED count *)

Lemma auto_seg_mapping_list (reported : option Z) (cols : list pyval) (curr : pyval) :
  auto_seg_mapping (PList cols) curr (reported_value reported)
  = Ok (map entry_of
          (generated_candidates cols curr
             (Z.max (base_led_count reported) (Z.of_nat (List.length cols))))).
Proof.
  unfold auto_seg_mapping, reported_value, base_led_count.
  rewrite effective_led_count_value. cbn [rbind].
  apply generate_mapping_list. lia.
Qed.

Lemma length_one_led_candidates (cols : list pyval) (idx : Z) :
  List.length (one_led_candidates cols idx) = List.length cols.
Proof. revert idx; induction cols; intros; simpl; [reflexivity | now rewrite IHcols]. Qed.

Lemma one_led_updates_length (cols : list pyval) (idx : Z) :
  Forall (fun col => _hex_to_rgb col <> None) cols ->
  List.length (flat_map updates_of_candidate (one_led_candidates cols idx))
  = List.length cols.
Proof.
  intros H; revert idx; induction H as [|col cols Hcol _ IH]; intros idx;
    [reflexivity|].
  cbn [one_led_candidates flat_map].
  destruct (updates_of_accepted col idx (idx + 1) Hcol) as (r & g & bl & _ & ->).
  replace (idx <? idx + 1) with true by (symmetry; apply Z.ltb_lt; lia).
  cbn [app List.length]. now rewrite IH.
Qed.

Lemma one_led_updates_nth (cols : list pyval) (idx : Z) (i : nat) (col : pyval) :
  Forall (fun col => _hex_to_rgb col <> None) cols ->
  nth_error cols i = Some col ->
  exists r g bl,
    _hex_to_rgb col = Some (r, g, bl)
    /\ nth_error (flat_map updates_of_candidate (one_led_candidates cols idx)) i
       = Some (seg_update (idx + Z.of_nat i) (idx + Z.of_nat i + 1) r g bl).
Proof.
  intros H; revert idx i; induction H as [|c0 cols Hc0 _ IH]; intros idx i Hi.
  - destruct i; discriminate Hi.
  - cbn [one_led_candidates flat_map].
    destruct (updates_of_accepted c0 idx (idx + 1) Hc0) as (r & g & bl & E & ->).
    replace (idx <? idx + 1) with true by (symmetry; apply Z.ltb_lt; lia).
    cbn [app]. destruct i as [|i]; cbn [nth_error] in *.
    + injection Hi as <-. exists r, g, bl. split; [exact E|].
      cbn [Z.of_nat]. now rewrite Z.add_0_r.
    + destruct (IH (idx + 1) i Hi) as (r' & g' & bl' & E' & N).
      exists r', g', bl'. split; [exact E'|]. rewrite N.
      rewrite Nat2Z.inj_succ. do 2 f_equal; lia.
Qed.

(** C3.  With no saved mapping, when the discovery leaves an integer
    or nothing in [total_leds], both reconciliation paths build the
    mapping for that count if it is positive, for 60 otherwise, and for
    [len(segment_colors)] when that is more, and every saved colour that
    converts has its range [[i, i+1)] among the ranges to send.  But
    the discovery does not always leave a number: for a reply whose
    information block holds a non-empty [leds] object without a
    positive ['count'] or ['led_count'], line 289 (and 441) leaves that
    object in [total_leds], the comparison [total_leds > 0] of line 308
    (and 459) raises [TypeError], and nothing is planned, where the
    claim has the count default to 60.  On the test's inventory, with a
    device reporting [info.leds.count = 0], [set_device_power] sends
    the power command alone and [apply_saved_state] sends nothing. *)
Theorem led_count_choice_breaks_on_a_leds_object :
  (forall (dev : pydict) (cols : list pyval) (device_state : pyval)
          (reported : option Z),
     truthy (dget dev "device_segment_mapping") = false ->
     por (dget dev "device_segment_colors") (PList []) = PList cols ->
     detect_total_leds device_state = Ok (reported_value reported) ->
     (total_leds <- detect_total_leds device_state ;;
      effective_led_count total_leds (PList cols))%res
     = Ok (PInt (Z.max (base_led_count reported) (Z.of_nat (List.length cols))))
     /\ exists ranges,
          (total_leds <- detect_total_leds device_state ;;
           plan_updates dev total_leds)%res = Ok ranges
          /\ forall i col r g b,
               nth_error cols i = Some col ->
               _hex_to_rgb col = Some (r, g, b) ->
               In (seg_update (Z.of_nat i) (Z.of_nat i + 1) r g b) ranges)
  /\ (forall (dev leds : pydict) (seg_colors : pyval),
        leds <> [] ->
        truthy (por (dget leds "count") (dget leds "led_count")) = false ->
        truthy (dget dev "device_segment_mapping") = false ->
        detect_total_leds (leds_object_reply leds) = Ok (PDict leds)
        /\ effective_led_count (PDict leds) seg_colors = Raise TypeError
        /\ plan_updates dev (PDict leds) = Raise TypeError)
  /\ world (snd (set_device_power (list pyval) (recording_client (Ok zero_count_reply))
                   (PInt 1) true fixture_manager))
     = [power_on_request]
  /\ apply_saved_state (list pyval) (recording_client (Ok zero_count_reply))
       fixture_path fixture_fs (PInt 1) (mkSt [] [])
     = (Ok PNone, fixture_manager).
Proof.
  split; [|split; [|split]].
  - intros dev cols device_state reported Hmap Hcols Hdet. rewrite Hdet. cbn [rbind].
    split; [apply effective_led_count_value|].
    eexists. split.
    + unfold plan_updates. rewrite Hmap, Hcols. cbn [negb].
      rewrite auto_seg_mapping_list. cbn [rbind]. apply seg_updates_of_candidates.
    + intros i col r g b Hi Hrgb. apply in_flat_map.
      exists (col, Z.of_nat i, Z.of_nat i + 1). split.
      * unfold generated_candidates. destruct cols as [|c0 cols].
        -- destruct i; discriminate Hi.
        -- apply in_or_app. left.
           apply (nth_error_In _ i).
           now rewrite (nth_error_one_led _ 0 i col Hi).
      * unfold updates_of_candidate. rewrite Hrgb.
        replace (Z.of_nat i <? Z.of_nat i + 1) with true
          by (symmetry; apply Z.ltb_lt; lia).
        now left.
  - intros dev leds seg_colors Hne Hcount Hmap.
    assert (Hl : truthy (PDict leds) = true)
      by (destruct leds; [contradiction | reflexivity]).
    assert (Hd : detect_total_leds (leds_object_reply leds) = Ok (PDict leds)).
    { unfold detect_total_leds, leds_object_reply.
      cbn [get get_default assoc String.eqb Ascii.eqb Bool.eqb rbind isinstance_dict
           truthy por andb negb].
      fold (dget leds "count"). fold (dget leds "led_count").
      rewrite Hcount. cbn [negb andb rbind].
      assert (Hp : por (por (PDict leds) PNone) PNone = PDict leds)
        by (unfold por; now rewrite !Hl).
      rewrite Hp, Hl. cbn [negb rbind]. now rewrite Hl. }
    assert (He : forall sc, effective_led_count (PDict leds) sc = Raise TypeError).
    { intros sc. unfold effective_led_count. rewrite Hl. reflexivity. }
    split; [exact Hd|]. split; [apply He|].
    unfold plan_updates. rewrite Hmap. cbn [negb]. unfold auto_seg_mapping.
    rewrite He. reflexivity.
  - vm_compute. reflexivity.
  - vm_compute. reflexivity.
Qed.

(** The count chosen on the run of the test: the device reports 300
    LEDs at top level, and both saved colours have their range. *)
Lemma led_count_choice_breaks_on_a_leds_object_fixture :
  (total_leds <- detect_total_leds reply_300 ;;
   effective_led_count total_leds (PList [PStr "#3dd1db"; PStr "#a52222"]))%res
  = Ok (PInt 300)
  /\ exists ranges,
       (total_leds <- detect_total_leds reply_300 ;;
        plan_updates fixture_record total_leds)%res = Ok ranges
       /\ In (seg_update 0 1 0x3d 0xd1 0xdb) ranges
       /\ In (seg_update 1 2 0xa5 0x22 0x22) ranges.
Proof.
  destruct (proj1 led_count_choice_breaks_on_a_leds_object fixture_record
              [PStr "#3dd1db"; PStr "#a52222"] reply_300 (Some 300)
              eq_refl eq_refl eq_refl) as [Hc (ranges & Hp & Hin)].
  split; [exact Hc|]. exists ranges. split; [exact Hp|]. split.
  - apply (Hin 0%nat (PStr "#3dd1db")); reflexivity.
  - apply (Hin 1%nat (PStr "#a52222")); reflexivity.
Defined.

(** C3 as stated fails: a device reporting [info.leds.count = 0] does
    not get the default of 60; no count is chosen at all, and nothing
    is planned for the two saved colours. *)
Lemma zero_count_gets_no_default :
  ~ (exists led_count,
       (total_leds <- detect_total_leds zero_count_reply ;;
        effective_led_count total_leds (PList [PStr "#3dd1db"; PStr "#a52222"]))%res
       = Ok led_count)
  /\ ~ (exists ranges,
          (total_leds <- detect_total_leds zero_count_reply ;;
           plan_updates fixture_record total_leds)%res = Ok ranges).
Proof.
  split; intros [x H]; vm_compute in H; discriminate H.
Qed.

(** *** Colours that do not convert *)



End engine_facts.

(* ================================================================== *)
(** ** The flattened index and the device state machine                *)
(* ================================================================== *)

Module manager_facts.

Import file_helpers device_manager props.
Local Open Scope list_scope.

Lemma get_device_ip_empty (device_id ip : pyval) :
  get_device_ip [] device_id = Ok ip -> ip = PNone.
Proof.
  unfold get_device_ip. destruct (hash_key (normalize_id device_id)); simpl; congruence.
Qed.

Lemma load_devices_run (W : Type) (devices_file : string) (fs : filesystem) (s : st W) :
  load_devices W devices_file fs s
  = (Ok (fst (load_devices_pure fs devices_file)),
     mkSt (snd (load_devices_pure fs devices_file)) (world s)).
Proof.
  unfold load_devices. destruct (load_devices_pure fs devices_file) as [ok flat].
  reflexivity.
Qed.

Lemma failed_load_is_empty (fs : filesystem) (devices_file : string) :
  fst (load_devices_pure fs devices_file) = false ->
  snd (load_devices_pure fs devices_file) = [].
Proof.
  unfold load_devices_pure.
  destruct (read_and_flatten fs devices_file) as [[flat|]|e]; simpl; congruence.
Qed.

Lemma load_fails_without_document (fs : filesystem) (devices_file : string) :
  path_exists fs devices_file = false
  \/ assoc devices_file fs = Some NotJson
  \/ (exists d, assoc devices_file fs = Some (Doc (PDict d)) /\ assoc "zones" d = None) ->
  fst (load_devices_pure fs devices_file) = false.
Proof.
  unfold load_devices_pure, read_and_flatten, load_json_file, path_exists.
  intros [H | [H | (d & H & Hz)]].
  - destruct (assoc devices_file fs); [discriminate H | reflexivity].
  - rewrite H. reflexivity.
  - rewrite H. cbn [negb rbind]. destruct d as [|kv d]; [reflexivity|].
    cbn [truthy negb contains rbind]. rewrite Hz. reflexivity.
Qed.

(** C10.  A reload fails (returns [False]) when the inventory file is
    missing, unparseable or has no ['zones'] key; [load_devices] never
    raises; and after any failed reload the index is empty, so no lookup
    by device identifier yields an address. *)
Theorem failed_reload_empties_the_index
  (W : Type) (devices_file : string) (fs : filesystem) (s : st W) :
  (path_exists fs devices_file = false
   \/ assoc devices_file fs = Some NotJson
   \/ (exists d, assoc devices_file fs = Some (Doc (PDict d)) /\ assoc "zones" d = None)
   -> fst (load_devices W devices_file fs s) = Ok false)
  /\ (fst (load_devices W devices_file fs s) = Ok false ->
      devices_data (snd (load_devices W devices_file fs s)) = []
      /\ forall device_id ip,
           get_device_ip (devices_data (snd (load_devices W devices_file fs s))) device_id
           = Ok ip -> ip = PNone)
  /\ (exists ok, fst (load_devices W devices_file fs s) = Ok ok).
Proof.
  rewrite load_devices_run. cbn [fst snd devices_data].
  split; [|split].
  - intros H. now rewrite (load_fails_without_document fs devices_file H).
  - intros H. injection H as H.
    rewrite (failed_load_is_empty fs devices_file H).
    split; [reflexivity | apply get_device_ip_empty].
  - eexists. reflexivity.
Qed.

(** A manager started without an inventory file. *)
Lemma failed_reload_empties_the_index_missing_file :
  fst (load_devices unit fixture_path [] (mkSt [] tt)) = Ok false
  /\ devices_data (snd (load_devices unit fixture_path [] (mkSt [] tt))) = [].
Proof.
  pose proof (failed_reload_empties_the_index unit fixture_path [] (mkSt [] tt)) as H.
  split.
  - exact (proj1 H (or_introl eq_refl)).
  - exact (proj1 (proj1 (proj2 H) (proj1 H (or_introl eq_refl)))).
Defined.

(** *** Retries *)


(** *** Unknown identifiers and unreachable devices *)

Lemma normalize_id_idem (v : pyval) : normalize_id (normalize_id v) = normalize_id v.
Proof.
  unfold normalize_id. destruct (int v) eqn:E; [reflexivity | now rewrite E].
Qed.

Section Replies.

Variable W : Type.
Variable esp32 : esp32_client.client W.

Lemma get_device_ip_absent (i : index) (device_id : pyval) (k : key) :
  hash_key (normalize_id device_id) = Ok k ->
  klookup k i = None ->
  get_device_ip i device_id = Ok PNone.
Proof.
  intros Hk Ha. unfold get_device_ip. rewrite Hk. cbn [rbind]. now rewrite Ha.
Qed.

(** C7, as the code has it.  For an identifier absent from the index the
    manager returns [None] without any transport call, and the power
    route answers 404 "Device not found or unreachable"; it answers the
    very same for a known device whose power call came back empty. *)
Theorem absent_device_gets_the_unreachable_reply
  (s : st W) (d : pydict) (v : pyval) (device_id : string) (now : Z) :
  assoc "on" d = Some v ->
  (forall k,
     hash_key (normalize_id (PStr device_id)) = Ok k ->
     klookup k (devices_data s) = None ->
     devices.set_device_power W esp32 (PDict d) device_id s
     = (Ok not_found_or_unreachable, s)
     /\ device_manager.get_device_state W esp32 now (PStr device_id) s = (Ok PNone, s)
     /\ device_manager.set_device_power W esp32 (PStr device_id) (truthy v) s
        = (Ok PNone, s))
  /\ (forall ip w1,
        get_device_ip (devices_data s) (PStr device_id) = Ok ip ->
        truthy ip = true ->
        esp32_client.set_power esp32 ip (truthy v) (world s) = (Ok PNone, w1) ->
        fst (devices.set_device_power W esp32 (PDict d) device_id s)
        = Ok not_found_or_unreachable).
Proof.
  intros Hon.
  assert (Ht : truthy (PDict d) = true) by (destruct d; [discriminate Hon | reflexivity]).
  split.
  - intros k Hk Ha.
    pose proof (get_device_ip_absent (devices_data s) (PStr device_id) k Hk Ha) as Hip.
    assert (Hip' : get_device_ip (devices_data s) (normalize_id (PStr device_id)) = Ok PNone).
    { apply (get_device_ip_absent _ _ k); [|exact Ha].
      now rewrite normalize_id_idem. }
    repeat split.
    + unfold devices.set_device_power, mcatch, mbind, mlift, mget, mret.
      rewrite Ht. cbn [negb contains rbind devices.item_on]. rewrite Hon. cbn [negb].
      rewrite Hip. reflexivity.
    + unfold device_manager.get_device_state, mbind, mlift, mget, mret.
      rewrite Hip'. reflexivity.
    + unfold device_manager.set_device_power, mbind, mlift, mget, mret.
      rewrite Hip. reflexivity.
  - intros ip w1 Hip Hip_t Hpower.
    unfold devices.set_device_power, mcatch, mbind, mlift, mget, mret.
    rewrite Ht. cbn [negb contains rbind devices.item_on]. rewrite Hon. cbn [negb].
    rewrite Hip, Hip_t. cbn [negb].
    unfold device_manager.set_device_power, mbind, mlift, mget, mret.
    rewrite Hip, Hip_t. cbn [negb]. unfold call. rewrite Hpower.
    cbn [is_none negb andb]. destruct (truthy v); reflexivity.
Qed.

End Replies.

(** Device 2 is not in the fixture's inventory: the power route answers
    404 "Device not found or unreachable" and the network is not
    touched. *)
Lemma absent_device_gets_the_unreachable_reply_fixture :
  devices.set_device_power nat unreachable_client power_on_request "2" fixture_offline
  = (Ok not_found_or_unreachable, fixture_offline).
Proof.
  exact (proj1 (proj1 (absent_device_gets_the_unreachable_reply nat unreachable_client
                         fixture_offline [("on", PBool true)] (PBool true) "2" 0 eq_refl)
                  (KInt 2) eq_refl eq_refl)).
Defined.

(** C7 as stated fails: on the fixture, device 2 is unknown and device 1
    is known but unreachable (every attempt times out), and the power
    route gives both callers the same reply; so does the manager's
    [get_device_state]. *)
Lemma absent_and_unreachable_are_conflated :
  klookup (KInt 2) (devices_data fixture_offline) = None
  /\ klookup (KInt 1) (devices_data fixture_offline) <> None
  /\ ~ (fst (devices.set_device_power nat unreachable_client power_on_request "2"
              fixture_offline)
        <> fst (devices.set_device_power nat unreachable_client power_on_request "1"
                  fixture_offline))
  /\ ~ (fst (device_manager.get_device_state nat unreachable_client 0 (PStr "2")
              fixture_offline)
        <> fst (device_manager.get_device_state nat unreachable_client 0 (PStr "1")
                  fixture_offline)).
Proof.
  repeat split.
  - vm_compute. discriminate.
  - intros H. apply H. vm_compute. reflexivity.
  - intros H. apply H. vm_compute. reflexivity.
Qed.

(** *** Dictionaries *)

Lemma key_eqb_eq (a b : key) : key_eqb a b = true <-> a = b.
Proof.
  destruct a, b; simpl; split; intros H; try congruence; try discriminate H.
  - apply Z.eqb_eq in H. congruence.
  - injection H as ->. apply Z.eqb_refl.
  - apply String.eqb_eq in H. congruence.
  - injection H as ->. apply String.eqb_refl.
Qed.

Lemma key_eq_dec (a b : key) : {a = b} + {a <> b}.
Proof.
  destruct (key_eqb a b) eqn:E.
  - left. now apply key_eqb_eq.
  - right. intros H. apply key_eqb_eq in H. congruence.
Qed.

Lemma key_eqb_refl (a : key) : key_eqb a a = true.
Proof. now apply key_eqb_eq. Qed.

Lemma key_eqb_neq (a b : key) : a <> b -> key_eqb a b = false.
Proof.
  intros H. destruct (key_eqb a b) eqn:E; [|reflexivity].
  apply key_eqb_eq in E. contradiction.
Qed.

Lemma klookup_kset_same {V} (i : list (key * V)) (k : key) (v : V) :
  klookup k (kset i k v) = Some v.
Proof.
  induction i as [|[k' v'] i IH]; simpl.
  - now rewrite key_eqb_refl.
  - destruct (key_eqb k k') eqn:E; simpl; rewrite E; [reflexivity | exact IH].
Qed.

Lemma klookup_kset_other {V} (i : list (key * V)) (k k' : key) (v : V) :
  k <> k' -> klookup k (kset i k' v) = klookup k i.
Proof.
  intros Hne. induction i as [|[k0 v0] i IH]; simpl.
  - now rewrite key_eqb_neq.
  - destruct (key_eqb k' k0) eqn:E; simpl.
    + apply key_eqb_eq in E. subst k0. now rewrite (key_eqb_neq k k' Hne).
    + now rewrite IH.
Qed.

Lemma klookup_in {V} (i : list (key * V)) (k : key) (v : V) :
  klookup k i = Some v -> In k (map fst i).
Proof.
  induction i as [|[k0 v0] i IH]; simpl; [discriminate|].
  destruct (key_eqb k k0) eqn:E.
  - apply key_eqb_eq in E. intros _. now left.
  - intros H. right. now apply IH.
Qed.

Lemma in_kset_keys {V} (i : list (key * V)) (k x : key) (v : V) :
  In x (map fst (kset i k v)) -> x = k \/ In x (map fst i).
Proof.
  induction i as [|[k0 v0] i IH]; simpl.
  - intros [H|[]]; now left.
  - destruct (key_eqb k k0); simpl; intros [H|H]; auto.
    destruct (IH H); auto.
Qed.

Lemma kset_keeps_keys {V} (i : list (key * V)) (k x : key) (v : V) :
  In x (map fst i) -> In x (map fst (kset i k v)).
Proof.
  induction i as [|[k0 v0] i IH]; simpl; [contradiction|].
  destruct (key_eqb k k0); simpl; intros [H|H]; auto.
Qed.

Lemma kset_nodup {V} (i : list (key * V)) (k : key) (v : V) :
  NoDup (map fst i) -> NoDup (map fst (kset i k v)).
Proof.
  induction i as [|[k0 v0] i IH]; simpl; intros H.
  - constructor; [intros [] | constructor].
  - inversion H as [|? ? Hnin Hnd]; subst.
    destruct (key_eqb k k0) eqn:E; simpl.
    + constructor; assumption.
    + constructor; [|now apply IH].
      intros Hin. apply in_kset_keys in Hin. destruct Hin as [->|Hin]; [|contradiction].
      now rewrite key_eqb_refl in E.
Qed.

Lemma dget_dset_same (d : pydict) (k : string) (v : pyval) :
  dget (dset d k v) k = v.
Proof.
  unfold dget. induction d as [|[k0 v0] d IH]; simpl.
  - now rewrite String.eqb_refl.
  - destruct (String.eqb k k0) eqn:E; simpl.
    + now rewrite String.eqb_refl.
    + now rewrite E.
Qed.

Lemma dget_dset_other (d : pydict) (k k' : string) (v : pyval) :
  String.eqb k k' = false -> dget (dset d k' v) k = dget d k.
Proof.
  intros Hne. unfold dget. induction d as [|[k0 v0] d IH]; simpl.
  - now rewrite Hne.
  - destruct (String.eqb k' k0) eqn:E; simpl.
    + apply String.eqb_eq in E. subst k0. now rewrite Hne.
    + destruct (String.eqb k k0); [reflexivity | exact IH].
Qed.

(** *** Status tracking *)

Lemma seen_status (now : Z) (state : pyval) (d : pydict) :
  (truthy state = true ->
   dget (seen now state d) "status" = PStr "online"
   /\ dget (seen now state d) "last_seen" = PInt now)
  /\ (truthy state = false ->
      dget (seen now state d) "status" = PStr "offline"
      /\ dget (seen now state d) "last_seen" = dget d "last_seen").
Proof.
  unfold seen. split; intros ->.
  - split; [apply dget_dset_same|].
    rewrite dget_dset_other by reflexivity. apply dget_dset_same.
  - split; [apply dget_dset_same|]. now rewrite dget_dset_other.
Qed.

Lemma klookup_marked_same (now : Z) (state : pyval) (k : key) (i : index) :
  klookup k (if truthy state then mark_online k now i else mark_offline k i)
  = option_map (seen now state) (klookup k i).
Proof.
  unfold mark_online, mark_offline, seen.
  destruct (truthy state), (klookup k i) eqn:E; simpl;
    try apply klookup_kset_same; exact E.
Qed.

Lemma klookup_marked_other (now : Z) (state : pyval) (k k' : key) (i : index) :
  k' <> k ->
  klookup k' (if truthy state then mark_online k now i else mark_offline k i)
  = klookup k' i.
Proof.
  intros Hne. unfold mark_online, mark_offline.
  destruct (truthy state), (klookup k i); try reflexivity;
    now apply klookup_kset_other.
Qed.

Lemma collect_states_spec (now : Z) (ip_to_states device_ips : list (key * pyval)) :
  NoDup (map fst device_ips) ->
  forall acc i acc' i',
    collect_states now ip_to_states device_ips acc i = Ok (acc', i') ->
    forall k,
      (~ In k (map fst device_ips) ->
       klookup k acc' = klookup k acc /\ klookup k i' = klookup k i)
      /\ (In k (map fst device_ips) ->
          exists state, klookup k acc' = Some state
                        /\ klookup k i' = option_map (seen now state) (klookup k i)).
Proof.
  induction device_ips as [|[k0 ip0] L IH]; intros Hnd acc i acc' i' H k.
  - simpl in H. injection H as <- <-. split; [auto | intros []].
  - cbn [collect_states] in H.
    destruct (hash_key ip0) as [ipk|e]; [|discriminate H]. cbn [rbind] in H.
    set (state0 := match klookup ipk ip_to_states with Some v => v | None => PNone end) in H.
    cbn [map fst] in Hnd. inversion Hnd as [|? ? Hnin Hnd']; subst.
    destruct (IH Hnd' _ _ _ _ H k) as [IH1 IH2]. cbn [map fst In]. split.
    + intros Hk.
      assert (Hne : k <> k0) by (intros ->; apply Hk; now left).
      destruct IH1 as [A B]; [intros Hin; apply Hk; now right|].
      rewrite A, B, klookup_kset_other, klookup_marked_other by assumption. auto.
    + intros [<-|Hin].
      * destruct (IH1 Hnin) as [A B]. exists state0.
        rewrite A, B, klookup_kset_same, klookup_marked_same. auto.
      * assert (Hne : k <> k0) by (intros ->; contradiction).
        destruct (IH2 Hin) as (state & A & B). exists state.
        rewrite A, B, klookup_marked_other by assumption. auto.
Qed.

Lemma get_all_device_ips_nodup (i : index) :
  NoDup (map fst (get_all_device_ips i)).
Proof.
  unfold get_all_device_ips.
  assert (G : forall acc : list (key * pyval),
             NoDup (map fst acc) ->
             NoDup (map fst (fold_left
                               (fun device_ips kd =>
                                  let ip := dget (snd kd) "device_ip" in
                                  if truthy ip then kset device_ips (fst kd) ip
                                  else device_ips) i acc))).
  { induction i as [|kd i IH]; intros acc Hacc; simpl; [exact Hacc|].
    apply IH. destruct (truthy (dget (snd kd) "device_ip")); [|exact Hacc].
    now apply kset_nodup. }
  apply G. constructor.
Qed.

Section StateMachine.

Variable W : Type.
Variable esp32 : esp32_client.client W.

Lemma keeps_mret {A} (a : A) : keeps_index (W := W) (mret a).
Proof. intros s. reflexivity. Qed.

Lemma keeps_mlift {A} (r : res A) : keeps_index (W := W) (mlift r).
Proof. intros s. reflexivity. Qed.

Lemma keeps_mget : keeps_index (W := W) mget.
Proof. intros s. reflexivity. Qed.

Lemma keeps_call {A} (f : W -> res A * W) : keeps_index (call W f).
Proof. intros s. unfold call. destruct (f (world s)). reflexivity. Qed.

Lemma keeps_mbind {A B} (m : M (st W) A) (k : A -> M (st W) B) :
  keeps_index m -> (forall a, keeps_index (k a)) -> keeps_index (mbind m k).
Proof.
  intros Hm Hk s. unfold mbind. specialize (Hm s).
  destruct (m s) as [[a|e] s1]; cbn [snd] in *; [|exact Hm].
  now rewrite Hk.
Qed.

Lemma keeps_mtry {A} (m h : M (st W) A) :
  keeps_index m -> keeps_index h -> keeps_index (mtry m h).
Proof.
  intros Hm Hh s. unfold mtry. specialize (Hm s).
  destruct (m s) as [[a|e] s1]; cbn [snd] in *; [exact Hm|].
  now rewrite Hh.
Qed.

Ltac keeps :=
  repeat first
    [ apply keeps_mret | apply keeps_mlift | apply keeps_mget | apply keeps_call
    | apply keeps_mbind; [|intros ?] | apply keeps_mtry
    | match goal with |- keeps_index (if ?b then _ else _) => destruct b end ].

Lemma set_device_state_keeps_index (device_id state_data : pyval) :
  keeps_index (set_device_state W esp32 device_id state_data).
Proof. unfold set_device_state. keeps. Qed.

Lemma set_device_brightness_keeps_index (device_id : pyval) (brightness : Z) :
  keeps_index (set_device_brightness W esp32 device_id brightness).
Proof. unfold set_device_brightness. keeps. Qed.

Lemma set_device_effect_keeps_index (device_id : pyval) (effect_id : Z) :
  keeps_index (set_device_effect W esp32 device_id effect_id).
Proof. unfold set_device_effect. keeps. Qed.

Lemma set_device_power_keeps_index (device_id : pyval) (on : bool) :
  keeps_index (set_device_power W esp32 device_id on).
Proof. unfold set_device_power, reconcile_after_power_on. keeps. Qed.

(** C8, as the code has it.  For a known device with an address, the
    state reads keep the status: [get_device_state] makes the record
    'online' with [last_seen = now] when the transport returns a
    non-empty value and 'offline' when it returns [None] or an empty
    value, and [get_all_device_states] does the same for every device it
    reports; the writes (state, power, brightness, effect) leave every
    record, status and last-seen included, as it was. *)
Theorem status_follows_state_reads
  (s : st W) (now : Z) (device_id : pyval) (k : key) (d : pydict) :
  hash_key (normalize_id device_id) = Ok k ->
  klookup k (devices_data s) = Some d ->
  truthy (dget d "device_ip") = true ->
  (forall state w1,
     esp32_client.get_device_state esp32 (dget d "device_ip") (world s) = (Ok state, w1) ->
     fst (get_device_state W esp32 now device_id s) = Ok state
     /\ klookup k (devices_data (snd (get_device_state W esp32 now device_id s)))
        = Some (seen now state d)
     /\ (truthy state = true ->
         dget (seen now state d) "status" = PStr "online"
         /\ dget (seen now state d) "last_seen" = PInt now)
     /\ (truthy state = false ->
         dget (seen now state d) "status" = PStr "offline"
         /\ dget (seen now state d) "last_seen" = dget d "last_seen"))
  /\ (forall states s',
        get_all_device_states W esp32 now s = (Ok states, s') ->
        forall state, klookup k states = Some state ->
        klookup k (devices_data s') = Some (seen now state d))
  /\ (forall state_data,
        devices_data (snd (set_device_state W esp32 device_id state_data s))
        = devices_data s)
  /\ (forall on,
        devices_data (snd (set_device_power W esp32 device_id on s)) = devices_data s)
  /\ (forall brightness,
        devices_data (snd (set_device_brightness W esp32 device_id brightness s))
        = devices_data s)
  /\ (forall effect_id,
        devices_data (snd (set_device_effect W esp32 device_id effect_id s))
        = devices_data s).
Proof.
  intros Hk Hd Hip.
  assert (Hne : truthy (PDict d) = true).
  { destruct d; [discriminate Hip | reflexivity]. }
  split; [|split; [|split; [|split; [|split]]]].
  - intros state w1 Hget.
    unfold get_device_state, mbind, mget, mlift.
    unfold get_device_ip. rewrite normalize_id_idem, Hk. cbn [rbind].
    rewrite Hd, Hne, Hip. cbn [negb]. unfold call. rewrite Hget.
    unfold mmodify, mret.
    assert (Hs : klookup k (if truthy state then mark_online k now (devices_data s)
                            else mark_offline k (devices_data s))
                 = Some (seen now state d)).
    { rewrite klookup_marked_same, Hd. reflexivity. }
    destruct (seen_status now state d) as [Hon Hoff].
    destruct (truthy state) eqn:E; cbn [fst snd devices_data world];
      (split; [reflexivity|]; split; [exact Hs|]; split; assumption).
  - intros states s' Hall state Hstate.
    unfold get_all_device_states, mbind, mget in Hall.
    pose proof (get_all_device_ips_nodup (devices_data s)) as Hnd.
    destruct (get_all_device_ips (devices_data s)) as [|p L] eqn:EL.
    + injection Hall as <- <-. discriminate Hstate.
    + unfold call in Hall.
      destruct (esp32_client.get_multiple_device_states esp32 (map snd (p :: L)) (world s))
        as [[T|e] w'] eqn:EM; [|discriminate Hall].
      cbn [devices_data world] in Hall. unfold mlift in Hall.
      destruct (collect_states now T (p :: L) [] (devices_data s)) as [[acc' i']|e] eqn:EC;
        [|discriminate Hall].
      unfold set_index, mmodify, mret in Hall. cbn [fst snd] in Hall.
      injection Hall as <- <-. cbn [devices_data].
      destruct (collect_states_spec now T (p :: L) Hnd _ _ _ _ EC k) as [H1 H2].
      destruct (in_dec key_eq_dec k (map fst (p :: L))) as [Hin|Hnin].
      * destruct (H2 Hin) as (state' & A & B).
        rewrite Hstate in A. injection A as <-. rewrite B, Hd. reflexivity.
      * destruct (H1 Hnin) as [A _]. rewrite Hstate in A. discriminate A.
  - intros. apply set_device_state_keeps_index.
  - intros. apply set_device_power_keeps_index.
  - intros. apply set_device_brightness_keeps_index.
  - intros. apply set_device_effect_keeps_index.
Qed.

End StateMachine.

(** On the fixture, a state read that the device answers marks it
    online at the time of the read. *)
Lemma status_follows_state_reads_fixture :
  klookup (KInt 1)
    (devices_data
       (snd (get_device_state (list pyval) (recording_client (Ok reply_300)) 1700000000
               (PInt 1) fixture_manager)))
  = Some (seen 1700000000 reply_300 fixture_record).
Proof.
  exact (proj1 (proj2 (proj1 (status_follows_state_reads (list pyval)
                                (recording_client (Ok reply_300)) fixture_manager
                                1700000000 (PInt 1) (KInt 1) fixture_record
                                eq_refl eq_refl eq_refl)
                         reply_300 [] eq_refl))).
Defined.

(** C8 as stated fails for the writes: on the fixture a state write that
    the device acknowledges leaves the record without status 'online',
    and a power command to an unreachable device leaves it without
    status 'offline'. *)
Lemma writes_do_not_touch_the_status :
  (fst (set_device_state (list pyval) (recording_client (Ok reply_300)) (PInt 1)
          power_on_request fixture_manager) = Ok ack
   /\ exists d,
        klookup (KInt 1)
          (devices_data
             (snd (set_device_state (list pyval) (recording_client (Ok reply_300))
                     (PInt 1) power_on_request fixture_manager))) = Some d
        /\ dget d "status" <> PStr "online")
  /\ (fst (set_device_power nat unreachable_client (PInt 1) true fixture_offline)
      = Ok PNone
      /\ exists d,
           klookup (KInt 1)
             (devices_data
                (snd (set_device_power nat unreachable_client (PInt 1) true
                        fixture_offline))) = Some d
           /\ dget d "status" <> PStr "offline").
Proof.
  split; (split; [vm_compute; reflexivity|]);
    eexists; (split; [vm_compute; reflexivity|]); vm_compute; discriminate.
Qed.

End manager_facts.

(* ================================================================== *)
(** ** Reconciliation: power-on and apply-saved-state                   *)
(* ================================================================== *)

Module reconciliation_facts.

Import file_helpers device_manager props.
Local Open Scope list_scope.

(** The run of [test_segment_mapping_even_split].  For the fixture
    device and a device that reports 300 LEDs, [set_device_power(1,
    True)] returns the toggle's reply and sends, after the power
    command, one update with exactly three ranges: [[0,1)] in
    (0x3d,0xd1,0xdb), [[1,2)] in (0xa5,0x22,0x22) and [[2,300)] in
    (0xaf,0xab,0x2c); the last stop is 300. *)
Lemma fixture_power_on_run :
  fst fixture_power_on = Ok ack
  /\ world (snd fixture_power_on)
     = [power_on_request;
        PDict [("on", PBool true); ("bri", PInt 128);
               ("seg", PList fixture_segments); ("psave", PInt 1)]]
  /\ fixture_segments
     = [seg_update 0 1 0x3d 0xd1 0xdb;
        seg_update 1 2 0xa5 0x22 0x22;
        seg_update 2 300 0xaf 0xab 0x2c].
Proof. vm_compute. repeat split. Qed.

(** C1 as stated fails on the fixture: the ranges are not 60 one-LED
    ranges ending at 60. *)
Lemma fixture_power_on_not_sixty_ranges :
  ~ (List.length fixture_segments = 60%nat
     /\ nth_error fixture_segments 0 = Some (seg_update 0 1 0x3d 0xd1 0xdb)
     /\ nth_error fixture_segments 1 = Some (seg_update 1 2 0xa5 0x22 0x22)
     /\ (forall i, (2 <= i < 60)%nat ->
           option_map rgb_of (nth_error fixture_segments i)
           = Some (Some (0xaf, 0xab, 0x2c)))
     /\ (exists a, range_bounds (last fixture_segments PNone) = Some (a, 60))).
Proof.
  intros [H _]. vm_compute in H. discriminate H.
Qed.

Section AnyClient.

Variable W : Type.
Variable esp32 : esp32_client.client W.

Lemma mtry_unit_ok (m : M (st W) unit) (s : st W) :
  fst (mtry m (mret tt) s) = Ok tt.
Proof.
  unfold mtry, mret. destruct (m s) as [[[]|e] s']; reflexivity.
Qed.

(** When the state query answers and the engine yields ranges, the
    reconciliation ends with one [set_device_state] carrying them. *)
Lemma reconcile_sends_one_update
  (dev : pydict) (ip_address reply total_leds : pyval) (ranges : list pyval)
  (s : st W) (w2 : W) :
  esp32_client.get_device_state esp32 ip_address (world s) = (Ok reply, w2) ->
  detect_total_leds (por reply (PDict [])) = Ok total_leds ->
  plan_updates dev total_leds = Ok ranges ->
  ranges <> [] ->
  world (snd (reconcile_after_power_on W esp32 dev ip_address s))
  = snd (esp32_client.set_device_state esp32 ip_address
           (state_data_of dev ranges) w2).
Proof.
  intros Hget Hdet Hplan Hne.
  unfold reconcile_after_power_on, mbind, mlift, call, mtry, mret.
  rewrite Hget. cbn [world devices_data]. rewrite Hdet, Hplan.
  destruct ranges as [|r0 ranges]; [contradiction|]. cbn [nonempty world].
  destruct (esp32_client.set_device_state esp32 ip_address
              (state_data_of dev (r0 :: ranges)) w2) as [[v|e] w3]; reflexivity.
Qed.

(** C5.  Once the power toggle has returned a value, [set_device_power]
    returns that value, whatever the reconciliation does; and when the
    state query answers and the engine yields at least one range, the
    world after the call is the world after exactly one more
    [set_device_state], carrying [{on: true, bri: stored brightness or
    128, seg: ranges, psave: 1}]. *)
Theorem power_on_result_survives_reconciliation
  (s : st W) (device_id ip_address result : pyval) (w1 : W) :
  get_device_ip (devices_data s) device_id = Ok ip_address ->
  truthy ip_address = true ->
  esp32_client.set_power esp32 ip_address true (world s) = (Ok result, w1) ->
  result <> PNone ->
  fst (set_device_power W esp32 device_id true s) = Ok result
  /\ (forall dev reply w2 total_leds ranges,
        lookup_dev (devices_data s) (normalize_id device_id) = Ok dev ->
        esp32_client.get_device_state esp32 ip_address w1 = (Ok reply, w2) ->
        detect_total_leds (por reply (PDict [])) = Ok total_leds ->
        plan_updates dev total_leds = Ok ranges ->
        ranges <> [] ->
        world (snd (set_device_power W esp32 device_id true s))
        = snd (esp32_client.set_device_state esp32 ip_address
                 (PDict [("on", PBool true);
                         ("bri", PInt (stored_brightness dev));
                         ("seg", PList ranges);
                         ("psave", PInt 1)]) w2)).
Proof.
  intros Hip Htruthy Hpower Hsome.
  assert (Hnone : is_none result = false) by (destruct result; simpl; congruence).
  unfold set_device_power, mbind, mget, mlift.
  rewrite Hip, Htruthy. cbn [negb].
  unfold call. rewrite Hpower. rewrite Hnone. cbn [andb negb].
  set (s1 := {| devices_data := devices_data s; world := w1 |}).
  split.
  - match goal with |- context [mtry ?m (mret tt) ?s0] =>
      pose proof (mtry_unit_ok m s0) as Hu;
      destruct (mtry m (mret tt) s0) as [[[]|e] s2]; cbn [fst] in Hu;
      [reflexivity | discriminate Hu]
    end.
  - intros dev reply w2 total_leds ranges Hdev Hget Hdet Hplan Hne.
    rewrite Hdev.
    pose proof (reconcile_sends_one_update dev ip_address reply total_leds ranges
                  s1 w2 Hget Hdet Hplan Hne) as Hsend.
    unfold mtry at 1.
    match goal with |- context [mtry ?m (mret tt) ?s0] =>
      pose proof (mtry_unit_ok m s0) as Hu;
      assert (Hw : world (snd (mtry m (mret tt) s0)) = world (snd (m s0)))
        by (unfold mtry, mret; destruct (m s0) as [[[]|e] s2]; reflexivity);
      destruct (mtry m (mret tt) s0) as [[[]|e] s2]; cbn [fst] in Hu;
      [|discriminate Hu]
    end.
    cbn [snd world mret] in *. rewrite Hw, Hsend. reflexivity.
Qed.

(** What a power-on leaves in the world when the state query answers
    and the engine yields ranges. *)
Lemma power_on_world
  (s : st W) (device_id ip_address result reply total_leds : pyval) (w1 w2 : W)
  (dev : pydict) (ranges : list pyval) :
  get_device_ip (devices_data s) device_id = Ok ip_address ->
  truthy ip_address = true ->
  esp32_client.set_power esp32 ip_address true (world s) = (Ok result, w1) ->
  result <> PNone ->
  lookup_dev (devices_data s) (normalize_id device_id) = Ok dev ->
  esp32_client.get_device_state esp32 ip_address w1 = (Ok reply, w2) ->
  detect_total_leds (por reply (PDict [])) = Ok total_leds ->
  plan_updates dev total_leds = Ok ranges ->
  ranges <> [] ->
  world (snd (set_device_power W esp32 device_id true s))
  = snd (esp32_client.set_device_state esp32 ip_address (state_data_of dev ranges) w2).
Proof.
  intros Hip Htruthy Hpower Hsome Hdev Hget Hdet Hplan Hne.
  assert (Hnone : is_none result = false) by (destruct result; simpl; congruence).
  unfold set_device_power, mbind, mget, mlift.
  rewrite Hip, Htruthy. cbn [negb].
  unfold call. rewrite Hpower. rewrite Hnone. cbn [andb negb].
  set (s1 := {| devices_data := devices_data s; world := w1 |}).
  rewrite Hdev.
  pose proof (reconcile_sends_one_update dev ip_address reply total_leds ranges
                s1 w2 Hget Hdet Hplan Hne) as Hsend.
  unfold mtry at 1.
  match goal with |- context [mtry ?m (mret tt) ?s0] =>
    pose proof (mtry_unit_ok m s0) as Hu;
    assert (Hw : world (snd (mtry m (mret tt) s0)) = world (snd (m s0)))
      by (unfold mtry, mret; destruct (m s0) as [[[]|e] s2]; reflexivity);
    destruct (mtry m (mret tt) s0) as [[[]|e] s2]; cbn [fst] in Hu;
    [|discriminate Hu]
  end.
  cbn [snd world mret] in *. rewrite Hw, Hsend. reflexivity.
Qed.

(** C1.  The engine does not split the strip evenly.  For a device with
    no saved mapping, saved colours that all convert, a current colour
    that converts, and a device reporting more LEDs than there are
    saved colours, the reconciliation after power-on sends one update
    whose [seg] list has one range more than there are saved colours:
    range [i] is [[i, i+1)] in saved colour [i], and the last range
    runs from [len(segment_colors)] to the reported count in the
    current colour.  On the input of [test_segment_mapping_even_split]
    (two saved colours, 300 LEDs) that is three ranges ending at 300,
    where the test asserts 60 ranges ending at 299 and the claim 60
    ranges ending at 60. *)
Theorem power_on_sends_one_range_per_saved_color_and_one_more
  (s : st W) (device_id ip_address result reply : pyval) (w1 w2 : W)
  (dev : pydict) (cols : list pyval) (n : Z) :
  get_device_ip (devices_data s) device_id = Ok ip_address ->
  truthy ip_address = true ->
  esp32_client.set_power esp32 ip_address true (world s) = (Ok result, w1) ->
  result <> PNone ->
  lookup_dev (devices_data s) (normalize_id device_id) = Ok dev ->
  truthy (dget dev "device_segment_mapping") = false ->
  dget dev "device_segment_colors" = PList cols ->
  cols <> [] ->
  Forall (fun col => _hex_to_rgb col <> None) cols ->
  _hex_to_rgb (dget dev "device_current_color") <> None ->
  esp32_client.get_device_state esp32 ip_address w1 = (Ok reply, w2) ->
  detect_total_leds (por reply (PDict [])) = Ok (PInt n) ->
  Z.of_nat (List.length cols) < n ->
  exists ranges,
    world (snd (set_device_power W esp32 device_id true s))
    = snd (esp32_client.set_device_state esp32 ip_address
             (PDict [("on", PBool true);
                     ("bri", PInt (stored_brightness dev));
                     ("seg", PList ranges);
                     ("psave", PInt 1)]) w2)
    /\ List.length ranges = S (List.length cols)
    /\ (forall i col,
          nth_error cols i = Some col ->
          exists r g b,
            _hex_to_rgb col = Some (r, g, b)
            /\ nth_error ranges i
               = Some (seg_update (Z.of_nat i) (Z.of_nat i + 1) r g b))
    /\ (exists r g b,
          _hex_to_rgb (dget dev "device_current_color") = Some (r, g, b)
          /\ nth_error ranges (List.length cols)
             = Some (seg_update (Z.of_nat (List.length cols)) n r g b)).
Proof.
  intros Hip Ht Hpow Hres Hdev Hmap Hcols Hne Hacc Hcacc Hget Hdet Hn.
  set (curr := dget dev "device_current_color") in *.
  set (ones := flat_map updates_of_candidate (one_led_candidates cols 0)).
  destruct (engine_facts.updates_of_accepted curr (Z.of_nat (List.length cols)) n Hcacc)
    as (r & g & b & Hrgb & Hlast).
  replace (Z.of_nat (List.length cols) <? n) with true in Hlast
    by (symmetry; apply Z.ltb_lt; exact Hn).
  assert (Hplan : plan_updates dev (PInt n)
                  = Ok (ones ++ [seg_update (Z.of_nat (List.length cols)) n r g b])).
  { unfold plan_updates. rewrite Hmap, Hcols. fold curr. cbn [negb].
    assert (Hp : por (PList cols) (PList []) = PList cols)
      by (destruct cols; [contradiction | reflexivity]).
    rewrite Hp.
    change (PInt n) with (reported_value (Some n)).
    rewrite (engine_facts.auto_seg_mapping_list (Some n) cols curr). cbn [rbind].
    rewrite engine_facts.seg_updates_of_candidates.
    unfold base_led_count.
    replace (0 <? n) with true by (symmetry; apply Z.ltb_lt; lia).
    rewrite Z.max_l by lia.
    unfold generated_candidates, rest_color.
    rewrite (engine_facts.accepted_is_truthy curr Hcacc).
    replace (Z.of_nat (List.length cols) <? n) with true
      by (symmetry; apply Z.ltb_lt; exact Hn).
    destruct cols as [|c0 cols']; [contradiction|].
    cbn [andb]. rewrite (engine_facts.accepted_is_truthy curr Hcacc).
    rewrite flat_map_app. cbn [flat_map]. rewrite Hlast.
    now rewrite app_nil_r. }
  assert (Hlen : List.length ones = List.length cols)
    by (apply engine_facts.one_led_updates_length; exact Hacc).
  exists (ones ++ [seg_update (Z.of_nat (List.length cols)) n r g b]).
  split; [|split; [|split]].
  - apply (power_on_world s device_id ip_address result reply (PInt n) w1 w2 dev);
      try assumption.
    intros E. apply (f_equal (@List.length pyval)) in E.
    rewrite length_app in E. simpl in E. lia.
  - rewrite length_app, Hlen. simpl. lia.
  - intros i col Hi.
    destruct (engine_facts.one_led_updates_nth cols 0 i col Hacc Hi)
      as (r' & g' & b' & E & N).
    exists r', g', b'. split; [exact E|].
    rewrite nth_error_app1
      by (rewrite Hlen; apply nth_error_Some; congruence).
    exact N.
  - exists r, g, b. split; [exact Hrgb|].
    rewrite nth_error_app2 by (rewrite Hlen; lia).
    rewrite Hlen, Nat.sub_diag. reflexivity.
Qed.

End AnyClient.

(** The run of [test_segment_mapping_even_split]: two saved colours and
    300 reported LEDs give three ranges, the last one [[2, 300)]. *)
Lemma power_on_sends_one_range_per_saved_color_and_one_more_fixture :
  exists ranges,
    world (snd fixture_power_on)
    = [power_on_request;
       PDict [("on", PBool true); ("bri", PInt 128);
              ("seg", PList ranges); ("psave", PInt 1)]]
    /\ List.length ranges = 3%nat
    /\ nth_error ranges 2 = Some (seg_update 2 300 0xaf 0xab 0x2c).
Proof.
  destruct (power_on_sends_one_range_per_saved_color_and_one_more (list pyval)
              (recording_client (Ok reply_300)) fixture_manager
              (PInt 1) (PStr "10.0.0.140") ack reply_300
              [power_on_request] [power_on_request] fixture_record
              [PStr "#3dd1db"; PStr "#a52222"] 300)
    as (ranges & Hw & Hl & _ & (r & g & b & Hc & Hn)).
  - reflexivity.
  - reflexivity.
  - reflexivity.
  - discriminate.
  - reflexivity.
  - reflexivity.
  - reflexivity.
  - discriminate.
  - repeat constructor; vm_compute; discriminate.
  - vm_compute; discriminate.
  - reflexivity.
  - reflexivity.
  - simpl; lia.
  - exists ranges. split; [exact Hw|]. split; [exact Hl|].
    vm_compute in Hc. injection Hc as <- <- <-. exact Hn.
Defined.

(** The fixture's power-on keeps the toggle's reply. *)
Lemma power_on_result_survives_reconciliation_fixture :
  fst fixture_power_on = Ok ack.
Proof.
  exact (proj1 (power_on_result_survives_reconciliation (list pyval)
                  (recording_client (Ok reply_300)) fixture_manager
                  (PInt 1) (PStr "10.0.0.140") ack [power_on_request]
                  eq_refl eq_refl eq_refl
                  (fun H : ack = PNone => eq_ind ack
                     (fun v => match v with PDict _ => True | _ => False end)
                     I PNone H))).
Defined.

(** *** Nothing saved, nothing sent *)

(** A device with no saved segment colours, no current colour and no
    saved mapping yields no range, whatever LED count was discovered;
    the reconciliation after power-on then stops at the state query and
    writes nothing to the device. *)
Theorem no_saved_colors_nothing_to_send
  (W : Type) (esp32 : esp32_client.client W) (dev : pydict) (reported : option Z) :
  truthy (dget dev "device_segment_colors") = false ->
  truthy (dget dev "device_current_color") = false ->
  truthy (dget dev "device_segment_mapping") = false ->
  plan_updates dev (reported_value reported) = Ok []
  /\ forall ip_address reply (s : st W) w2,
       esp32_client.get_device_state esp32 ip_address (world s) = (Ok reply, w2) ->
       detect_total_leds (por reply (PDict [])) = Ok (reported_value reported) ->
       world (snd (reconcile_after_power_on W esp32 dev ip_address s)) = w2.
Proof.
  intros Hcols Hcurr Hmap.
  assert (Hplan : plan_updates dev (reported_value reported) = Ok []).
  { unfold plan_updates. rewrite Hmap. cbn [negb].
    unfold por. rewrite Hcols.
    rewrite (engine_facts.auto_seg_mapping_list reported []). cbn [rbind].
    unfold generated_candidates. rewrite Hcurr. reflexivity. }
  split; [exact Hplan|].
  intros ip_address reply s w2 Hget Hdet.
  unfold reconcile_after_power_on, mbind, mlift, call, mret.
  rewrite Hget. cbn [world devices_data]. rewrite Hdet, Hplan. reflexivity.
Qed.

(** A record that only names the device: nothing is planned for it. *)
Lemma no_saved_colors_nothing_to_send_bare_record :
  plan_updates [("device_id", PInt 7)] (reported_value (Some 300)) = Ok [].
Proof.
  exact (proj1 (no_saved_colors_nothing_to_send unit steady_client
                  [("device_id", PInt 7)] (Some 300) eq_refl eq_refl eq_refl)).
Defined.

(** *** Applying the saved state twice *)

Section Repeat.

Variable W : Type.
Variable cl : esp32_client.client W.
Variable devices_file : string.
Variable fs : filesystem.

(** The payloads recorded by one [apply_saved_state] are those the
    inventory and the device's answer determine. *)
Lemma apply_saved_state_sent (device_id : pyval) (s : st (W * list pyval)) :
  snd (world (snd (apply_saved_state (W * list pyval) (capture cl) devices_file fs
                     device_id s)))
  = snd (world s)
    ++ sent_by fs devices_file device_id
         (fun ip => fst (esp32_client.get_device_state cl ip (fst (world s)))).
Proof.
  unfold apply_saved_state, sent_by.
  unfold mbind at 1. unfold mtry at 1. rewrite manager_facts.load_devices_run.
  set (i := snd (load_devices_pure fs devices_file)).
  unfold mtry at 1. unfold mbind at 1. unfold mget. unfold mbind at 1.
  unfold mlift at 1. cbn [devices_data].
  destruct (lookup_dev i (normalize_id device_id)) as [dev|e];
    [|cbn; now rewrite app_nil_r].
  unfold mbind at 1. unfold mlift at 1.
  destruct (get_device_ip i (normalize_id device_id)) as [ip|e];
    [|cbn; now rewrite app_nil_r].
  destruct (truthy ip); cbn [negb]; [|cbn; now rewrite app_nil_r].
  unfold mbind at 1. unfold mtry at 1. unfold mbind at 1. unfold call at 1.
  cbn [world esp32_client.get_device_state capture].
  destruct (esp32_client.get_device_state cl ip (fst (world s))) as [[reply|e] w1];
    cbn [fst snd mlift mret].
  - destruct (detect_total_leds (por reply (PDict []))) as [t|e1]; cbn [mret].
    + unfold mbind at 1. unfold mlift at 1.
      destruct (plan_updates dev t) as [ups|e1]; [|cbn; now rewrite app_nil_r].
      destruct ups as [|u ups]; cbn [nonempty]; [cbn; now rewrite app_nil_r|].
      unfold mtry, call. cbn [world esp32_client.set_device_state capture fst snd].
      destruct (esp32_client.set_device_state cl ip (state_data_of dev (u :: ups)) w1)
        as [[v|e1] w2]; reflexivity.
    + unfold mbind at 1. unfold mlift at 1.
      destruct (plan_updates dev PNone) as [ups|e2]; [|cbn; now rewrite app_nil_r].
      destruct ups as [|u ups]; cbn [nonempty]; [cbn; now rewrite app_nil_r|].
      unfold mtry, call. cbn [world esp32_client.set_device_state capture fst snd].
      destruct (esp32_client.set_device_state cl ip (state_data_of dev (u :: ups)) w1)
        as [[v|e2] w2]; reflexivity.
  - unfold mbind at 1. unfold mlift at 1.
    destruct (plan_updates dev PNone) as [ups|e0]; [|cbn; now rewrite app_nil_r].
    destruct ups as [|u ups]; cbn [nonempty]; [cbn; now rewrite app_nil_r|].
    unfold mtry, call. cbn [world esp32_client.set_device_state capture fst snd].
    destruct (esp32_client.set_device_state cl ip (state_data_of dev (u :: ups)) w1)
      as [[v|e0] w2]; reflexivity.
Qed.

Lemma sent_by_at_most_one (device_id : pyval) (answer : pyval -> res pyval) :
  (List.length (sent_by fs devices_file device_id answer) <= 1)%nat.
Proof.
  unfold sent_by.
  destruct (lookup_dev _ _); [|simpl; lia].
  destruct (get_device_ip _ _) as [ip|]; [|simpl; lia].
  destruct (truthy ip); [|simpl; lia].
  destruct (plan_updates _ _) as [ups|]; [|simpl; lia].
  destruct (nonempty ups); simpl; lia.
Qed.

Lemma sent_by_ext (device_id : pyval) (f g : pyval -> res pyval) :
  (forall ip, f ip = g ip) ->
  sent_by fs devices_file device_id f = sent_by fs devices_file device_id g.
Proof.
  intros H. unfold sent_by.
  destruct (lookup_dev _ _); [|reflexivity].
  destruct (get_device_ip _ _) as [ip|]; [|reflexivity].
  now rewrite (H ip).
Qed.

(** C9, as the code has it.  Two invocations of [apply_saved_state(id)]
    over the same inventory file, to which the device answers the state
    query alike (the same reply, or the same failure), send the same
    payloads, at most one each, whatever the manager held in memory and
    whatever was sent before. *)
Theorem apply_saved_state_repeats_its_payload
  (device_id : pyval) (s1 s2 : st (W * list pyval)) :
  (forall ip,
     fst (esp32_client.get_device_state cl ip (fst (world s1)))
     = fst (esp32_client.get_device_state cl ip (fst (world s2)))) ->
  exists payloads,
    snd (world (snd (apply_saved_state (W * list pyval) (capture cl) devices_file fs
                       device_id s1)))
    = snd (world s1) ++ payloads
    /\ snd (world (snd (apply_saved_state (W * list pyval) (capture cl) devices_file fs
                          device_id s2)))
       = snd (world s2) ++ payloads
    /\ (List.length payloads <= 1)%nat.
Proof.
  intros Hsame.
  exists (sent_by fs devices_file device_id
            (fun ip => fst (esp32_client.get_device_state cl ip (fst (world s1))))).
  split; [apply apply_saved_state_sent|]. split; [|apply sent_by_at_most_one].
  rewrite apply_saved_state_sent. f_equal. apply sent_by_ext. intros ip.
  symmetry. apply Hsame.
Qed.

End Repeat.

(** A device that always answers alike is sent the same payload twice. *)
Lemma apply_saved_state_repeats_its_payload_steady :
  exists payloads,
    snd (world (snd (apply_saved_state (unit * list pyval) (capture steady_client)
                       fixture_path fixture_fs (PInt 1) (mkSt [] (tt, [])))))
    = [] ++ payloads
    /\ snd (world (snd (apply_saved_state (unit * list pyval) (capture steady_client)
                          fixture_path fixture_fs (PInt 1) (mkSt [] (tt, [ack])))))
       = [ack] ++ payloads
    /\ (List.length payloads <= 1)%nat.
Proof.
  exact (apply_saved_state_repeats_its_payload unit steady_client fixture_path fixture_fs
           (PInt 1) (mkSt [] (tt, [])) (mkSt [] (tt, [ack])) (fun ip => eq_refl)).
Defined.

(** C9 as stated fails: with the inventory untouched, a device that
    reports 300 LEDs to the first invocation and does not answer the
    second is sent two different payloads. *)
Lemma successive_payloads_differ :
  exists p1 p2, sent (world flaky_second) = [p1; p2] /\ p1 <> p2.
Proof.
  eexists. eexists. split; [vm_compute; reflexivity|].
  intros H. inversion H.
Qed.

End reconciliation_facts.

(* ================================================================== *)
(** ** The inventory store's write path                                *)
(* ================================================================== *)

Module store_facts.

Import file_helpers device_manager props.
Local Open Scope list_scope.

Lemma assoc_fs_set_same (fs : filesystem) (p : string) (f : file) :
  assoc p (fs_set fs p f) = Some f.
Proof.
  induction fs as [|[q g] fs IH]; simpl.
  - now rewrite String.eqb_refl.
  - destruct (String.eqb p q) eqn:E; simpl; rewrite E; [reflexivity | exact IH].
Qed.

Lemma assoc_fs_set_other (fs : filesystem) (p q : string) (f : file) :
  p <> q -> assoc p (fs_set fs q f) = assoc p fs.
Proof.
  intros Hne. assert (Hb : String.eqb p q = false) by now apply String.eqb_neq.
  induction fs as [|[q0 g] fs IH]; simpl.
  - now rewrite Hb.
  - destruct (String.eqb q q0) eqn:E; simpl.
    + apply String.eqb_eq in E. subst q0. now rewrite Hb.
    + now rewrite IH.
Qed.

Lemma assoc_fs_remove_same (fs : filesystem) (p : string) :
  assoc p (fs_remove fs p) = None.
Proof.
  induction fs as [|[q g] fs IH]; simpl; [reflexivity|].
  destruct (String.eqb p q) eqn:E; simpl; [exact IH | now rewrite E].
Qed.

Lemma assoc_fs_remove_other (fs : filesystem) (p q : string) :
  p <> q -> assoc p (fs_remove fs q) = assoc p fs.
Proof.
  intros Hne. assert (Hb : String.eqb p q = false) by now apply String.eqb_neq.
  induction fs as [|[q0 g] fs IH]; simpl; [reflexivity|].
  destruct (String.eqb q q0) eqn:E; simpl.
  - apply String.eqb_eq in E. subst q0. now rewrite Hb.
  - now rewrite IH.
Qed.

(** While the lock file stays, [_acquire_lock] only polls and sleeps,
    and gives up once the time-out has passed. *)
Lemma acquire_loop_held (lock_path : string) (timeout start : Z) :
  forall (fuel : nat) (s : io),
    path_exists (files s) lock_path = true ->
    (1 <= fuel)%nat ->
    timeout - (clock s - start) <= 50 * (Z.of_nat fuel - 1) ->
    exists s' waits,
      acquire_loop fuel lock_path timeout start s = Some (false, s')
      /\ files s' = files s
      /\ trace s' = trace s ++ waits
      /\ Forall (waits_only lock_path (files s)) waits
      /\ timeout <= clock s' - start
      /\ clock s' - start < Z.max (timeout + 50) (clock s - start + 1).
Proof.
  induction fuel as [|fuel IH]; intros s Hheld Hfuel Hrem; [lia|].
  cbn [acquire_loop]. rewrite Hheld. cbn [emit clock].
  destruct (Z.leb_spec timeout (clock s - start)) as [Hdone|Hwait].
  - eexists. exists [(EOpenExcl lock_path false, files s)].
    repeat split; unfold emit; cbn [files trace clock]; try reflexivity; try lia.
    constructor; [|constructor]. split; [reflexivity | now left].
  - set (s1 := sleep 50 (emit (EOpenExcl lock_path false) (files s) s)).
    destruct (IH s1) as (s' & waits & Hrun & Hfiles & Htrace & Hwaits & Hlo & Hhi).
    + exact Hheld.
    + lia.
    + subst s1. unfold sleep, emit. cbn [clock]. lia.
    + exists s', ((EOpenExcl lock_path false, files s) :: (ESleep 50, files s) :: waits).
      repeat split.
      * exact Hrun.
      * exact Hfiles.
      * rewrite Htrace. subst s1. unfold sleep, emit. cbn [trace files].
        now rewrite <- !app_assoc.
      * constructor; [split; [reflexivity | now left]|].
        constructor; [split; [reflexivity | now right]|]. exact Hwaits.
      * exact Hlo.
      * subst s1. unfold sleep, emit in Hhi. cbn [clock] in Hhi. lia.
Qed.

Lemma acquire_loop_free (lock_path : string) (timeout start : Z) (fuel : nat) (s : io) :
  path_exists (files s) lock_path = false ->
  acquire_loop (S fuel) lock_path timeout start s
  = Some (true, emit (EOpenExcl lock_path true) (fs_set (files s) lock_path NotJson) s).
Proof. intros H. cbn [acquire_loop]. now rewrite H. Qed.

Lemma acquire_fuel_default : acquire_fuel default_lock_timeout = 102%nat.
Proof. reflexivity. Qed.

(** The contract of [_atomic_write_json] with the default time-out of 5
    seconds, for a target whose lock and temporary files are files of
    their own. *)
Theorem atomic_write_contract (path : string) (data : pyval) (s : io) :
  lock_path_of path <> path ->
  tmp_path_of path <> path ->
  lock_path_of path <> tmp_path_of path ->
  (path_exists (files s) (lock_path_of path) = false ->
   exists s' steps,
     save_network_devices path data s = Some (Ok tt, s')
     /\ trace s' = trace s ++ steps
     /\ map fst steps
        = [EOpenExcl (lock_path_of path) true;
           EOpenW (tmp_path_of path);
           EDump (tmp_path_of path) data;
           EFlush (tmp_path_of path);
           EFsync (tmp_path_of path);
           EClose (tmp_path_of path);
           EReplace (tmp_path_of path) path;
           ERemove (lock_path_of path)]
     /\ Forall (target_whole path (files s) data) steps
     /\ assoc path (files s') = Some (Doc data)
     /\ path_exists (files s') (lock_path_of path) = false)
  /\ (path_exists (files s) (lock_path_of path) = true ->
      exists s' waits,
        save_network_devices path data s = Some (Raise RuntimeError, s')
        /\ files s' = files s
        /\ trace s' = trace s ++ waits
        /\ Forall (waits_only (lock_path_of path) (files s)) waits
        /\ 5000 <= clock s' - clock s < 5050).
Proof.
  intros Hlp Htp Hlt.
  unfold save_network_devices, _atomic_write_json, _acquire_lock.
  rewrite acquire_fuel_default. unfold default_lock_timeout.
  set (lock := lock_path_of path) in *. set (tmp := tmp_path_of path) in *.
  split; intros Hlock.
  - rewrite (acquire_loop_free lock 5000 (clock s) 101 s Hlock).
    destruct s as [files0 clock0 trace0]. cbn [files clock trace] in *.
    cbv beta iota zeta delta [emit files clock trace].
    set (f1 := fs_set files0 lock NotJson).
    set (f2 := fs_set f1 tmp NotJson).
    set (f3 := fs_set f2 tmp (Doc data)).
    assert (Hc : content_of f3 tmp = Doc data).
    { unfold content_of, f3. now rewrite assoc_fs_set_same. }
    rewrite Hc.
    set (f7 := fs_set (fs_remove f3 tmp) path (Doc data)).
    assert (Hl7 : path_exists f7 lock = true).
    { unfold path_exists, f7, f3, f2, f1.
      rewrite assoc_fs_set_other, assoc_fs_remove_other, !assoc_fs_set_other,
        assoc_fs_set_same by congruence. reflexivity. }
    unfold _release_lock. cbv beta iota zeta delta [emit files clock trace].
    rewrite Hl7.
    eexists. eexists. split; [reflexivity|]. cbn [trace files].
    split; [rewrite <- !app_assoc; cbn [app]; reflexivity|].
    split; [reflexivity|].
    assert (H1 : assoc path f1 = assoc path files0)
      by (unfold f1; now rewrite assoc_fs_set_other by congruence).
    assert (H2 : assoc path f2 = assoc path files0)
      by (unfold f2; now rewrite assoc_fs_set_other by congruence).
    assert (H3 : assoc path f3 = assoc path files0)
      by (unfold f3; now rewrite assoc_fs_set_other by congruence).
    assert (H7 : assoc path f7 = Some (Doc data))
      by (unfold f7; apply assoc_fs_set_same).
    assert (H8 : assoc path (fs_remove f7 lock) = Some (Doc data))
      by (now rewrite assoc_fs_remove_other by congruence).
    split.
    { repeat (apply Forall_cons; [unfold target_whole; cbn [snd]; auto|]).
      apply Forall_nil. }
    split; [exact H8|].
    unfold path_exists. now rewrite assoc_fs_remove_same.
  - destruct (acquire_loop_held lock 5000 (clock s) 102 s Hlock) as
      (s' & waits & Hrun & Hfiles & Htrace & Hwaits & Hlo & Hhi); [lia | lia |].
    rewrite Hrun. exists s', waits. repeat split; try assumption; lia.
Qed.

(** The contract on the inventory file of the repository's data
    directory, found locked. *)
Lemma atomic_write_contract_locked_store :
  exists s' waits,
    save_network_devices inventory_path (PDict [("zones", PList [])]) locked_store
    = Some (Raise RuntimeError, s')
    /\ files s' = files locked_store
    /\ trace s' = trace locked_store ++ waits
    /\ Forall (waits_only (lock_path_of inventory_path) (files locked_store)) waits
    /\ 5000 <= clock s' - clock locked_store < 5050.
Proof.
  refine (proj2 (atomic_write_contract inventory_path (PDict [("zones", PList [])])
                   locked_store _ _ _) eq_refl);
    vm_compute; discriminate.
Defined.

(** C6 at the writers that bypass the store.  With the inventory file's
    lock held by another writer, [save_network_devices] waits 5 seconds
    and raises, leaving the file as it was; [DeviceManager.save_devices]
    (through [save_json_file]), [remove_device] and the hierarchy
    route's write go ahead all the same: they take no lock, stage no
    temporary file, neither flush nor fsync, rename nothing, and the
    inventory file is first truncated in place and then filled. *)
Theorem direct_writers_bypass_the_store :
  (exists s', save_network_devices inventory_path (index_document []) locked_store
              = Some (Raise RuntimeError, s')
              /\ files s' = files locked_store)
  /\ events (snd (save_devices inventory_path [] locked_store))
     = [EOpenW inventory_path;
        EDump inventory_path (index_document []);
        EClose inventory_path]
  /\ contents_of inventory_path (snd (save_devices inventory_path [] locked_store))
     = [NotJson; Doc (index_document []); Doc (index_document [])]
  /\ path_exists (files (snd (save_devices inventory_path [] locked_store)))
       inventory_lock = true
  /\ (exists s', remove_device inventory_path (PInt 1)
                   (devices_data fixture_manager) locked_store = Ok (true, [], s')
                 /\ contents_of inventory_path s'
                    = [NotJson; Doc (index_document []); Doc (index_document [])])
  /\ contents_of inventory_path
       (app.write_hierarchy inventory_path (PDict [("zones", PList [])]) locked_store)
     = [NotJson; Doc (PDict [("zones", PList [])]); Doc (PDict [("zones", PList [])])].
Proof.
  split; [|split; [|split; [|split; [|split]]]].
  - eexists. split; vm_compute; reflexivity.
  - vm_compute; reflexivity.
  - vm_compute; reflexivity.
  - vm_compute; reflexivity.
  - eexists. split; vm_compute; reflexivity.
  - vm_compute; reflexivity.
Qed.

End store_facts.

(* ================================================================== *)
(** ** The flattened index: what loading guarantees                    *)
(* ================================================================== *)

Module index_facts.

Import file_helpers device_manager props index_props.
Local Open Scope list_scope.

Lemma foldM_invariant {A B} (P : A -> Prop) (f : A -> B -> res A) :
  (forall a b a', P a -> f a b = Ok a' -> P a') ->
  forall l a a', P a -> foldM f l a = Ok a' -> P a'.
Proof.
  intros Hf l. induction l as [|b l IH]; simpl; intros a a' Pa H.
  - now injection H as <-.
  - destruct (f a b) as [a1|e] eqn:E; simpl in H; [|discriminate].
    eapply IH; [|exact H]. eapply Hf; eauto.
Qed.

Lemma assoc_dset_same (d : pydict) (k : string) (v : pyval) :
  assoc k (dset d k v) = Some v.
Proof.
  induction d as [|[k0 v0] d IH]; simpl.
  - now rewrite String.eqb_refl.
  - destruct (String.eqb k k0) eqn:E; simpl.
    + now rewrite String.eqb_refl.
    + now rewrite E.
Qed.

Lemma assoc_dset_other (d : pydict) (k k' : string) (v : pyval) :
  String.eqb k k' = false -> assoc k (dset d k' v) = assoc k d.
Proof.
  intros Hne. induction d as [|[k0 v0] d IH]; simpl.
  - now rewrite Hne.
  - destruct (String.eqb k' k0) eqn:E; simpl.
    + apply String.eqb_eq in E. subst k0. now rewrite Hne.
    + now rewrite IH.
Qed.

Lemma assoc_dset_kept (d : pydict) (k k' : string) (v : pyval) :
  assoc k d <> None -> assoc k (dset d k' v) <> None.
Proof.
  destruct (String.eqb k k') eqn:E.
  - apply String.eqb_eq in E. subst k'. rewrite assoc_dset_same. congruence.
  - induction d as [|[k0 v0] d IH]; simpl; [congruence|].
    destruct (String.eqb k' k0) eqn:E0; simpl.
    + apply String.eqb_eq in E0. subst k0. now rewrite E.
    + destruct (String.eqb k k0); [congruence | exact IH].
Qed.

Lemma Forall_kset {V} (P : key * V -> Prop) (i : list (key * V)) (k : key) (v : V) :
  Forall P i -> P (k, v) -> Forall P (kset i k v).
Proof.
  intros Hi Hk. induction Hi as [|[k0 v0] i H0 Hi IH]; simpl.
  - now constructor.
  - destruct (key_eqb k k0) eqn:E.
    + apply manager_facts.key_eqb_eq in E. subst k0. now constructor.
    + now constructor.
Qed.

Lemma flatten_device_invariant (zone group location device : pyval) (i i' : index) :
  NoDup (map fst i) /\ Forall loaded_entry i ->
  flatten_device zone group location i device = Ok i' ->
  NoDup (map fst i') /\ Forall loaded_entry i'.
Proof.
  intros [Hn Hf]. unfold flatten_device.
  destruct (get device "device_id") as [device_id|] eqn:Eid; simpl; [|discriminate].
  destruct device as [| | | | |d]; try discriminate.
  destruct (get zone "zone_id") as [zone_id|]; simpl; [|discriminate].
  destruct (get group "group_id") as [group_id|]; simpl; [|discriminate].
  destruct (get location "location_id") as [location_id|]; simpl; [|discriminate].
  match goal with |- context [hash_key ?x] => destruct (hash_key x) as [k|] eqn:Ek end;
    simpl; [|discriminate].
  intros H. injection H as <-. split.
  - now apply manager_facts.kset_nodup.
  - apply Forall_kset; [exact Hf|]. split; cbn [fst snd].
    + destruct k as [|z|s]; simpl; trivial.
      destruct device_id as [| | |t| |]; simpl in Ek; try discriminate.
      destruct (int_of_str 10 t) as [z|] eqn:Et; simpl in Ek; [discriminate|].
      now injection Ek as <-.
    + unfold stamped. repeat split.
      * do 2 apply assoc_dset_kept. rewrite assoc_dset_same. congruence.
      * apply assoc_dset_kept. rewrite assoc_dset_same. congruence.
      * rewrite assoc_dset_same. congruence.
Qed.

Lemma read_and_flatten_invariant (fs : filesystem) (devices_file : string) (i : index) :
  read_and_flatten fs devices_file = Ok (Some i) ->
  NoDup (map fst i) /\ Forall loaded_entry i.
Proof.
  unfold read_and_flatten.
  destruct (load_json_file fs devices_file) as [raw|]; simpl; [|discriminate].
  match goal with |- context [rbind ?m _] => destruct m as [[|]|] end;
    simpl; try discriminate.
  destruct (get_default raw "zones" (PList [])) as [zones|]; simpl; [|discriminate].
  destruct (iter zones) as [l|]; simpl; [|discriminate].
  destruct (foldM flatten_zone l []) as [flat|] eqn:E; simpl; [|discriminate].
  intros H. injection H as <-.
  pose (P := fun a : index => NoDup (map fst a) /\ Forall loaded_entry a).
  revert E. apply (foldM_invariant P); [|split; constructor].
  intros a zone a' Ha. unfold flatten_zone.
  destruct (get_default zone "groups" (PList [])) as [groups|]; simpl; [|discriminate].
  destruct (iter groups) as [gl|]; simpl; [|discriminate].
  apply (foldM_invariant P); [|exact Ha]. clear a a' Ha.
  intros a group a' Ha. unfold flatten_group.
  destruct (get_default group "location" (PList [])) as [locations|]; simpl; [|discriminate].
  destruct (iter locations) as [ll|]; simpl; [|discriminate].
  apply (foldM_invariant P); [|exact Ha]. clear a a' Ha.
  intros a location a' Ha. unfold flatten_location.
  destruct (get_default location "device" (PList [])) as [devs|]; simpl; [|discriminate].
  destruct (iter (por devs (PList []))) as [dl|]; simpl; [|discriminate].
  apply (foldM_invariant P); [|exact Ha]. clear a a' Ha.
  intros a device a' Ha. now apply flatten_device_invariant.
Qed.

Lemma loaded_index_invariant (fs : filesystem) (devices_file : string) :
  NoDup (map fst (snd (load_devices_pure fs devices_file)))
  /\ Forall loaded_entry (snd (load_devices_pure fs devices_file)).
Proof.
  unfold load_devices_pure.
  destruct (read_and_flatten fs devices_file) as [[i|]|e] eqn:E; cbn [snd];
    try (split; constructor).
  now apply read_and_flatten_invariant in E.
Qed.

(** *** Identifiers as text: [json.dump]'s keys read back by [int()] *)

Lemma uint_value_pos (d : Decimal.uint) :
  forall acc : positive, uint_value d (Z.pos acc) = Z.pos (Pos.of_uint_acc d acc).
Proof.
  induction d; intros acc; cbn [uint_value Pos.of_uint_acc]; [reflexivity|..];
    match goal with
    | |- uint_value _ ?a = Z.pos (Pos.of_uint_acc _ ?b) =>
        replace a with (Z.pos b) by lia; apply IHd
    end.
Qed.

Lemma uint_value_zero (d : Decimal.uint) : uint_value d 0 = Z.of_N (Pos.of_uint d).
Proof.
  induction d; cbn [uint_value Pos.of_uint Z.mul Z.add]; [reflexivity | exact IHd |..];
    apply (uint_value_pos d).
Qed.

Lemma parse_digits_uint (d : Decimal.uint) :
  forall (acc : Z) (seen : bool),
    d <> Decimal.Nil \/ seen = true ->
    parse_digits 10 (list_ascii_of_string (NilEmpty.string_of_uint d)) acc false seen
    = Some (uint_value d acc).
Proof.
  induction d; intros acc seen H;
    [destruct H as [H| ->]; [congruence | reflexivity] |..];
    cbn [NilEmpty.string_of_uint list_ascii_of_string parse_digits uint_value];
    (rewrite <- IHd with (seen := true) by (now right)); reflexivity.
Qed.

Lemma uint_chars_not_space (d : Decimal.uint) :
  Forall (fun c => is_int_space c = false)
         (list_ascii_of_string (NilEmpty.string_of_uint d)).
Proof.
  induction d; cbn [NilEmpty.string_of_uint list_ascii_of_string];
    constructor; try reflexivity; assumption.
Qed.

Lemma int_of_str_uint (d : Decimal.uint) :
  d <> Decimal.Nil ->
  int_of_str 10 (NilEmpty.string_of_uint d) = Some (Z.of_N (Pos.of_uint d))
  /\ int_of_str 10 (String "-" (NilEmpty.string_of_uint d))
     = Some (- Z.of_N (Pos.of_uint d)).
Proof.
  intros Hd. rewrite <- uint_value_zero. unfold int_of_str. split.
  - rewrite engine_facts.strip_with_all_false by apply uint_chars_not_space.
    pose proof (parse_digits_uint d 0 false (or_introl Hd)) as P.
    destruct d; try congruence;
      cbn [NilEmpty.string_of_uint list_ascii_of_string] in *;
      cbv beta iota delta [Ascii.eqb Bool.eqb]; cbv beta iota;
      unfold drop_prefix16; cbn [Z.eqb Pos.eqb]; now rewrite P.
  - cbn [list_ascii_of_string].
    rewrite engine_facts.strip_with_all_false
      by (constructor; [reflexivity | apply uint_chars_not_space]).
    cbv beta iota delta [Ascii.eqb Bool.eqb]; cbv beta iota.
    unfold drop_prefix16; cbn [Z.eqb Pos.eqb].
    now rewrite (parse_digits_uint d 0 false (or_introl Hd)).
Qed.

(** The decimal text of an integer identifier reads back as that
    integer. *)
Lemma int_of_key_text (z : Z) : int_of_str 10 (key_text (KInt z)) = Some z.
Proof.
  unfold key_text. destruct z as [|p|p]; [reflexivity|..];
    cbn [Z.to_int NilZero.string_of_int];
    pose proof (DecimalPos.Unsigned.of_to p) as R;
    (assert (Hd : Pos.to_uint p <> Decimal.Nil)
       by (intros E; rewrite E in R; discriminate R));
    destruct (int_of_str_uint _ Hd) as [A B]; rewrite R in A, B;
    destruct (Pos.to_uint p); try congruence; assumption.
Qed.




End index_facts.

(* ================================================================== *)
(** ** Applying the saved state                                        *)
(* ================================================================== *)

Module saved_state_facts.

Import file_helpers device_manager devices device_routes props.
Local Open Scope list_scope.

Section Saved.

Variable W : Type.
Variable esp32 : esp32_client.client W.

Ltac keeps_the_index :=
  repeat first
    [ apply manager_facts.keeps_mret | apply manager_facts.keeps_mlift
    | apply manager_facts.keeps_mget | apply manager_facts.keeps_call
    | apply manager_facts.keeps_mbind; [|intros ?] | apply manager_facts.keeps_mtry
    | match goal with |- keeps_index (if ?b then _ else _) => destruct b end ].

Lemma mtry_returns {S A} (m : M S A) (a0 : A) (s : S) :
  exists a, fst (mtry m (mret a0) s) = Ok a.
Proof.
  unfold mtry, mret. destruct (m s) as [[a|e] s']; cbn [fst]; [exists a | exists a0];
    reflexivity.
Qed.

Lemma apply_saved_state_run
  (devices_file : string) (fs : filesystem) (device_id : pyval) (s : st W) :
  (exists v, fst (apply_saved_state W esp32 devices_file fs device_id s) = Ok v)
  /\ devices_data (snd (apply_saved_state W esp32 devices_file fs device_id s))
     = snd (load_devices_pure fs devices_file).
Proof.
  assert (L : mtry (load_devices W devices_file fs) (mret false) s
              = (Ok (fst (load_devices_pure fs devices_file)),
                 mkSt (snd (load_devices_pure fs devices_file)) (world s))).
  { unfold mtry. now rewrite manager_facts.load_devices_run. }
  assert (R : exists m : M (st W) pyval,
             keeps_index m
             /\ apply_saved_state W esp32 devices_file fs device_id s
                = mtry m (mret PNone)
                    (mkSt (snd (load_devices_pure fs devices_file)) (world s))).
  { eexists. split.
    2: { unfold apply_saved_state, mbind at 1. rewrite L. reflexivity. }
    keeps_the_index. }
  destruct R as (m & K & ->). split.
  - apply mtry_returns.
  - assert (K' : keeps_index (mtry m (mret PNone)))
      by (apply manager_facts.keeps_mtry; [exact K | apply manager_facts.keeps_mret]).
    now rewrite K'.
Qed.

(** [apply_saved_state] never raises, whatever the file holds and
    whatever the client does, and it always leaves the manager with the
    index a fresh [load_devices] of the file gives: empty when the file
    cannot be read. *)
Theorem apply_saved_state_reloads_and_never_raises
  (devices_file : string) (fs : filesystem) (device_id : pyval) (s : st W) :
  exists v s',
    apply_saved_state W esp32 devices_file fs device_id s = (Ok v, s')
    /\ devices_data s' = snd (load_devices_pure fs devices_file).
Proof.
  destruct (apply_saved_state_run devices_file fs device_id s) as [[v Hv] Hi].
  destruct (apply_saved_state W esp32 devices_file fs device_id s) as [r s'].
  cbn [fst snd] in *. subst r. now exists v, s'.
Qed.

(** The apply-saved route never answers 500: the reply is the
    404 'No saved state applied or device unreachable' when the manager
    returns [None], and the 200 with the device's answer otherwise; in
    both cases the manager is left with the freshly loaded index. *)
Theorem apply_saved_route_never_answers_500
  (devices_file : string) (fs : filesystem) (device_id : string) (s : st W) :
  exists r s',
    apply_saved_device_state W esp32 devices_file fs device_id s = (Ok r, s')
    /\ devices_data s' = snd (load_devices_pure fs devices_file)
    /\ (r = Reply (error_body "No saved state applied or device unreachable") 404
        \/ exists result, is_none result = false /\ r = success result).
Proof.
  destruct (apply_saved_state_run devices_file fs (PStr device_id) s) as [[v Hv] Hi].
  unfold apply_saved_device_state, mcatch, mbind.
  destruct (apply_saved_state W esp32 devices_file fs (PStr device_id) s) as [r s'].
  cbn [fst snd] in *. subst r.
  destruct (is_none v) eqn:E; unfold mret; do 2 eexists;
    (split; [reflexivity | split; [exact Hi|]]); [now left | right; eauto].
Qed.

End Saved.

End saved_state_facts.

(* ================================================================== *)
(** ** LED-count discovery                                             *)
(* ================================================================== *)

Module discovery_facts.

Import device_manager props index_props.
Local Open Scope list_scope.

(** A reply whose [info.leds.count] is a non-zero number settles
    the LED count: the segments and the top-level fields of the reply
    are not consulted. *)
Theorem info_led_count_comes_first (d i l : pydict) (n : Z) :
  assoc "info" d = Some (PDict i) ->
  assoc "leds" i = Some (PDict l) ->
  assoc "count" l = Some (PInt n) ->
  n <> 0 ->
  detect_total_leds (PDict d) = Ok (PInt n).
Proof.
  intros Hi Hl Hc Hn.
  assert (Ti : truthy (PDict i) = true) by (destruct i; [discriminate Hl | reflexivity]).
  assert (Tn : truthy (PInt n) = true)
    by (simpl; destruct (Z.eqb_spec n 0); [contradiction | reflexivity]).
  unfold detect_total_leds, get, get_default.
  assert (Pi : por (PDict i) (PDict []) = PDict i) by (unfold por; now rewrite Ti).
  assert (Pn : forall x, por (PInt n) x = PInt n) by (intros x; unfold por; now rewrite Tn).
  rewrite Hi. cbn [rbind]. rewrite Ti. cbn [rbind]. rewrite !Pi.
  cbn [isinstance_dict]. rewrite Hl. cbn [rbind isinstance_dict andb]. rewrite Hc.
  cbn [rbind]. rewrite Pn, Tn. cbn [negb andb rbind].
  destruct (assoc "state" d) as [[| | | | |sd]|];
    cbn [isinstance_dict rbind negb]; rewrite ?Tn; cbn [isinstance_dict rbind negb];
    rewrite ?Tn; reflexivity.
Qed.

Lemma info_led_count_comes_first_reply :
  detect_total_leds
    (PDict [("info", PDict [("leds", PDict [("count", PInt 30)])]);
            ("seg", PList [PDict [("len", PInt 12)]]);
            ("leds", PInt 300)])
  = Ok (PInt 30).
Proof.
  apply (info_led_count_comes_first _ [("leds", PDict [("count", PInt 30)])]
           [("count", PInt 30)] 30); [reflexivity | reflexivity | reflexivity | lia].
Defined.

Lemma any_has_len_exists (segs : list pydict) :
  Exists (fun sd => assoc "len" sd <> None) segs ->
  any_has_len (map PDict segs) = Ok true.
Proof.
  induction 1 as [sd segs H|sd segs _ IH]; cbn [map any_has_len contains rbind].
  - destruct (assoc "len" sd); [reflexivity | contradiction].
  - destruct (assoc "len" sd); [reflexivity | exact IH].
Qed.

Lemma sum_len_total (segs : list pydict) :
  Forall plain_segment segs ->
  forall acc, foldM (fun acc s =>
                       (v <- get s "len" ;;
                        match as_int (por v (PInt 0)) with
                        | Some n => Ok (acc + n)
                        | None => Raise TypeError
                        end)%res)
                    (map PDict segs) acc
              = Ok (acc + total_len segs).
Proof.
  unfold get, get_default.
  induction 1 as [|sd segs H _ IH]; intros acc;
    cbn [map foldM total_len fold_right]; [f_equal; lia|].
  cbn [rbind]. unfold plain_segment in H.
  unfold seg_len at 1.
  destruct (assoc "len" sd) as [v|].
  - destruct H as [->|[n Hn]].
    + cbn [por truthy as_int rbind]. rewrite IH. f_equal. unfold total_len. lia.
    + assert (E : exists m, as_int (por v (PInt 0)) = Some m).
      { unfold por. destruct (truthy v); [eauto | simpl; eauto]. }
      destruct E as [m Em]. rewrite Em. cbn [rbind]. rewrite IH. f_equal.
      unfold total_len. lia.
  - cbn [por truthy as_int rbind]. rewrite IH. f_equal. unfold total_len. lia.
Qed.

(** When the reply has no [info] block (and no nested [state]),
    the LED count is the sum of the lengths its segments declare,
    provided one of them declares a length and the sum is not zero; the
    top-level [leds] field is then not consulted. *)
Theorem segment_lengths_come_second (d : pydict) (segs : list pydict) :
  assoc "state" d = None ->
  assoc "info" d = None ->
  assoc "seg" d = Some (PList (map PDict segs)) ->
  Forall plain_segment segs ->
  Exists (fun sd => assoc "len" sd <> None) segs ->
  total_len segs <> 0 ->
  detect_total_leds (PDict d) = Ok (PInt (total_len segs)).
Proof.
  intros Hs Hi Hg Hp He Hn.
  assert (Tn : truthy (PInt (total_len segs)) = true)
    by (simpl; destruct (Z.eqb_spec (total_len segs) 0); [contradiction | reflexivity]).
  unfold detect_total_leds, get, get_default.
  rewrite Hs. cbn [rbind isinstance_dict]. rewrite Hi.
  cbn [rbind truthy por isinstance_dict andb negb assoc]. rewrite Hg.
  cbn [rbind truthy por isinstance_dict andb negb assoc].
  rewrite (any_has_len_exists segs He). cbn [rbind].
  unfold sum_len. rewrite (sum_len_total segs Hp 0). cbn [rbind Z.add].
  rewrite Tn. reflexivity.
Qed.

Lemma segment_lengths_come_second_reply :
  detect_total_leds
    (PDict [("seg", PList [PDict [("len", PInt 12)]; PDict [("len", PInt 18)]]);
            ("leds", PInt 300)])
  = Ok (PInt 30).
Proof.
  apply (segment_lengths_come_second _ [[("len", PInt 12)]; [("len", PInt 18)]]);
    try reflexivity.
  - repeat (apply Forall_cons; [unfold plain_segment; simpl; right; eauto|]).
    apply Forall_nil.
  - left. discriminate.
  - discriminate.
Defined.

End discovery_facts.

(* ================================================================== *)
(** ** The registry: saving, adding and removing devices               *)
(* ================================================================== *)

Module registry_facts.

Import file_helpers device_manager device_registry props index_props.
Local Open Scope list_scope.

Lemma save_devices_files (devices_file : string) (i : index) (s : io) :
  assoc devices_file (files (snd (save_devices devices_file i s)))
  = Some (Doc (index_document i)).
Proof.
  unfold save_devices, save_json_file. destruct s as [files0 clock0 trace0].
  cbv beta iota zeta delta [emit files clock trace snd].
  rewrite store_facts.assoc_fs_set_same. reflexivity.
Qed.

Lemma index_document_values (i : index) (k : string) (v : pyval) :
  assoc k (map (fun kd : key * pydict => (key_text (fst kd), PDict (snd kd))) i) = Some v ->
  (exists d, v = PDict d) /\ exists kd, In kd i /\ key_text (fst kd) = k.
Proof.
  induction i as [|[k0 d0] i IH]; simpl; [discriminate|].
  destruct (String.eqb k (key_text k0)) eqn:E.
  - intros H. injection H as <-. split; [eauto|].
    exists (k0, d0). split; [now left|]. symmetry. now apply String.eqb_eq.
  - intros H. destruct (IH H) as [Hd (kd & Hin & Hk)]. split; [exact Hd|].
    exists kd. split; [now right | exact Hk].
Qed.

Lemma flat_document_gives_nothing (fs : filesystem) (devices_file : string)
  (doc : pydict) :
  assoc devices_file fs = Some (Doc (PDict doc)) ->
  (forall v, assoc "zones" doc = Some v -> exists d, v = PDict d) ->
  snd (load_devices_pure fs devices_file) = []
  /\ (assoc "zones" doc = None -> fst (load_devices_pure fs devices_file) = false).
Proof.
  intros F V.
  unfold load_devices_pure, read_and_flatten, load_json_file, path_exists.
  rewrite F. cbn [negb rbind].
  destruct doc as [|e doc]; [split; reflexivity|].
  set (document := e :: doc) in *.
  assert (T : truthy (PDict document) = true) by reflexivity.
  rewrite T. cbn [negb contains rbind get_default].
  destruct (assoc "zones" document) as [v|] eqn:E; cbn [negb rbind]; [|split; reflexivity].
  destruct (V _ eq_refl) as [d ->].
  cbn [iter rbind]. destruct d as [|[k0 v0] d]; cbn [map foldM rbind];
    (split; [reflexivity | discriminate]).
Qed.

(** What [save_devices] writes, [load_devices] cannot read back:
    the file holds the flattened index, not a zones document, so a
    reload from it always leaves the index empty, and reports failure
    unless a device happens to be registered under the name 'zones'. *)
Theorem saved_index_does_not_load_back (devices_file : string) (i : index) (s : io) :
  snd (load_devices_pure (files (snd (save_devices devices_file i s))) devices_file) = []
  /\ ((forall kd, In kd i -> key_text (fst kd) <> "zones") ->
      fst (load_devices_pure (files (snd (save_devices devices_file i s))) devices_file)
      = false).
Proof.
  pose proof (save_devices_files devices_file i s) as F.
  destruct (flat_document_gives_nothing _ _ _ F) as [E N].
  { intros v Hv. now destruct (index_document_values _ _ _ Hv). }
  split; [exact E|]. intros H. apply N.
  destruct (assoc "zones" _) as [v|] eqn:Ez; [|reflexivity].
  destruct (index_document_values _ _ _ Ez) as [_ (kd & Hin & Hk)].
  now elim (H kd Hin).
Qed.

Lemma klookup_kremove_same {V} (i : list (key * V)) (k : key) :
  NoDup (map fst i) -> klookup k (kremove i k) = None.
Proof.
  induction i as [|[k0 v0] i IH]; simpl; intros Hn; [reflexivity|].
  inversion Hn as [|? ? Hnin Hnd]; subst.
  destruct (key_eqb k k0) eqn:E; simpl.
  - apply manager_facts.key_eqb_eq in E. subst k0.
    destruct (klookup k i) as [v|] eqn:L; [|reflexivity].
    now apply manager_facts.klookup_in in L.
  - rewrite E. now apply IH.
Qed.

Lemma klookup_kremove_other {V} (i : list (key * V)) (k k' : key) :
  k' <> k -> klookup k' (kremove i k) = klookup k' i.
Proof.
  intros Hne. induction i as [|[k0 v0] i IH]; simpl; [reflexivity|].
  destruct (key_eqb k k0) eqn:E; simpl.
  - apply manager_facts.key_eqb_eq in E. subst k0.
    now rewrite (manager_facts.key_eqb_neq k' k Hne).
  - now rewrite IH.
Qed.

Lemma length_kremove {V} (i : list (key * V)) (k : key) (v : V) :
  klookup k i = Some v -> List.length i = S (List.length (kremove i k)).
Proof.
  induction i as [|[k0 v0] i IH]; simpl; [discriminate|].
  destruct (key_eqb k k0); [reflexivity|]. intros H. simpl. now rewrite (IH H).
Qed.

Lemma klookup_some_in {V} (i : list (key * V)) (k : key) (v : V) :
  klookup k i = Some v -> In (k, v) i.
Proof.
  induction i as [|[k0 v0] i IH]; simpl; [discriminate|].
  destruct (key_eqb k k0) eqn:E.
  - apply manager_facts.key_eqb_eq in E. subst k0. intros H. injection H as ->. now left.
  - intros H. right. now apply IH.
Qed.

(** [remove_device] forgets exactly the device asked for.  An unknown
    identifier is answered [False] and changes neither the index nor
    the store.  A known one is dropped from the index, every other
    device staying as it was, before anything is written; the remaining
    index is then handed to [save_devices], whose answer is the value
    returned and whose store is the store left behind.  The device is
    forgotten in memory whatever [save_devices] answers. *)
Theorem remove_device_forgets_exactly_one
  (devices_file : string) (device_id : pyval) (k : key) (i : index) (s : io) :
  hash_key device_id = Ok k ->
  NoDup (map fst i) ->
  (klookup k i = None ->
   remove_device devices_file device_id i s = Ok (false, i, s))
  /\ (klookup k i <> None ->
      exists i',
        remove_device devices_file device_id i s
        = Ok (fst (save_devices devices_file i' s), i',
              snd (save_devices devices_file i' s))
        /\ klookup k i' = None
        /\ (forall k', k' <> k -> klookup k' i' = klookup k' i)
        /\ List.length i = S (List.length i')).
Proof.
  intros Hk Hn. unfold remove_device. rewrite Hk. cbn [rbind]. split.
  - intros ->. reflexivity.
  - destruct (klookup k i) as [d|] eqn:L; [intros _ | congruence].
    exists (kremove i k). split; [|split; [|split]].
    + now destruct (save_devices devices_file (kremove i k) s).
    + now apply klookup_kremove_same.
    + intros k' Hne. now apply klookup_kremove_other.
    + now apply (length_kremove i k d).
Qed.

Lemma remove_device_forgets_exactly_one_fixture :
  exists r i' s',
    remove_device fixture_path (PInt 1) (devices_data fixture_manager) empty_store
    = Ok (r, i', s')
    /\ klookup (KInt 1) i' = None
    /\ List.length i' = 0%nat.
Proof.
  destruct (proj2 (remove_device_forgets_exactly_one fixture_path (PInt 1) (KInt 1)
                     (devices_data fixture_manager) empty_store eq_refl
                     (proj1 (index_facts.loaded_index_invariant fixture_fs fixture_path))))
    as (i' & E & L & _ & N).
  - vm_compute. discriminate.
  - eexists. exists i'. eexists. split; [exact E|]. split; [exact L|].
    change (List.length (devices_data fixture_manager)) with 1%nat in N. congruence.
Defined.

(** [remove_device] takes the identifier as it is given, where
    [get_device_ip] first reads it as an integer: asked to remove a
    loaded device by the decimal text of its identifier, it removes
    nothing and writes nothing. *)
Theorem remove_device_does_not_read_the_text
  (fs : filesystem) (devices_file : string) (z : Z) (s : io) :
  remove_device devices_file (PStr (key_text (KInt z)))
    (snd (load_devices_pure fs devices_file)) s
  = Ok (false, snd (load_devices_pure fs devices_file), s).
Proof.
  destruct (index_facts.loaded_index_invariant fs devices_file) as [Hn Hf].
  unfold remove_device. cbn [hash_key rbind].
  destruct (klookup _ _) as [d|] eqn:L; [exfalso|reflexivity].
  pose proof (klookup_some_in _ _ _ L) as Hin. rewrite Forall_forall in Hf.
  destruct (Hf _ Hin) as [Hkey _]. cbn [fst normal_key] in Hkey.
  rewrite index_facts.int_of_key_text in Hkey. discriminate.
Qed.

Section Adding.

Variable W : Type.
Variable get_device_info : pyval -> W -> res pyval * W.
Variable devices_file : string.

(** [add_device] refuses an identifier already in the index
    without querying the device or touching the store, and refuses a
    device that gives no information without changing the index or the
    store.  Otherwise the new record is stored under the identifier,
    every other device staying as it was, and the new index is handed
    to [save_devices], whose answer is the value returned and whose
    store is the store left behind.  The record holds the address under
    ['ip_address'], not ['device_ip'], so [get_device_ip] answers
    [None] for the device just added. *)
Theorem add_device_contract
  (now : Z) (device_id ip_address name location : pyval) (k : key)
  (m : st W) (s : io) :
  hash_key device_id = Ok k ->
  (klookup k (devices_data m) <> None ->
   add_device get_device_info devices_file now device_id ip_address name location m s
   = (Ok false, m, s))
  /\ (klookup k (devices_data m) = None ->
      forall info w1,
        get_device_info ip_address (world m) = (Ok info, w1) ->
        (truthy info = false ->
         add_device get_device_info devices_file now device_id ip_address name location m s
         = (Ok false, mkSt (devices_data m) w1, s))
        /\ (truthy info = true ->
            exists i',
              add_device get_device_info devices_file now device_id ip_address name
                location m s
              = (Ok (fst (save_devices devices_file i' s)), mkSt i' w1,
                 snd (save_devices devices_file i' s))
              /\ (exists d, klookup k i' = Some d
                            /\ dget d "ip_address" = ip_address
                            /\ dget d "device_info" = info)
              /\ (forall k', k' <> k -> klookup k' i' = klookup k' (devices_data m))
              /\ (forall v, hash_key (normalize_id v) = Ok k ->
                            get_device_ip i' v = Ok PNone))).
Proof.
  intros Hk. unfold add_device. rewrite Hk.
  assert (Ht : exists t, id_text device_id = Some t).
  { destruct device_id as [|[|]| | | |]; simpl in *; try discriminate Hk; eauto. }
  destruct Ht as [t ->]. split.
  - destruct (klookup k (devices_data m)); [reflexivity | congruence].
  - intros -> info w1 Hq. rewrite Hq. split; intros T; rewrite T; cbn [negb].
    + reflexivity.
    + set (d := new_record now t ip_address name location info).
      exists (kset (devices_data m) k d).
      split; [now destruct (save_devices devices_file (kset (devices_data m) k d) s)|].
      split; [|split].
      * exists d. split; [apply manager_facts.klookup_kset_same | split; reflexivity].
      * intros k' Hne. now apply manager_facts.klookup_kset_other.
      * intros v Hv. unfold get_device_ip. rewrite Hv. cbn [rbind].
        rewrite manager_facts.klookup_kset_same. reflexivity.
Qed.

End Adding.

Lemma kset_absent {V} (i : list (key * V)) (k : key) (v : V) :
  klookup k i = None -> kset i k v = i ++ [(k, v)].
Proof.
  induction i as [|[k0 v0] i IH]; cbn [klookup kset app]; [reflexivity|].
  destruct (key_eqb k k0); [discriminate|]. intros H. now rewrite IH.
Qed.

(** A device registered with [add_device] is still unknown to
    [discover_new_devices].  The record added holds the address under
    ['ip_address'], and the known addresses are read from
    ['device_ip']: after a successful [add_device] the manager knows
    the same addresses as before, so [discover_new_devices] reports
    exactly what it would have reported before, the address just added
    included. *)
Theorem added_device_is_still_reported_as_new
  (W : Type) (get_device_info : pyval -> W -> res pyval * W)
  (discover_devices : pyval -> W -> res (list pyval) * W)
  (devices_file : string) (now : Z) (device_id ip_address name location : pyval)
  (m m' : st W) (s s' : io) :
  add_device get_device_info devices_file now device_id ip_address name location m s
  = (Ok true, m', s') ->
  get_all_device_ips (devices_data m') = get_all_device_ips (devices_data m)
  /\ forall ip_range w,
       fst (discover_new_devices discover_devices ip_range (mkSt (devices_data m') w))
       = fst (discover_new_devices discover_devices ip_range (mkSt (devices_data m) w)).
Proof.
  intros E.
  assert (G : get_all_device_ips (devices_data m') = get_all_device_ips (devices_data m)).
  { revert E. unfold add_device.
    destruct (hash_key device_id) as [k|]; [|discriminate].
    destruct (id_text device_id) as [t|]; [|discriminate].
    destruct (klookup k (devices_data m)) eqn:L; [discriminate|].
    destruct (get_device_info ip_address (world m)) as [[info|e] w1]; [|discriminate].
    destruct (truthy info); cbn [negb]; [|discriminate].
    unfold save_devices. intros E. injection E as <- _.
    cbn [devices_data]. rewrite (kset_absent _ _ _ L).
    unfold get_all_device_ips. rewrite fold_left_app. reflexivity. }
  split; [exact G|]. intros ip_range w. unfold discover_new_devices, known_ips.
  cbn [devices_data world]. rewrite G.
  destruct (discover_devices ip_range w) as [[discovered|e] w1]; reflexivity.
Qed.

Lemma added_device_is_still_reported_as_new_strip :
  fst (discover_new_devices (fun _ w => (Ok [PStr "10.0.0.141"], w)) (PStr "10.0.0")
         (snd (fst (add_device (answering (PDict [("ver", PStr "0.14.0")])) fixture_path
                      1700000000 (PStr "strip") (PStr "10.0.0.141") PNone PNone
                      (mkSt [] tt) empty_store))))
  = Ok [PStr "10.0.0.141"].
Proof.
  destruct (add_device (answering (PDict [("ver", PStr "0.14.0")])) fixture_path
              1700000000 (PStr "strip") (PStr "10.0.0.141") PNone PNone
              (mkSt [] tt) empty_store) as [[r m'] s'] eqn:E.
  assert (R : r = Ok true) by (vm_compute in E; congruence). subst r.
  destruct m' as [i' w']. cbn [fst snd].
  destruct w'.
  pose proof (proj2 (added_device_is_still_reported_as_new unit _
                       (fun _ w => (Ok [PStr "10.0.0.141"], w)) _ _ _ _ _ _ _ _ _ _ E)
                (PStr "10.0.0") tt) as H.
  cbn [devices_data] in H. rewrite H. reflexivity.
Defined.

Lemma add_device_contract_strip :
  exists r i' s',
    add_device (answering (PDict [("ver", PStr "0.14.0")])) fixture_path 1700000000
      (PStr "strip") (PStr "10.0.0.141") PNone PNone (mkSt [] tt) empty_store
    = (Ok r, mkSt i' tt, s')
    /\ get_device_ip i' (PStr "strip") = Ok PNone.
Proof.
  destruct (add_device_contract unit (answering (PDict [("ver", PStr "0.14.0")]))
              fixture_path 1700000000 (PStr "strip") (PStr "10.0.0.141") PNone PNone
              (KStr "strip") (mkSt [] tt) empty_store eq_refl) as [_ H].
  destruct (H eq_refl _ _ eq_refl) as [_ H'].
  destruct (H' eq_refl) as (i' & E & _ & _ & G).
  eexists. exists i'. eexists. split; [exact E | apply G; reflexivity].
Defined.

End registry_facts.

(* ================================================================== *)
(** ** The control routes                                              *)
(* ================================================================== *)

Module route_facts.

Import file_helpers device_manager devices device_routes props.
Local Open Scope list_scope.

Section Routes.

Variable W : Type.
Variable esp32 : esp32_client.client W.

Lemma lacks_present (d : pydict) (k : string) (v : pyval) :
  assoc k d = Some v -> lacks (PDict d) k = Ok false /\ item (PDict d) k = Ok v.
Proof.
  intros H. unfold lacks, item. cbn [contains rbind]. rewrite H.
  destruct d; [discriminate H | split; reflexivity].
Qed.

(** The brightness route checks the level before anything
    reaches the device.  A level outside 0..255 is answered 400 and
    nothing is sent; a level inside is sent to the device's address
    unchanged, as [{"bri": level}], and the reply is 404 when the
    device gives no answer, 200 with its answer otherwise, 500 when the
    transport raises; a device without an address is answered 404 and
    nothing is sent. *)
Theorem brightness_route_validates_then_forwards
  (d : pydict) (v : pyval) (b : Z) (device_id : string) (s : st W) :
  assoc "brightness" d = Some v ->
  int v = Ok b ->
  ((b < 0 \/ 255 < b) ->
   set_device_brightness W esp32 (PDict d) device_id s
   = (Ok (Reply (error_body "Brightness must be between 0 and 255") 400), s))
  /\ (0 <= b <= 255 ->
      forall ip,
        get_device_ip (devices_data s) (PStr device_id) = Ok ip ->
        (truthy ip = false ->
         set_device_brightness W esp32 (PDict d) device_id s = (Ok not_found, s))
        /\ (truthy ip = true ->
            forall r w1,
              esp32_client.set_device_state esp32 ip (PDict [("bri", PInt b)]) (world s)
              = (r, w1) ->
              set_device_brightness W esp32 (PDict d) device_id s
              = (Ok match r with
                    | Ok result => if is_none result then not_found else success result
                    | Raise e => ServerError e
                    end,
                 mkSt (devices_data s) w1))).
Proof.
  intros Hd Hv. destruct (lacks_present d "brightness" v Hd) as [L I].
  unfold set_device_brightness, mcatch, mbind, mlift, mret. rewrite L, I, Hv. split.
  - intros Hb.
    assert (E : (b <? 0) || (255 <? b) = true)
      by (apply orb_true_iff; destruct Hb; [left; now apply Z.ltb_lt | right; now apply Z.ltb_lt]).
    now rewrite E.
  - intros Hb ip Hip.
    assert (E : (b <? 0) || (255 <? b) = false)
      by (apply orb_false_iff; split; apply Z.ltb_ge; lia).
    rewrite E. unfold device_manager.set_device_brightness, mbind, mget, mlift, mret.
    rewrite Hip. split; intros T; rewrite T; cbn [negb].
    + reflexivity.
    + intros r w1 Hr. unfold call, esp32_client.set_brightness.
      replace (Z.max 0 (Z.min 255 b)) with b by lia. rewrite Hr.
      destruct r as [result|e]; [destruct (is_none result)|]; reflexivity.
Qed.

(** The effect route accepts every effect number from 0 up,
    although its error message asks for a positive one: a negative
    number is answered 400 and nothing is sent; any other is sent to
    the device's address as [{"seg": [{"fx": number}]}]. *)
Theorem effect_route_validates_then_forwards
  (d : pydict) (v : pyval) (n : Z) (device_id : string) (s : st W) :
  assoc "effect_id" d = Some v ->
  int v = Ok n ->
  (n < 0 ->
   set_device_effect W esp32 (PDict d) device_id s
   = (Ok (Reply (error_body "Effect ID must be positive") 400), s))
  /\ (0 <= n ->
      forall ip,
        get_device_ip (devices_data s) (PStr device_id) = Ok ip ->
        (truthy ip = false ->
         set_device_effect W esp32 (PDict d) device_id s = (Ok not_found, s))
        /\ (truthy ip = true ->
            forall r w1,
              esp32_client.set_device_state esp32 ip
                (PDict [("seg", PList [PDict [("fx", PInt n)]])]) (world s)
              = (r, w1) ->
              set_device_effect W esp32 (PDict d) device_id s
              = (Ok match r with
                    | Ok result => if is_none result then not_found else success result
                    | Raise e => ServerError e
                    end,
                 mkSt (devices_data s) w1))).
Proof.
  intros Hd Hv. destruct (lacks_present d "effect_id" v Hd) as [L I].
  unfold set_device_effect, mcatch, mbind, mlift, mret. rewrite L, I, Hv. split.
  - intros Hn. apply Z.ltb_lt in Hn. now rewrite Hn.
  - intros Hn ip Hip. apply Z.ltb_ge in Hn. rewrite Hn.
    unfold device_manager.set_device_effect, mbind, mget, mlift, mret.
    rewrite Hip. split; intros T; rewrite T; cbn [negb].
    + reflexivity.
    + intros r w1 Hr. unfold call, esp32_client.set_effect. rewrite Hr.
      destruct r as [result|e]; [destruct (is_none result)|]; reflexivity.
Qed.

Lemma string_id_hashes (device_id : string) :
  exists k, hash_key (normalize_id (PStr device_id)) = Ok k.
Proof.
  unfold normalize_id, int. destruct (int_of_str 10 device_id); simpl; eauto.
Qed.

(** The state route answers 404 only through the decorator.  The
    route's own 404 (lines 482-483) is never sent: whatever the index
    holds, either the function answers 200 with a state, the device's
    or a stand-in, or the client's [get_device_state] raised at the
    device's address and the decorator's handler for that exception
    answers: 404 for [ESP32DeviceNotFoundError], 503, 504, 502 or 500
    for the other ESP32 classes, the 500 of the last handler for
    anything else.  So the reply is 404 exactly when the client raised
    [ESP32DeviceNotFoundError]. *)
Theorem state_route_answers_404_only_for_a_raised_not_found
  (now : Z) (device_id : string) (s : st W) :
  exists g s',
    get_device_state W esp32 now device_id s = (Ok g, s')
    /\ ((exists state, g = Passed (state_reply state))
        \/ (exists ip e w1,
              get_device_ip (devices_data s) (PStr device_id) = Ok ip
              /\ truthy ip = true
              /\ esp32_client.get_device_state esp32 ip (world s) = (Raise e, w1)
              /\ g = on_exception e
              /\ s' = mkSt (devices_data s) w1))
    /\ (status_of g = 404 <->
        exists ip msg w1,
          get_device_ip (devices_data s) (PStr device_id) = Ok ip
          /\ truthy ip = true
          /\ esp32_client.get_device_state esp32 ip (world s)
             = (Raise (ESP32DeviceNotFoundError msg), w1)).
Proof.
  unfold get_device_state, handle_esp32_api_errors, mcatch, get_device_state_body.
  unfold mbind at 1. unfold mbind at 1.
  unfold device_manager.get_device_state.
  unfold mbind at 1. unfold mget at 1. unfold mbind at 1. unfold mlift at 1.
  assert (N : get_device_ip (devices_data s) (normalize_id (PStr device_id))
              = get_device_ip (devices_data s) (PStr device_id)).
  { unfold get_device_ip. now rewrite manager_facts.normalize_id_idem. }
  rewrite N.
  destruct (string_id_hashes device_id) as [k Hk].
  assert (I : exists ip, get_device_ip (devices_data s) (PStr device_id) = Ok ip).
  { unfold get_device_ip. rewrite Hk. cbn [rbind].
    destruct (klookup k (devices_data s)) as [d|]; [|eauto].
    destruct (truthy (PDict d)); eauto. }
  destruct I as [ip Hip]. rewrite Hip.
  destruct (truthy ip) eqn:T; cbn [negb].
  - unfold mbind at 1. unfold call at 1.
    destruct (esp32_client.get_device_state esp32 ip (world s)) as [[state|e] w1] eqn:C.
    + unfold mbind at 1. unfold mlift at 1. rewrite Hk.
      match goal with
      | |- context [mbind ?m ?f ?s0] =>
          assert (R : exists s1, mbind m f s0 = (Ok state, s1))
            by (unfold mbind, mmodify, mret; destruct (truthy state); eauto)
      end.
      destruct R as [s1 ->].
      assert (P : exists g s', 
                 (if is_none state
                  then mtry (s0 <- mget ;;
                             dev_meta <- mlift (lookup_dev (devices_data s0)
                                                  (normalize_id (PStr device_id))) ;;
                             mret (state_reply (minimal_state dev_meta)))%M
                         (mret not_found)
                  else mret (state_reply state)) s1 = (Ok g, s')
                 /\ exists st0, g = state_reply st0).
      { destruct (is_none state).
        - unfold mtry, mbind, mget, mlift, mret, lookup_dev. rewrite Hk. cbn [rbind].
          eauto.
        - unfold mret. eauto. }
      destruct P as (r & s' & -> & st0 & ->).
      exists (Passed (state_reply st0)), s'. split; [reflexivity|]. split; [eauto|].
      split.
      * intros H. discriminate H.
      * intros (ip' & msg & w' & E1 & _ & E2). injection E1 as <-.
        rewrite C in E2. discriminate E2.
    + exists (on_exception e), (mkSt (devices_data s) w1).
      split; [reflexivity|]. split.
      * right. exists ip, e, w1. repeat split; assumption.
      * split.
        -- intros H. destruct e; try discriminate H. exists ip, msg, w1. now repeat split.
        -- intros (ip' & msg & w' & E1 & _ & E2). injection E1 as <-.
           rewrite C in E2. injection E2 as -> _. reflexivity.
  - exists (Passed (state_reply (minimal_state
                                   (match klookup k (devices_data s) with
                                    | Some d => d
                                    | None => []
                                    end)))), s.
    split.
    + unfold mret at 1. cbn [is_none].
      unfold mtry, mbind, mget, mlift, mret, lookup_dev. rewrite Hk. reflexivity.
    + split; [eauto|]. split.
      * intros H. discriminate H.
      * intros (ip' & msg & w' & E1 & T' & _). injection E1 as <-.
        rewrite T in T'. discriminate T'.
Qed.

(** What the state route answers for a device it cannot read.
    An identifier that is not in the index gets a 200 whose state is
    made up: off, brightness 128, no colours, no address, 'offline'.
    A device in the index whose address does not answer is marked
    'offline' in the index and gets a 200 whose state is off, with the
    stored brightness (128 when none is stored), the stored colours and
    address, and status 'offline'. *)
Theorem state_route_stands_in_for_missing_devices
  (now : Z) (device_id : string) (k : key) (s : st W) :
  hash_key (normalize_id (PStr device_id)) = Ok k ->
  (klookup k (devices_data s) = None ->
   get_device_state W esp32 now device_id s
   = (Ok (Passed (state_reply
                    (PDict [("on", PBool false); ("bri", PInt 128);
                            ("device_current_color", PNone);
                            ("device_segment_colors", PList []);
                            ("device_ip", PNone); ("status", PStr "offline")]))),
      s))
  /\ (forall d w1,
        klookup k (devices_data s) = Some d ->
        truthy (dget d "device_ip") = true ->
        esp32_client.get_device_state esp32 (dget d "device_ip") (world s)
        = (Ok PNone, w1) ->
        get_device_state W esp32 now device_id s
        = (Ok (Passed (state_reply
                         (PDict [("on", PBool false);
                                 ("bri", match assoc "device_brightness" d with
                                         | Some v => v
                                         | None => PInt 128
                                         end);
                                 ("device_current_color", dget d "device_current_color");
                                 ("device_segment_colors",
                                  match assoc "device_segment_colors" d with
                                  | Some v => v
                                  | None => PList []
                                  end);
                                 ("device_ip", dget d "device_ip");
                                 ("status", PStr "offline")]))),
           mkSt (kset (devices_data s) k (dset d "status" (PStr "offline"))) w1)).
Proof.
  intros Hk.
  unfold get_device_state, handle_esp32_api_errors, mcatch, get_device_state_body.
  unfold device_manager.get_device_state, get_device_ip.
  rewrite manager_facts.normalize_id_idem.
  unfold mbind, mget, mlift, mret, mtry, lookup_dev. rewrite Hk. cbn [rbind]. split.
  - intros Hl. rewrite Hl. cbn [truthy negb is_none devices_data]. rewrite Hl.
    reflexivity.
  - intros d w1 Hl Ht Hc. rewrite Hl.
    assert (Td : truthy (PDict d) = true).
    { destruct d; [discriminate Ht | reflexivity]. }
    rewrite Td, Ht. cbn [negb]. unfold call. rewrite Hc.
    cbn [truthy mmodify is_none devices_data world]. unfold mark_offline.
    rewrite Hl. cbn [devices_data].
    rewrite manager_facts.klookup_kset_same.
    unfold state_reply, minimal_state, dget.
    rewrite !(index_facts.assoc_dset_other d _ "status") by reflexivity.
    now rewrite index_facts.assoc_dset_same.
Qed.

End Routes.

Lemma brightness_route_validates_then_forwards_fixture :
  set_device_brightness (list pyval) (recording_client (Ok reply_300))
    (PDict [("brightness", PStr " 200 ")]) "1" fixture_manager
  = (Ok (success ack), mkSt (devices_data fixture_manager) [PDict [("bri", PInt 200)]]).
Proof.
  refine (proj2 (proj2 (brightness_route_validates_then_forwards (list pyval)
                          (recording_client (Ok reply_300))
                          [("brightness", PStr " 200 ")] (PStr " 200 ") 200 "1"
                          fixture_manager eq_refl eq_refl)
                   _ (PStr "10.0.0.140") eq_refl) eq_refl (Ok ack) _ eq_refl).
  lia.
Defined.

Lemma effect_route_validates_then_forwards_fixture :
  set_device_effect (list pyval) (recording_client (Ok reply_300))
    (PDict [("effect_id", PInt 0)]) "1" fixture_manager
  = (Ok (success ack),
     mkSt (devices_data fixture_manager)
       [PDict [("seg", PList [PDict [("fx", PInt 0)]])]]).
Proof.
  refine (proj2 (proj2 (effect_route_validates_then_forwards (list pyval)
                          (recording_client (Ok reply_300))
                          [("effect_id", PInt 0)] (PInt 0) 0 "1"
                          fixture_manager eq_refl eq_refl)
                   _ (PStr "10.0.0.140") eq_refl) eq_refl (Ok ack) _ eq_refl).
  lia.
Defined.

(** A replaced client that raises [ESP32DeviceNotFoundError] for the
    fixture's device gets the decorator's 404. *)
Lemma state_route_answers_404_only_for_a_raised_not_found_fixture :
  exists g s',
    get_device_state (list pyval)
      (recording_client (Raise (ESP32DeviceNotFoundError "no such device")))
      1700000000 "1" fixture_manager
    = (Ok g, s')
    /\ status_of g = 404.
Proof.
  destruct (state_route_answers_404_only_for_a_raised_not_found (list pyval)
              (recording_client (Raise (ESP32DeviceNotFoundError "no such device")))
              1700000000 "1" fixture_manager) as (g & s' & E & _ & I).
  exists g, s'. split; [exact E|]. apply I.
  exists (PStr "10.0.0.140"), "no such device", (@nil pyval).
  split; [reflexivity|]. split; reflexivity.
Defined.

Lemma state_route_stands_in_for_missing_devices_fixture :
  fst (get_device_state nat unreachable_client 1700000000 "1" fixture_offline)
  = Ok (Passed (state_reply
                  (PDict [("on", PBool false); ("bri", PInt 128);
                          ("device_current_color", PStr "#afab2c");
                          ("device_segment_colors",
                           PList [PStr "#3dd1db"; PStr "#a52222"]);
                          ("device_ip", PStr "10.0.0.140");
                          ("status", PStr "offline")]))).
Proof.
  rewrite (proj2 (state_route_stands_in_for_missing_devices nat unreachable_client
                    1700000000 "1" (KInt 1) fixture_offline eq_refl)
             fixture_record 3%nat eq_refl eq_refl eq_refl).
  reflexivity.
Defined.

End route_facts.

(* ================================================================== *)
(** ** Validation of identifiers and addresses                         *)
(* ================================================================== *)

Module validation_facts.

Import esp32_errors address_props.
Local Open Scope list_scope.

Lemma parts_in_range_sound (parts : list string) :
  parts_in_range parts = true -> Forall reads_as_octet parts.
Proof.
  induction parts as [|p parts IH]; simpl; intros H; [constructor|].
  destruct (int_of_str 10 p) as [n|] eqn:E; [|discriminate].
  destruct ((n <? 0) || (255 <? n)) eqn:R; [discriminate|].
  apply orb_false_iff in R. destruct R as [R1 R2].
  apply Z.ltb_ge in R1, R2.
  constructor; [exists n; split; [exact E | unfold octet; lia] | now apply IH].
Qed.

(** An address [validate_ip_address] accepts is the input
    without its surrounding white space, and splits at its dots into
    exactly four parts, each of which [int()] reads as a number from 0
    to 255.  Anything that is not a non-empty string is refused. *)
Theorem accepted_address_has_four_octets (ip_address : pyval) (r : string) :
  validate_ip_address ip_address = Returns r ->
  exists s p1 p2 p3 p4,
    ip_address = PStr s /\ s <> ""%string /\ r = strip s
    /\ split_dot r = [p1; p2; p3; p4]
    /\ Forall reads_as_octet [p1; p2; p3; p4].
Proof.
  unfold validate_ip_address.
  destruct ip_address as [| | |s| |]; try discriminate.
  destruct (truthy (PStr s)) eqn:T; cbn [negb]; [|discriminate].
  destruct (List.length (split_dot (strip s)) =? 4)%nat eqn:L; cbn [negb]; [|discriminate].
  destruct (parts_in_range (split_dot (strip s))) eqn:P; [|discriminate].
  intros H. injection H as <-.
  apply Nat.eqb_eq in L. apply parts_in_range_sound in P.
  destruct (split_dot (strip s)) as [|p1 [|p2 [|p3 [|p4 [|p5 l]]]]]; try discriminate L.
  exists s, p1, p2, p3, p4. repeat split; try assumption.
  intros ->. discriminate T.
Qed.

Lemma accepted_address_has_four_octets_padded :
  exists s p1 p2 p3 p4,
    PStr "  10.0.0.140 " = PStr s /\ s <> ""%string /\ "10.0.0.140"%string = strip s
    /\ split_dot "10.0.0.140" = [p1; p2; p3; p4]
    /\ Forall reads_as_octet [p1; p2; p3; p4].
Proof.
  apply (accepted_address_has_four_octets (PStr "  10.0.0.140 ") "10.0.0.140").
  reflexivity.
Defined.

(** *** Identifiers *)

Lemma drop_while_trimmed (p : ascii -> bool) (l : list ascii) :
  trimmed_front p (drop_while p l).
Proof.
  induction l as [|c l IH]; simpl; [exact I|].
  destruct (p c) eqn:E; [exact IH | exact E].
Qed.

Lemma drop_while_of_trimmed (p : ascii -> bool) (l : list ascii) :
  trimmed_front p l -> drop_while p l = l.
Proof. destruct l as [|c l]; simpl; [reflexivity | now intros ->]. Qed.

Lemma drop_while_keeps_last (p : ascii -> bool) (h : ascii) (x : list ascii) :
  p h = false -> exists y, drop_while p (x ++ [h]) = y ++ [h].
Proof.
  intros Hh. induction x as [|c x IH]; simpl.
  - rewrite Hh. now exists [].
  - destruct (p c); [exact IH | now exists (c :: x)].
Qed.

Lemma strip_with_trimmed (p : ascii -> bool) (l : list ascii) :
  trimmed_front p (strip_with p l) /\ trimmed_front p (rev (strip_with p l)).
Proof.
  unfold strip_with. rewrite rev_involutive. split; [|apply drop_while_trimmed].
  pose proof (drop_while_trimmed p l) as T.
  destruct (drop_while p l) as [|h t]; [exact I|]. simpl in T.
  cbn [rev]. destruct (drop_while_keeps_last p h (rev t) T) as [y ->].
  rewrite rev_app_distr. exact T.
Qed.

Lemma strip_with_idem (p : ascii -> bool) (l : list ascii) :
  strip_with p (strip_with p l) = strip_with p l.
Proof.
  destruct (strip_with_trimmed p l) as [F B].
  unfold strip_with at 1.
  rewrite (drop_while_of_trimmed p _ F), (drop_while_of_trimmed p _ B).
  apply rev_involutive.
Qed.

Lemma strip_idem (s : string) : strip (strip s) = strip s.
Proof.
  unfold strip. rewrite list_ascii_of_string_of_list_ascii.
  now rewrite strip_with_idem.
Qed.

(** An identifier [validate_device_id] accepts is the input
    string without its surrounding white space; it is not empty and
    neither starts nor ends with white space, so validating it again
    returns it unchanged.  Anything that is not a string is refused. *)
Theorem validated_id_is_trimmed (device_id : pyval) (r : string) :
  validate_device_id device_id = Returns r ->
  exists s,
    device_id = PStr s /\ r = strip s /\ r <> ""%string
    /\ trimmed_front is_space (list_ascii_of_string r)
    /\ trimmed_front is_space (rev (list_ascii_of_string r))
    /\ validate_device_id (PStr r) = Returns r.
Proof.
  unfold validate_device_id.
  destruct device_id as [| | |s| |]; try discriminate.
  destruct (truthy (PStr s)) eqn:T; cbn [negb]; [|discriminate].
  destruct (truthy (PStr (strip s))) eqn:T'; cbn [negb]; [|discriminate].
  intros H. injection H as <-. exists s.
  assert (N : strip s <> ""%string).
  { intros E. rewrite E in T'. discriminate T'. }
  repeat split; try assumption.
  - unfold strip. rewrite list_ascii_of_string_of_list_ascii.
    apply strip_with_trimmed.
  - unfold strip. rewrite list_ascii_of_string_of_list_ascii.
    apply strip_with_trimmed.
  - rewrite T', strip_idem, T'. reflexivity.
Qed.

Lemma validated_id_is_trimmed_padded :
  exists s,
    PStr "  strip-1 " = PStr s /\ "strip-1"%string = strip s /\ "strip-1"%string <> ""%string
    /\ trimmed_front is_space (list_ascii_of_string "strip-1")
    /\ trimmed_front is_space (rev (list_ascii_of_string "strip-1"))
    /\ validate_device_id (PStr "strip-1") = Returns "strip-1"%string.
Proof.
  apply (validated_id_is_trimmed (PStr "  strip-1 ") "strip-1"). reflexivity.
Defined.

(** *** Addresses in the usual notation *)

Lemma uint_chars_plain (d : Decimal.uint) :
  Forall plain (list_ascii_of_string (NilEmpty.string_of_uint d)).
Proof.
  induction d; cbn [NilEmpty.string_of_uint list_ascii_of_string];
    constructor; try (split; reflexivity); assumption.
Qed.

Lemma decimal_chars_plain (n : Z) :
  0 <= n -> Forall plain (list_ascii_of_string (decimal n)).
Proof.
  intros Hn. unfold decimal. destruct n as [|p|p]; [| |lia].
  - repeat constructor.
  - cbn [Z.to_int NilZero.string_of_int]. unfold NilZero.string_of_uint.
    destruct (Pos.to_uint p) eqn:E; try (rewrite <- E; apply uint_chars_plain).
    repeat constructor.
Qed.

Lemma list_ascii_of_append (a b : string) :
  list_ascii_of_string (String.append a b)
  = list_ascii_of_string a ++ list_ascii_of_string b.
Proof. induction a as [|c a IH]; simpl; [reflexivity | now rewrite IH]. Qed.

Lemma split_dots_part (part : list ascii) :
  Forall plain part ->
  forall (rest cur : list ascii),
    split_dots (part ++ "."%char :: rest) cur
    = string_of_list_ascii (rev cur ++ part) :: split_dots rest [].
Proof.
  induction 1 as [|c part [_ Hc] _ IH]; intros rest cur; simpl.
  - now rewrite app_nil_r.
  - unfold no_dot in Hc. apply negb_true_iff in Hc. rewrite Hc.
    rewrite IH. simpl. now rewrite <- app_assoc.
Qed.

Lemma split_dots_last (part : list ascii) :
  Forall plain part ->
  forall cur : list ascii,
    split_dots part cur = [string_of_list_ascii (rev cur ++ part)].
Proof.
  induction 1 as [|c part [_ Hc] _ IH]; intros cur; simpl.
  - now rewrite app_nil_r.
  - unfold no_dot in Hc. apply negb_true_iff in Hc. rewrite Hc.
    rewrite IH. simpl. now rewrite <- app_assoc.
Qed.

Lemma dotted_quad_chars (a b c d : Z) :
  list_ascii_of_string (dotted_quad a b c d)
  = list_ascii_of_string (decimal a) ++ "."%char
    :: list_ascii_of_string (decimal b) ++ "."%char
    :: list_ascii_of_string (decimal c) ++ "."%char
    :: list_ascii_of_string (decimal d).
Proof.
  unfold dotted_quad.
  repeat (rewrite list_ascii_of_append; cbn [list_ascii_of_string]).
  reflexivity.
Qed.

Lemma octet_part_in_range (n : Z) (parts : list string) :
  octet n -> parts_in_range (decimal n :: parts) = parts_in_range parts.
Proof.
  intros [H0 H255]. cbn [parts_in_range].
  change (decimal n) with (device_manager.key_text (KInt n)).
  rewrite index_facts.int_of_key_text.
  assert (E : (n <? 0) || (255 <? n) = false)
    by (apply orb_false_iff; split; apply Z.ltb_ge; lia).
  now rewrite E.
Qed.

(** Every address in the usual notation, four numbers from 0 to
    255 written in decimal and joined by dots, is accepted by
    [validate_ip_address] and returned as it is. *)
Theorem dotted_quad_is_accepted (a b c d : Z) :
  octet a -> octet b -> octet c -> octet d ->
  validate_ip_address (PStr (dotted_quad a b c d)) = Returns (dotted_quad a b c d).
Proof.
  intros Ha Hb Hc Hd.
  pose proof (decimal_chars_plain a (proj1 Ha)) as Pa.
  pose proof (decimal_chars_plain b (proj1 Hb)) as Pb.
  pose proof (decimal_chars_plain c (proj1 Hc)) as Pc.
  pose proof (decimal_chars_plain d (proj1 Hd)) as Pd.
  assert (S : strip (dotted_quad a b c d) = dotted_quad a b c d).
  { unfold strip. rewrite engine_facts.strip_with_all_false.
    - apply string_of_list_ascii_of_string.
    - rewrite dotted_quad_chars.
      repeat (apply Forall_app; split; [eapply Forall_impl; [|eassumption];
                                        intros x Hx; apply Hx|];
              apply Forall_cons; [reflexivity|]).
      eapply Forall_impl; [|exact Pd]. intros x Hx. apply Hx. }
  assert (P : split_dot (dotted_quad a b c d) = [decimal a; decimal b; decimal c; decimal d]).
  { unfold split_dot. rewrite dotted_quad_chars.
    rewrite !split_dots_part by assumption. rewrite split_dots_last by assumption.
    cbn [rev app]. now rewrite !string_of_list_ascii_of_string. }
  assert (T : truthy (PStr (dotted_quad a b c d)) = true).
  { cbn [truthy]. apply negb_true_iff.
    destruct (String.eqb_spec (dotted_quad a b c d) ""%string) as [E|]; [|reflexivity].
    apply (f_equal list_ascii_of_string) in E. rewrite dotted_quad_chars in E.
    destruct (list_ascii_of_string (decimal a)); discriminate E. }
  unfold validate_ip_address. rewrite T, S, P. cbn [negb List.length Nat.eqb].
  rewrite !octet_part_in_range by assumption. reflexivity.
Qed.

Lemma dotted_quad_is_accepted_fixture :
  validate_ip_address (PStr "10.0.0.140") = Returns "10.0.0.140"%string.
Proof.
  apply (dotted_quad_is_accepted 10 0 0 140); unfold octet; lia.
Defined.

End validation_facts.

(* ================================================================== *)
(** ** The lock file and the temporary file                            *)
(* ================================================================== *)

Module path_facts.

Import file_helpers.
Local Open Scope list_scope.

Lemma drop_while_split (q : ascii -> bool) (r : list ascii) :
  exists x, r = x ++ drop_while q r
            /\ Forall (fun c => q c = true) x
            /\ firstn (List.length r - List.length (drop_while q r)) r = x.
Proof.
  induction r as [|c r (x & E & F & T)]; cbn [drop_while List.length].
  - exists []. repeat split. constructor.
  - destruct (q c) eqn:Q; cbn [List.length].
    + exists (c :: x). split; [simpl; congruence|]. split; [now constructor|].
      assert (L : (List.length (drop_while q r) <= List.length r)%nat).
      { rewrite E at 2. rewrite length_app. lia. }
      replace (S (List.length r) - List.length (drop_while q r))%nat
        with (S (List.length r - List.length (drop_while q r))) by lia.
      cbn [firstn]. now rewrite T.
    + exists []. repeat split; [constructor|].
      now replace (S (List.length r) - S (List.length r))%nat with O by lia.
Qed.

Lemma drop_while_past (q : ascii -> bool) (x y : list ascii) :
  Forall (fun c => q c = true) x ->
  match y with [] => True | h :: _ => q h = false end ->
  drop_while q (x ++ y) = y.
Proof.
  intros F Hy. induction F as [|c x Hc _ IH]; simpl.
  - destruct y as [|h t]; simpl; [reflexivity | now rewrite Hy].
  - now rewrite Hc.
Qed.

(** The last component of a path holds no slash. *)
Lemma basename_no_slash (p : string) :
  Forall (fun c => not_slash c = true) (list_ascii_of_string (basename p)).
Proof.
  unfold basename. rewrite list_ascii_of_string_of_list_ascii.
  destruct (drop_while_split not_slash (rev (list_ascii_of_string p))) as (x & _ & F & ->).
  now apply Forall_rev.
Qed.

Lemma basename_of_chars (dir name : list ascii) :
  Forall (fun c => not_slash c = true) name ->
  match rev dir with [] => True | h :: _ => is_slash h = true end ->
  basename (string_of_list_ascii (dir ++ name)) = string_of_list_ascii name.
Proof.
  intros F Hd. unfold basename. rewrite list_ascii_of_string_of_list_ascii.
  rewrite rev_app_distr.
  assert (D : drop_while not_slash (rev name ++ rev dir) = rev dir).
  { apply drop_while_past; [now apply Forall_rev|].
    destruct (rev dir); [exact I|]. unfold not_slash. now rewrite Hd. }
  rewrite D, length_app.
  replace (List.length (rev name) + List.length (rev dir) - List.length (rev dir))%nat
    with (List.length (rev name) + 0)%nat by lia.
  rewrite firstn_app_2. cbn [firstn]. rewrite app_nil_r. now rewrite rev_involutive.
Qed.

Lemma string_of_chars (s : string) : string_of_list_ascii (list_ascii_of_string s) = s.
Proof. apply string_of_list_ascii_of_string. Qed.

Lemma chars_of_append (a b : string) :
  list_ascii_of_string (String.append a b)
  = list_ascii_of_string a ++ list_ascii_of_string b.
Proof. induction a as [|c a IH]; simpl; [reflexivity | now rewrite IH]. Qed.

(** Joining a directory and a name that holds no slash gives a path
    whose last component is that name. *)
Lemma basename_join (a name : string) :
  name <> ""%string ->
  Forall (fun c => not_slash c = true) (list_ascii_of_string name) ->
  basename (join a name) = name.
Proof.
  intros Hn F. unfold join. destruct name as [|c name]; [congruence|].
  assert (Hc : is_slash c = false).
  { inversion F as [|? ? H _]; subst. unfold not_slash in H.
    now apply negb_true_iff in H. }
  rewrite Hc.
  destruct (String.eqb_spec a ""%string) as [->|Ha]; cbn [orb].
  - cbn [String.append]. rewrite <- (string_of_chars (String c name)).
    apply (basename_of_chars [] _ F). exact I.
  - unfold ends_with_slash.
    destruct (rev (list_ascii_of_string a)) as [|h t] eqn:R.
    + exfalso. apply Ha. rewrite <- (string_of_chars a).
      apply (f_equal (@rev ascii)) in R. rewrite rev_involutive in R. now rewrite R.
    + destruct (is_slash h) eqn:S.
      * rewrite <- (string_of_chars (String.append a _)), chars_of_append.
        rewrite <- (string_of_chars (String c name)) at 2.
        apply basename_of_chars; [exact F|]. now rewrite R.
      * rewrite <- (string_of_chars (String.append a _)), chars_of_append.
        change (list_ascii_of_string (String "/" (String c name)))
          with (["/"%char] ++ list_ascii_of_string (String c name)).
        rewrite app_assoc.
        rewrite <- (string_of_chars (String c name)) at 2.
        apply basename_of_chars; [exact F|].
        rewrite rev_app_distr. reflexivity.
Qed.

Lemma sidecar_basename (path suffix : string) :
  Forall (fun c => not_slash c = true) (list_ascii_of_string suffix) ->
  basename (join (dirname path)
              (String.append "." (String.append (basename path) suffix)))
  = String.append "." (String.append (basename path) suffix).
Proof.
  intros F. apply basename_join; [discriminate|].
  cbn [String.append]. cbn [list_ascii_of_string]. constructor; [reflexivity|].
  rewrite chars_of_append. apply Forall_app. split; [apply basename_no_slash | exact F].
Qed.

Lemma length_of_append (a b : string) :
  String.length (String.append a b) = (String.length a + String.length b)%nat.
Proof. induction a as [|c a IH]; simpl; [reflexivity | now rewrite IH]. Qed.

(** The lock file and the temporary file of a target are never the
    target itself, nor each other, whatever the target's path. *)
Lemma sidecars_differ (path : string) :
  lock_path_of path <> path
  /\ tmp_path_of path <> path
  /\ lock_path_of path <> tmp_path_of path.
Proof.
  assert (L : basename (lock_path_of path)
              = String.append "." (String.append (basename path) ".lock")).
  { apply sidecar_basename. repeat constructor. }
  assert (T : basename (tmp_path_of path)
              = String.append "." (String.append (basename path) ".tmp")).
  { apply sidecar_basename. repeat constructor. }
  repeat split; intros E.
  - rewrite E in L. apply (f_equal String.length) in L.
    cbn [String.append String.length] in L. rewrite length_of_append in L.
    simpl in L. lia.
  - rewrite E in T. apply (f_equal String.length) in T.
    cbn [String.append String.length] in T. rewrite length_of_append in T.
    simpl in T. lia.
  - rewrite E, T in L. apply (f_equal String.length) in L.
    cbn [String.append String.length] in L. rewrite !length_of_append in L.
    simpl in L. lia.
Qed.

End path_facts.

(* ================================================================== *)
(** ** The atomic write, for every path                                *)
(* ================================================================== *)

Module write_facts.

Import file_helpers props.
Local Open Scope list_scope.

(** The files a write leaves when it finds the lock free. *)
Lemma free_write_files (path : string) (data : pyval) (s : io) :
  path_exists (files s) (lock_path_of path) = false ->
  exists s',
    save_network_devices path data s = Some (Ok tt, s')
    /\ clock s' = clock s
    /\ files s'
       = fs_remove
           (fs_set
              (fs_remove
                 (fs_set (fs_set (fs_set (files s) (lock_path_of path) NotJson)
                            (tmp_path_of path) NotJson)
                    (tmp_path_of path) (Doc data))
                 (tmp_path_of path))
              path (Doc data))
           (lock_path_of path).
Proof.
  intros Hlock. destruct (path_facts.sidecars_differ path) as (Hlp & Htp & Hlt).
  unfold save_network_devices, _atomic_write_json, _acquire_lock.
  rewrite store_facts.acquire_fuel_default. unfold default_lock_timeout.
  set (lock := lock_path_of path) in *. set (tmp := tmp_path_of path) in *.
  rewrite (store_facts.acquire_loop_free lock 5000 (clock s) 101 s Hlock).
  destruct s as [files0 clock0 trace0]. cbn [files clock trace] in *.
  cbv beta iota zeta delta [emit files clock trace].
  set (f3 := fs_set (fs_set (fs_set files0 lock NotJson) tmp NotJson) tmp (Doc data)).
  assert (Hc : content_of f3 tmp = Doc data).
  { unfold content_of, f3. now rewrite store_facts.assoc_fs_set_same. }
  rewrite Hc.
  set (f7 := fs_set (fs_remove f3 tmp) path (Doc data)).
  assert (Hl7 : path_exists f7 lock = true).
  { unfold path_exists, f7, f3.
    rewrite store_facts.assoc_fs_set_other, store_facts.assoc_fs_remove_other,
      !store_facts.assoc_fs_set_other, store_facts.assoc_fs_set_same by congruence.
    reflexivity. }
  unfold _release_lock. cbv beta iota zeta delta [emit files clock trace].
  rewrite Hl7. eexists. split; [reflexivity|]. split; reflexivity.
Qed.

Lemma free_write_reads_back (path : string) (data : pyval) (s : io) :
  path_exists (files s) (lock_path_of path) = false ->
  exists s',
    save_network_devices path data s = Some (Ok tt, s')
    /\ assoc path (files s') = Some (Doc data).
Proof.
  intros Hlock. destruct (path_facts.sidecars_differ path) as (Hlp & Htp & Hlt).
  destruct (free_write_files path data s Hlock) as (s' & E & _ & F).
  exists s'. split; [exact E|]. rewrite F.
  rewrite store_facts.assoc_fs_remove_other by congruence.
  apply store_facts.assoc_fs_set_same.
Qed.

(** A write that returns has put the document in place. *)
Lemma returned_write_reads_back (path : string) (data : pyval) (s s' : io) (u : unit) :
  save_network_devices path data s = Some (Ok u, s') ->
  assoc path (files s') = Some (Doc data).
Proof.
  intros E. destruct (path_exists (files s) (lock_path_of path)) eqn:Hlock.
  - exfalso. revert E.
    unfold save_network_devices, _atomic_write_json, _acquire_lock.
    rewrite store_facts.acquire_fuel_default. unfold default_lock_timeout.
    destruct (store_facts.acquire_loop_held (lock_path_of path) 5000 (clock s) 102 s Hlock)
      as (t & waits & Hrun & _); [lia | lia |].
    rewrite Hrun. discriminate.
  - destruct (free_write_reads_back path data s Hlock) as (t & Et & Ft).
    rewrite Et in E. injection E as _ <-. exact Ft.
Qed.

(** For every target path, a write that finds the lock free
    succeeds and changes nothing but the target: the target then reads
    back as the document written, neither the lock file nor the
    temporary file is left behind, every other file is as it was, and
    no time has passed.  The lock being free again, a second write goes
    through in the same way and its document replaces the first. *)
Theorem atomic_write_changes_only_the_target (path : string) (data : pyval) (s : io) :
  path_exists (files s) (lock_path_of path) = false ->
  exists s',
    save_network_devices path data s = Some (Ok tt, s')
    /\ load_network_devices (files s') path = Ok data
    /\ path_exists (files s') (lock_path_of path) = false
    /\ path_exists (files s') (tmp_path_of path) = false
    /\ (forall q, q <> path -> q <> lock_path_of path -> q <> tmp_path_of path ->
                  assoc q (files s') = assoc q (files s))
    /\ clock s' = clock s
    /\ forall data2,
         exists s'',
           save_network_devices path data2 s' = Some (Ok tt, s'')
           /\ load_network_devices (files s'') path = Ok data2.
Proof.
  intros Hlock. destruct (path_facts.sidecars_differ path) as (Hlp & Htp & Hlt).
  destruct (free_write_files path data s Hlock) as (s' & E & C & F).
  assert (Hl : path_exists (files s') (lock_path_of path) = false).
  { unfold path_exists. rewrite F. now rewrite store_facts.assoc_fs_remove_same. }
  assert (R : forall (d : pyval) (t : io) (fs0 : filesystem),
             files t
             = fs_remove
                 (fs_set
                    (fs_remove
                       (fs_set (fs_set (fs_set fs0 (lock_path_of path) NotJson)
                                  (tmp_path_of path) NotJson)
                          (tmp_path_of path) (Doc d))
                       (tmp_path_of path))
                    path (Doc d))
                 (lock_path_of path) ->
             load_network_devices (files t) path = Ok d).
  { intros d t fs0 Ft. unfold load_network_devices, path_exists. rewrite Ft.
    rewrite store_facts.assoc_fs_remove_other by congruence.
    now rewrite store_facts.assoc_fs_set_same. }
  exists s'. split; [exact E|]. split; [exact (R _ _ _ F)|]. split; [exact Hl|].
  split; [|split; [|split; [exact C|]]].
  - unfold path_exists. rewrite F.
    rewrite store_facts.assoc_fs_remove_other by congruence.
    rewrite store_facts.assoc_fs_set_other by congruence.
    now rewrite store_facts.assoc_fs_remove_same.
  - intros q Hq Hql Hqt. rewrite F.
    rewrite store_facts.assoc_fs_remove_other by congruence.
    rewrite store_facts.assoc_fs_set_other by congruence.
    rewrite store_facts.assoc_fs_remove_other by congruence.
    now rewrite !store_facts.assoc_fs_set_other by congruence.
  - intros data2. destruct (free_write_files path data2 s' Hl) as (s'' & E2 & _ & F2).
    exists s''. split; [exact E2 | exact (R _ _ _ F2)].
Qed.

Lemma atomic_write_changes_only_the_target_empty :
  exists s',
    save_network_devices inventory_path fixture_document (mkIO [] 0 [])
    = Some (Ok tt, s')
    /\ load_network_devices (files s') inventory_path = Ok fixture_document.
Proof.
  destruct (atomic_write_changes_only_the_target inventory_path fixture_document
              (mkIO [] 0 []) eq_refl) as (s' & E & L & _).
  exists s'. split; assumption.
Defined.

End write_facts.

(* ================================================================== *)
(** ** The hierarchy views, zones and assignments                      *)
(* ================================================================== *)

Module hierarchy_facts.

Import file_helpers device_manager hierarchy_files inventory_props.
Local Open Scope list_scope.

Lemma mapM_map {A B C} (f : B -> res C) (g : A -> B) (h : A -> C) (l : list A) :
  (forall a, In a l -> f (g a) = Ok (h a)) -> mapM f (map g l) = Ok (map h l).
Proof.
  induction l as [|a l IH]; intros H; cbn [map mapM]; [reflexivity|].
  rewrite (H a (or_introl eq_refl)). cbn [rbind].
  rewrite IH by (intros x Hx; apply H; now right). reflexivity.
Qed.

Lemma location_view_rendered (l : location_spec) :
  location_view (render_location l) = Ok (view_of_location l).
Proof. reflexivity. Qed.

Lemma group_view_rendered (g : group_spec) :
  group_view (render_group g) = Ok (view_of_group g).
Proof.
  unfold group_view, render_group. cbn [get get_default assoc String.eqb Ascii.eqb
    Bool.eqb rbind iter].
  rewrite (mapM_map _ _ view_of_location) by (intros; apply location_view_rendered).
  reflexivity.
Qed.

Lemma zone_view_rendered (z : zone_spec) :
  zone_view (render_zone z) = Ok (view_of_zone z).
Proof.
  unfold zone_view, render_zone. cbn [get get_default assoc String.eqb Ascii.eqb
    Bool.eqb rbind iter].
  rewrite (mapM_map _ _ view_of_group) by (intros; apply group_view_rendered).
  reflexivity.
Qed.

Lemma load_hierarchy_rendered (fs : filesystem) (path : string) (zones : list zone_spec) :
  assoc path fs = Some (Doc (render zones)) ->
  load_hierarchy fs path = Ok (view zones).
Proof.
  intros F. unfold load_hierarchy, load_network_devices, path_exists. rewrite F.
  unfold render. cbn [get_default assoc String.eqb Ascii.eqb Bool.eqb rbind iter].
  rewrite (mapM_map _ _ view_of_zone) by (intros; apply zone_view_rendered).
  reflexivity.
Qed.

Lemma foldM_map_invariant {A B C} (P : A -> Prop) (f : A -> B -> res A) (g : C -> B)
  (l : list C) :
  (forall a c, In c l -> P a -> exists a', f a (g c) = Ok a' /\ P a') ->
  forall a, P a -> exists a', foldM f (map g l) a = Ok a' /\ P a'.
Proof.
  induction l as [|c l IH]; intros H a Pa; cbn [map foldM].
  - now exists a.
  - destruct (H a c (or_introl eq_refl) Pa) as (a1 & E & P1). rewrite E. cbn [rbind].
    apply IH; [|exact P1]. intros a0 c0 Hc. apply H. now right.
Qed.

Lemma k3set_empty_lists (m : list (key3 * pyval)) (k : key3) :
  Forall (fun kv => snd kv = PList []) m ->
  Forall (fun kv => snd kv = PList []) (k3set m k (PList [])).
Proof.
  induction 1 as [|[k0 v0] m H0 Hm IH]; cbn [k3set].
  - repeat constructor.
  - destruct (key3_eqb k k0); constructor; trivial.
Qed.

Lemma k3lookup_empty_lists (m : list (key3 * pyval)) (k : key3) :
  Forall (fun kv => snd kv = PList []) m ->
  match k3lookup k m with Some v => v | None => PList [] end = PList [].
Proof.
  induction 1 as [|[k0 v0] m H0 _ IH]; cbn [k3lookup]; [reflexivity|].
  destruct (key3_eqb k k0); [exact H0 | exact IH].
Qed.

(** For an inventory in the application's shape, [existing_map] holds
    nothing but empty lists: the devices are under ['device'], where
    [save_hierarchy] does not look. *)
Lemma existing_map_rendered (zones : list zone_spec) :
  exists m,
    foldM record_zone (map render_zone zones) [] = Ok m
    /\ Forall (fun kv => snd kv = PList []) m.
Proof.
  apply (foldM_map_invariant (fun m => Forall (fun kv => snd kv = PList []) m));
    [|constructor].
  intros m z _ Pm. unfold record_zone, render_zone at 1.
  cbn [get_default assoc String.eqb Ascii.eqb Bool.eqb rbind iter].
  apply (foldM_map_invariant (fun m => Forall (fun kv => snd kv = PList []) m));
    [|exact Pm].
  clear m Pm. intros m g _ Pm. unfold record_group, render_group at 1.
  cbn [get_default assoc String.eqb Ascii.eqb Bool.eqb rbind iter].
  apply (foldM_map_invariant (fun m => Forall (fun kv => snd kv = PList []) m));
    [|exact Pm].
  clear m Pm. intros m l _ Pm. eexists. split; [reflexivity|].
  now apply k3set_empty_lists.
Qed.

Lemma location_back_view (m : list (key3 * pyval)) (z : zone_spec) (g : group_spec)
  (l : location_spec) :
  Forall (fun kv => snd kv = PList []) m ->
  location_back m (view_of_zone z) (view_of_group g) (view_of_location l)
  = Ok (render_location (location_without_devices l)).
Proof.
  intros Pm. unfold location_back, view_of_zone, view_of_group, view_of_location.
  cbn [get get_default assoc String.eqb Ascii.eqb Bool.eqb rbind is_none negb
       hash3 hash_key].
  rewrite (k3lookup_empty_lists m _ Pm). reflexivity.
Qed.

Lemma group_back_view (m : list (key3 * pyval)) (z : zone_spec) (g : group_spec) :
  Forall (fun kv => snd kv = PList []) m ->
  group_back m (view_of_zone z) (view_of_group g)
  = Ok (render_group (group_without_devices g)).
Proof.
  intros Pm. unfold group_back. unfold view_of_group at 1 2 3 4.
  cbn [get get_default assoc String.eqb Ascii.eqb Bool.eqb rbind iter].
  rewrite (mapM_map _ _ (fun l => render_location (location_without_devices l)))
    by (intros; now apply location_back_view).
  unfold render_group, group_without_devices. cbn [g_id g_name g_description g_locations].
  now rewrite map_map.
Qed.

Lemma zone_back_view (m : list (key3 * pyval)) (z : zone_spec) :
  Forall (fun kv => snd kv = PList []) m ->
  zone_back m (view_of_zone z) = Ok (render_zone (without_devices z)).
Proof.
  intros Pm. unfold zone_back. unfold view_of_zone at 1 2 3 4.
  cbn [get get_default assoc String.eqb Ascii.eqb Bool.eqb rbind iter].
  rewrite (mapM_map _ _ (fun g => render_group (group_without_devices g)))
    by (intros; now apply group_back_view).
  unfold render_zone, without_devices. cbn [z_id z_name z_description z_groups].
  now rewrite map_map.
Qed.

Lemma merged_network_of_view (fs : filesystem) (path : string) (zones : list zone_spec) :
  assoc path fs = Some (Doc (render zones)) ->
  merged_network fs path (view zones) = Ok (render (map without_devices zones)).
Proof.
  intros F. unfold merged_network, load_network_devices, path_exists. rewrite F.
  unfold render at 1, view.
  cbn [get_default assoc String.eqb Ascii.eqb Bool.eqb rbind iter].
  destruct (existing_map_rendered zones) as (m & -> & Pm). cbn [rbind].
  rewrite (mapM_map _ _ (fun z => render_zone (without_devices z)))
    by (intros; now apply zone_back_view).
  unfold render. now rewrite map_map.
Qed.

Lemma foldM_map_fixed {A B C} (f : A -> B -> res A) (g : C -> B) (l : list C) (a : A) :
  (forall c, In c l -> f a (g c) = Ok a) -> foldM f (map g l) a = Ok a.
Proof.
  induction l as [|c l IH]; intros H; cbn [map foldM]; [reflexivity|].
  rewrite (H c (or_introl eq_refl)). cbn [rbind]. apply IH. intros x Hx. apply H. now right.
Qed.

(** An inventory without devices loads as an empty index. *)
Lemma empty_inventory_loads_empty (fs : filesystem) (path : string)
  (zones : list zone_spec) :
  assoc path fs = Some (Doc (render (map without_devices zones))) ->
  load_devices_pure fs path = (true, []).
Proof.
  intros F. unfold load_devices_pure, read_and_flatten, load_json_file, path_exists.
  rewrite F. unfold render.
  cbn [negb truthy contains get_default assoc String.eqb Ascii.eqb Bool.eqb rbind iter].
  rewrite map_map, foldM_map_fixed; [reflexivity|].
  intros z _. unfold flatten_zone. unfold render_zone at 1.
  cbn [get_default assoc String.eqb Ascii.eqb Bool.eqb rbind iter].
  change (z_groups (without_devices z)) with (map group_without_devices (z_groups z)).
  rewrite map_map. apply foldM_map_fixed.
  intros g _. unfold flatten_group. unfold render_group at 1.
  cbn [get_default assoc String.eqb Ascii.eqb Bool.eqb rbind iter].
  change (g_locations (group_without_devices g))
    with (map location_without_devices (g_locations g)).
  rewrite map_map. apply foldM_map_fixed.
  intros l _. reflexivity.
Qed.

(** Saving the hierarchy that was just loaded loses every
    device.  For an inventory in the application's shape, with the
    devices of each location under ['device'], [load_hierarchy]
    followed by [save_hierarchy] rewrites the file as the same zones,
    groups and locations with every device list empty, and the manager
    then loads an empty index. *)
Theorem saving_the_loaded_hierarchy_drops_the_devices
  (zones : list zone_spec) (path : string) (s : io) :
  assoc path (files s) = Some (Doc (render zones)) ->
  path_exists (files s) (lock_path_of path) = false ->
  exists s',
    load_hierarchy (files s) path = Ok (view zones)
    /\ save_hierarchy path (view zones) s = Some (Ok tt, s')
    /\ load_network_devices (files s') path = Ok (render (map without_devices zones))
    /\ load_devices_pure (files s') path = (true, []).
Proof.
  intros F Hlock.
  destruct (write_facts.free_write_reads_back path
              (render (map without_devices zones)) s Hlock) as (s' & E & F').
  exists s'. split; [now apply load_hierarchy_rendered|].
  split; [unfold save_hierarchy; now rewrite (merged_network_of_view _ _ _ F)|].
  split; [|now apply (empty_inventory_loads_empty _ _ zones)].
  unfold load_network_devices, path_exists. now rewrite F'.
Qed.

Lemma saving_the_loaded_hierarchy_drops_the_devices_fixture :
  fst (load_devices_pure (files fixture_store) "data/network_devices.json") = true
  /\ snd (load_devices_pure (files fixture_store) "data/network_devices.json") <> []
  /\ exists s',
       save_hierarchy "data/network_devices.json" (view fixture_zones) fixture_store
       = Some (Ok tt, s')
       /\ load_devices_pure (files s') "data/network_devices.json" = (true, []).
Proof.
  split; [reflexivity|]. split; [vm_compute; discriminate|].
  destruct (saving_the_loaded_hierarchy_drops_the_devices fixture_zones
              "data/network_devices.json" fixture_store eq_refl eq_refl)
    as (s' & _ & E & _ & L).
  exists s'. split; assumption.
Defined.

(** *** The available devices and the manager's index *)

Lemma foldM_lockstep {A B X} (R : A -> B -> Prop) (f : A -> X -> res A)
  (g : B -> X -> res B) (l : list X) :
  (forall a b x a', R a b -> f a x = Ok a' -> exists b', g b x = Ok b' /\ R a' b') ->
  forall a b a', R a b -> foldM f l a = Ok a' -> exists b', foldM g l b = Ok b' /\ R a' b'.
Proof.
  intros H. induction l as [|x l IH]; intros a b a' Rab; cbn [foldM].
  - intros E. injection E as <-. now exists b.
  - destruct (f a x) as [a1|] eqn:E; cbn [rbind]; [|discriminate].
    destruct (H a b x a1 Rab E) as (b1 & -> & R1). cbn [rbind]. now apply IH.
Qed.

Lemma available_device_follows (z g l d : pyval) (i i' : index) (devices : list pyval) :
  same_devices i devices ->
  flatten_device z g l i d = Ok i' ->
  exists devices', available_device z g l devices d = Ok devices'
                   /\ same_devices i' devices'.
Proof.
  intros [S1 S2]. unfold flatten_device, available_device.
  destruct d as [| | | | |dd]; try discriminate.
  cbn [get get_default rbind].
  destruct z as [| | | | |zd]; try discriminate.
  destruct g as [| | | | |gd]; try discriminate.
  destruct l as [| | | | |ld]; try discriminate.
  cbn [get get_default rbind].
  fold (dget dd "device_id") (dget zd "zone_id") (dget gd "group_id")
       (dget ld "location_id") (dget dd "device_name") (dget dd "device_mac")
       (dget dd "device_ip").
  match goal with |- context [hash_key ?x] => destruct (hash_key x) as [k|] eqn:Ek end;
    cbn [rbind]; [|discriminate].
  intros E. injection E as <-. eexists. split; [reflexivity|].
  set (copy := dset (dset (dset dd "zone_id" (dget zd "zone_id")) "group_id"
                       (dget gd "group_id")) "location_id" (dget ld "location_id")).
  match goal with |- same_devices _ (_ ++ [?x]) => set (dev := x) end.
  assert (Hnew : same_device k copy dev).
  { eexists. exists (dget dd "device_id"). split; [reflexivity|].
    split; [reflexivity|]. split; [exact Ek|]. split.
    - unfold copy. cbn [dget assoc String.eqb Ascii.eqb Bool.eqb].
      now rewrite !manager_facts.dget_dset_other by reflexivity.
    - unfold copy. cbn [dget assoc String.eqb Ascii.eqb Bool.eqb]. f_equal.
      rewrite manager_facts.dget_dset_same.
      rewrite (manager_facts.dget_dset_other _ "group_id" "location_id") by reflexivity.
      rewrite manager_facts.dget_dset_same.
      rewrite !(manager_facts.dget_dset_other _ "zone_id") by reflexivity.
      now rewrite manager_facts.dget_dset_same. }
  split.
  - intros k0 record Hl. destruct (manager_facts.key_eq_dec k0 k) as [->|Hne].
    + rewrite manager_facts.klookup_kset_same in Hl. injection Hl as <-.
      exists dev. split; [apply in_or_app; right; now left | exact Hnew].
    + rewrite manager_facts.klookup_kset_other in Hl by exact Hne.
      destruct (S1 _ _ Hl) as (dev0 & Hin & Hs). exists dev0.
      split; [apply in_or_app; now left | exact Hs].
  - intros dev0 Hin. apply in_app_or in Hin. destruct Hin as [Hin|[<-|[]]].
    + destruct (S2 _ Hin) as (d0 & id0 & k0 & -> & Hid & Hk0 & Hl).
      exists d0, id0, k0. repeat split; try assumption.
      destruct (manager_facts.key_eq_dec k0 k) as [->|Hne].
      * rewrite manager_facts.klookup_kset_same. discriminate.
      * now rewrite manager_facts.klookup_kset_other by exact Hne.
    + destruct Hnew as (d0 & id0 & E0 & Hid & Hk0 & _).
      exists d0, id0, k. repeat split; try assumption.
      rewrite manager_facts.klookup_kset_same. discriminate.
Qed.

Lemma available_devices_follow (zl : list pyval) (i : index) :
  foldM flatten_zone zl [] = Ok i ->
  exists devices, foldM available_in_zone zl [] = Ok devices /\ same_devices i devices.
Proof.
  apply (foldM_lockstep same_devices).
  2: { split; [intros k record H; discriminate H | intros dev []]. }
  intros a b z a' Rab. unfold flatten_zone, available_in_zone.
  destruct (get_default z "groups" (PList [])) as [groups|]; cbn [rbind]; [|discriminate].
  destruct (iter groups) as [gl|]; cbn [rbind]; [|discriminate].
  apply (foldM_lockstep same_devices); [|exact Rab]. clear a b a' Rab.
  intros a b g a' Rab. unfold flatten_group, available_in_group.
  destruct (get_default g "location" (PList [])) as [locations|]; cbn [rbind]; [|discriminate].
  destruct (iter locations) as [ll|]; cbn [rbind]; [|discriminate].
  apply (foldM_lockstep same_devices); [|exact Rab]. clear a b a' Rab.
  intros a b l a' Rab. unfold flatten_location, available_in_location.
  destruct (get_default l "device" (PList [])) as [ds|]; cbn [rbind]; [|discriminate].
  destruct (iter (por ds (PList []))) as [dl|]; cbn [rbind]; [|discriminate].
  apply (foldM_lockstep same_devices); [|exact Rab]. clear a b a' Rab.
  intros a b d a' Rab. now apply available_device_follows.
Qed.

(** Whenever [DeviceManager.load_devices] succeeds,
    [load_available_devices] succeeds on the same file, and the two
    describe the same devices: every record of the index has an
    available device with its identifier, its address and its zone,
    group and location, and the identifier of every available device
    is a key of the index. *)
Theorem available_devices_match_the_index (fs : filesystem) (path : string) :
  fst (load_devices_pure fs path) = true ->
  exists devices,
    load_available_devices fs path = Ok devices
    /\ same_devices (snd (load_devices_pure fs path)) devices.
Proof.
  unfold load_devices_pure, read_and_flatten, load_available_devices,
    load_json_file, load_network_devices.
  destruct (path_exists fs path); cbn [negb rbind truthy]; [|discriminate].
  destruct (assoc path fs) as [[raw|]|]; cbn [rbind]; try discriminate.
  destruct (truthy raw); cbn [negb rbind]; [|discriminate].
  destruct (contains "zones" raw) as [[|]|]; cbn [negb rbind]; try discriminate.
  destruct (get_default raw "zones" (PList [])) as [zones|]; cbn [rbind]; [|discriminate].
  destruct (iter zones) as [zl|]; cbn [rbind]; [|discriminate].
  destruct (foldM flatten_zone zl []) as [i|] eqn:E; cbn [rbind fst snd]; [|discriminate].
  intros _. now apply available_devices_follow.
Qed.

Lemma available_devices_match_the_index_fixture :
  exists devices,
    load_available_devices props.fixture_fs props.fixture_path = Ok devices
    /\ same_devices (snd (load_devices_pure props.fixture_fs props.fixture_path)) devices.
Proof.
  apply (available_devices_match_the_index props.fixture_fs props.fixture_path).
  reflexivity.
Defined.

(** *** Creating a zone *)

Lemma new_zone_adds_no_device (data : pyval) (n : Z) (new_zone : pyval) (i : index) :
  zones.new_zone_of data n = Ok new_zone -> flatten_zone i new_zone = Ok i.
Proof.
  unfold zones.new_zone_of.
  repeat match goal with
         | |- context [rbind ?m _] =>
             match m with
             | get_default _ _ _ => destruct m; cbn [rbind]; [|discriminate]
             | get _ _ => destruct m; cbn [rbind]; [|discriminate]
             end
         end.
  intros E. injection E as <-. reflexivity.
Qed.

(** The default device of a new zone never reaches the manager.
    [create_zone] stores the zone's default group with its locations
    under ['locations'] and the location's device under ['device_id'],
    where [load_devices] does not look: the new zone adds nothing to an
    index, and after the zone is saved the manager loads the same
    devices as before. *)
Theorem created_zone_is_invisible_to_the_manager
  (path : string) (data new_zone : pyval) (s s' : io) :
  zones.create_zone path data s = Some (Ok new_zone, s') ->
  (forall i, flatten_zone i new_zone = Ok i)
  /\ snd (load_devices_pure (files s') path) = snd (load_devices_pure (files s) path).
Proof.
  unfold zones.create_zone, zones.zone_and_document.
  destruct (load_network_devices (files s) path) as [hierarchy|] eqn:L;
    cbn [rbind]; [|discriminate].
  destruct (get_default hierarchy "zones" (PList [])) as [zs|] eqn:G;
    cbn [rbind]; [|discriminate].
  destruct (len zs) as [n|]; cbn [rbind]; [|discriminate].
  destruct (zones.new_zone_of data n) as [nz|] eqn:N; cbn [rbind]; [|discriminate].
  destruct (zones.append_zone hierarchy nz) as [document|] eqn:A;
    cbn [rbind]; [|discriminate].
  destruct (save_network_devices path document s) as [[[u|e] t]|] eqn:S;
    try discriminate.
  intros E. injection E as <- <-.
  pose proof (fun i => new_zone_adds_no_device data n nz i N) as Hz.
  split; [exact Hz|].
  pose proof (write_facts.returned_write_reads_back _ _ _ _ _ S) as F.
  unfold zones.append_zone in A.
  destruct hierarchy as [| | | | |d]; try discriminate A.
  destruct (assoc "zones" d) as [[| | | |l|]|] eqn:Zd; try discriminate A.
  injection A as <-.
  assert (New : read_and_flatten (files t) path
                = (flat <- foldM flatten_zone (l ++ [nz]) [] ;; Ok (Some flat))%res).
  { unfold read_and_flatten, load_json_file, path_exists. rewrite F.
    cbn [negb rbind contains get_default].
    rewrite index_facts.assoc_dset_same.
    assert (T : truthy (PDict (dset d "zones" (PList (l ++ [nz])))) = true).
    { destruct d as [|[k v] d]; [discriminate Zd|]. cbn [dset].
      destruct (String.eqb "zones" k); reflexivity. }
    rewrite T. reflexivity. }
  assert (Fold : foldM flatten_zone (l ++ [nz]) [] = foldM flatten_zone l []).
  { rewrite engine_facts.foldM_app.
    destruct (foldM flatten_zone l []) as [i|e]; cbn [rbind foldM]; [|reflexivity].
    rewrite Hz. reflexivity. }
  unfold load_devices_pure. rewrite New, Fold.
  unfold load_network_devices in L. unfold read_and_flatten, load_json_file.
  destruct (path_exists (files s) path) eqn:P; cbn [negb].
  - destruct (assoc path (files s)) as [[j|]|]; try discriminate L.
    injection L as ->. cbn [rbind contains get_default]. rewrite Zd.
    assert (T : truthy (PDict d) = true) by (destruct d; [discriminate Zd | reflexivity]).
    rewrite T. cbn [negb rbind iter].
    destruct (foldM flatten_zone l []); reflexivity.
  - injection L as <-. cbn in Zd. injection Zd as <-. reflexivity.
Qed.

Lemma created_zone_is_invisible_to_the_manager_fixture :
  exists new_zone s',
    zones.create_zone "data/network_devices.json" (PDict [("name", PStr "Attic")])
      fixture_store
    = Some (Ok new_zone, s')
    /\ snd (load_devices_pure (files s') "data/network_devices.json")
       = snd (load_devices_pure (files fixture_store) "data/network_devices.json").
Proof.
  destruct (zones.create_zone "data/network_devices.json" (PDict [("name", PStr "Attic")])
              fixture_store) as [[[new_zone|e] s']|] eqn:E;
    [|vm_compute in E; discriminate E|vm_compute in E; discriminate E].
  exists new_zone, s'. split; [reflexivity|].
  exact (proj2 (created_zone_is_invisible_to_the_manager _ _ _ _ _ E)).
Defined.

(** *** Assigning a device *)

Lemma mapM_forall {A B} (P : B -> Prop) (f : A -> res B) (l : list A) (out : list B) :
  (forall a b, f a = Ok b -> P b) -> mapM f l = Ok out -> Forall P out.
Proof.
  intros H. revert out. induction l as [|a l IH]; cbn [mapM]; intros out E.
  - injection E as <-. constructor.
  - destruct (f a) as [b|] eqn:Fa; cbn [rbind] in E; [|discriminate].
    destruct (mapM f l) as [bs|]; cbn [rbind] in E; [|discriminate].
    injection E as <-. constructor; [now apply (H a) | now apply IH].
Qed.

Lemma group_view_shaped (g v : pyval) : group_view g = Ok v -> group_shaped v.
Proof.
  unfold group_view.
  destruct (get g "group_id") as [id|]; cbn [rbind]; [|discriminate].
  destruct (get g "group_name") as [name|]; cbn [rbind]; [|discriminate].
  destruct (get_default g "group_description" (PStr "")) as [description|];
    cbn [rbind]; [|discriminate].
  destruct (get_default g "location" (PList [])) as [locations|];
    cbn [rbind]; [|discriminate].
  destruct (iter locations) as [ll|]; cbn [rbind]; [|discriminate].
  destruct (mapM location_view ll) as [location|]; cbn [rbind]; [|discriminate].
  intros E. injection E as <-. now exists id, name, description, location.
Qed.

Lemma zone_view_shaped (z v : pyval) : zone_view z = Ok v -> zone_shaped v.
Proof.
  unfold zone_view.
  destruct (get z "zone_id") as [id|]; cbn [rbind]; [|discriminate].
  destruct (get z "zone_name") as [name|]; cbn [rbind]; [|discriminate].
  destruct (get_default z "zone_description" (PStr "")) as [description|];
    cbn [rbind]; [|discriminate].
  destruct (get_default z "groups" (PList [])) as [groups|]; cbn [rbind]; [|discriminate].
  destruct (iter groups) as [gl|]; cbn [rbind]; [|discriminate].
  destruct (mapM group_view gl) as [gs|] eqn:G; cbn [rbind]; [|discriminate].
  intros E. injection E as <-. exists id, name, description, gs. split; [reflexivity|].
  apply (mapM_forall _ _ _ _ group_view_shaped G).
Qed.

Lemma next_with_id_found (l : list pyval) (wanted v : pyval) :
  assignments.next_with_id l wanted = Ok v -> v = PNone \/ In v l.
Proof.
  induction l as [|x l IH]; cbn [assignments.next_with_id].
  - intros E. injection E as <-. now left.
  - destruct (assignments.item x "id") as [id|]; cbn [rbind]; [|discriminate].
    destruct (assignments.py_eq id wanted).
    + intros E. injection E as <-. right. now left.
    + intros E. destruct (IH E); [now left | right; now right].
Qed.

(** The search of [assign_device] never gets past the group: the
    groups [load_hierarchy] returns keep their locations under
    ['location'], and the route asks for ['locations']. *)
Lemma find_group_never_finds (fs : filesystem) (path : string) (data : pyval) :
  find_group_outcome (assignments.find_group fs path data).
Proof.
  unfold find_group_outcome, assignments.find_group.
  destruct (get data "mac_address"); cbn [rbind]; [|eauto].
  destruct (get data "zone_id") as [zone_id|]; cbn [rbind]; [|eauto].
  destruct (get data "group_id") as [group_id|]; cbn [rbind]; [|eauto].
  destruct (get data "location_id"); cbn [rbind]; [|eauto].
  unfold load_hierarchy.
  destruct (load_network_devices fs path) as [net|]; cbn [rbind]; [|eauto].
  destruct (get_default net "zones" (PList [])) as [zones|]; cbn [rbind]; [|eauto].
  destruct (iter zones) as [zl|]; cbn [rbind]; [|eauto].
  destruct (mapM zone_view zl) as [out|] eqn:Z; cbn [rbind]; [|eauto].
  pose proof (mapM_forall _ _ _ _ zone_view_shaped Z) as Sz.
  cbn [assignments.item assoc String.eqb Ascii.eqb Bool.eqb rbind iter].
  destruct (assignments.next_with_id out zone_id) as [zone|] eqn:Nz; cbn [rbind]; [|eauto].
  destruct (truthy zone) eqn:Tz; cbn [negb]; [|eauto].
  destruct (next_with_id_found _ _ _ Nz) as [->|Hin]; [discriminate Tz|].
  rewrite Forall_forall in Sz.
  destruct (Sz _ Hin) as (id & name & description & groups & -> & Sg).
  cbn [assignments.item assoc String.eqb Ascii.eqb Bool.eqb rbind iter].
  destruct (assignments.next_with_id groups group_id) as [group|] eqn:Ng;
    cbn [rbind]; [|eauto].
  destruct (truthy group) eqn:Tg; cbn [negb]; [|eauto].
  destruct (next_with_id_found _ _ _ Ng) as [->|Hg]; [discriminate Tg|].
  rewrite Forall_forall in Sg.
  destruct (Sg _ Hg) as (gid & gname & gdescription & location & ->).
  cbn [assignments.item assoc String.eqb Ascii.eqb Bool.eqb rbind]. eauto.
Qed.

(** [assign_device] never assigns anything.  Whatever the file
    holds and whatever the request asks, the route answers 'Zone not
    found' or 'Group not found', or leaves with an exception; the code
    after the search for the location is never reached, and the store
    is left as it was. *)
Theorem assign_device_never_assigns
  (rest : pyval -> pyval * pyval * pyval -> io -> option (res pyval * io))
  (path : string) (data : pyval) (s : io) :
  exists r,
    assignments.assign_device rest path data s = Some (r, s)
    /\ (r = Ok (assignments.error_reply "Zone not found")
        \/ r = Ok (assignments.error_reply "Group not found")
        \/ exists e, r = Raise e).
Proof.
  unfold assignments.assign_device.
  pose proof (find_group_never_finds (files s) path data) as H.
  unfold find_group_outcome in H.
  destruct H as [H|[H|[e H]]]; rewrite H; eexists; (split; [reflexivity|]); eauto.
Qed.

End hierarchy_facts.

(* ================================================================== *)
(** ** Creating a group                                                *)
(* ================================================================== *)

Module group_facts.

Import file_helpers devices assignments groups inventory_props.
Local Open Scope list_scope.

Lemma fold_max_bounds (ids : list Z) :
  forall c, c <= fold_left Z.max ids c
            /\ Forall (fun x => x <= fold_left Z.max ids c) ids.
Proof.
  induction ids as [|x ids IH]; intros c; cbn [fold_left].
  - split; [lia | constructor].
  - destruct (IH (Z.max c x)) as [H1 H2]. split; [lia|].
    constructor; [lia | exact H2].
Qed.

Lemma max_loop_rendered (gs : list group_spec) :
  forall c, max_loop "group_id" (map render_group gs) (PInt c)
            = Ok (PInt (fold_left Z.max (map g_id gs) c)).
Proof.
  induction gs as [|g gs IH]; intros c; cbn [map max_loop fold_left]; [reflexivity|].
  unfold render_group at 1.
  cbn [get_default assoc String.eqb Ascii.eqb Bool.eqb rbind py_gt as_int].
  destruct (Z.ltb_spec c (g_id g)).
  - rewrite IH. now replace (Z.max c (g_id g)) with (g_id g) by lia.
  - rewrite IH. now replace (Z.max c (g_id g)) with c by lia.
Qed.

Lemma next_where_rendered (before after : list zone_spec) (z : zone_spec) :
  Forall (fun z' => z_id z' <> z_id z) before ->
  forall pos,
    next_where "zone_id" (z_id z) (map render_zone (before ++ z :: after)) pos
    = Ok (Some ((pos + List.length before)%nat, render_zone z)).
Proof.
  induction 1 as [|z' before Hz' _ IH]; intros pos; cbn [app map next_where].
  - unfold render_zone at 1.
    cbn [get get_default assoc String.eqb Ascii.eqb Bool.eqb rbind py_eq as_int].
    rewrite Z.eqb_refl. cbn [List.length]. now rewrite Nat.add_0_r.
  - unfold render_zone at 1.
    cbn [get get_default assoc String.eqb Ascii.eqb Bool.eqb rbind py_eq as_int].
    apply Z.eqb_neq in Hz'. rewrite Hz'. rewrite IH. cbn [List.length].
    now rewrite Nat.add_succ_r.
Qed.

Lemma replace_at_middle (front back : list pyval) (x v : pyval) :
  replace_at (List.length front) v (front ++ x :: back) = front ++ v :: back.
Proof. induction front as [|y front IH]; cbn [List.length app replace_at]; congruence. Qed.

(** The number [create_group] gives a new group of a zone whose
    groups are [gs]. *)
Lemma new_group_id_rendered (gs : list group_spec) :
  exists n,
    (if negb (truthy (PList (map render_group gs)))
     then Ok (PInt 1)
     else (gl <- iter (PList (map render_group gs)) ;;
           max_id <- max_of "group_id" gl ;; plus_one max_id)%res)
    = Ok (PInt n)
    /\ Forall (fun g => g_id g < n) gs
    /\ (gs = [] -> n = 1).
Proof.
  destruct gs as [|g gs].
  - exists 1. repeat split; constructor.
  - exists (fold_left Z.max (map g_id gs) (g_id g) + 1). split; [|split].
    + cbn [map truthy negb iter rbind max_of]. unfold render_group at 1.
      cbn [get_default assoc String.eqb Ascii.eqb Bool.eqb rbind].
      rewrite max_loop_rendered. reflexivity.
    + destruct (fold_max_bounds (map g_id gs) (g_id g)) as [H1 H2].
      constructor; [lia|]. rewrite Forall_map in H2.
      eapply Forall_impl; [|exact H2]. cbv beta. intros a Ha. lia.
    + discriminate.
Qed.

(** What [create_group] does to an inventory of the application's
    shape. *)
Lemma create_group_rendered
  (before after : list zone_spec) (z : zone_spec) (path : string) (data : pydict)
  (name : pyval) (s : io) :
  assoc path (files s) = Some (Doc (render (before ++ z :: after))) ->
  path_exists (files s) (lock_path_of path) = false ->
  Forall (fun z' => z_id z' <> z_id z) before ->
  assoc "name" data = Some name ->
  truthy name = true ->
  exists new_group s' n,
    create_group path (z_id z) (PDict data) s = Some (created new_group, s')
    /\ new_group_of (PDict data) (PInt n) = Ok new_group
    /\ Forall (fun g => g_id g < n) (z_groups z)
    /\ (z_groups z = [] -> n = 1)
    /\ assoc path (files s')
       = Some (Doc (PDict
               [("zones",
                 PList (map render_zone before
                        ++ PDict [("zone_id", PInt (z_id z)); ("zone_name", z_name z);
                                  ("zone_description", z_description z);
                                  ("groups",
                                   PList (map render_group (z_groups z) ++ [new_group]))]
                        :: map render_zone after))])).
Proof.
  intros F Hlock Hb Hn Tn.
  assert (Td : truthy (PDict data) = true) by (destruct data; [discriminate Hn | reflexivity]).
  destruct (new_group_id_rendered (z_groups z)) as (n & Hid & Hlt & H1).
  assert (Hnew : exists new_group, new_group_of (PDict data) (PInt n) = Ok new_group).
  { unfold new_group_of. cbn [get get_default rbind]. eexists. reflexivity. }
  destruct Hnew as (new_group & Hng).
  set (zone' := PDict [("zone_id", PInt (z_id z)); ("zone_name", z_name z);
                       ("zone_description", z_description z);
                       ("groups", PList (map render_group (z_groups z) ++ [new_group]))]).
  assert (Hz : zone_with_new_group (render_zone z) (PDict data) = Ok (zone', new_group)).
  { unfold zone_with_new_group. unfold render_zone at 1.
    cbn [get_default assoc String.eqb Ascii.eqb Bool.eqb]. cbn [rbind].
    rewrite Hid. cbn [rbind]. rewrite Hng. cbn [rbind]. unfold render_zone.
    destruct (z_groups z) as [|g gs] eqn:G; reflexivity. }
  set (document := PDict [("zones", PList (map render_zone before ++ zone'
                                           :: map render_zone after))]).
  assert (Hdoc : group_and_document (files s) path (z_id z) (PDict data)
                 = Ok (inr (new_group, document))).
  { unfold group_and_document. rewrite Td. cbn [negb get get_default rbind].
    rewrite Hn, Tn. cbn [negb rbind].
    unfold load_network_devices, path_exists. rewrite F. unfold render.
    cbn [rbind get_default assoc String.eqb Ascii.eqb Bool.eqb iter].
    rewrite (next_where_rendered before after z Hb 0). cbn [rbind Nat.add].
    assert (Tz : truthy (render_zone z) = true) by reflexivity.
    rewrite Tz, Hz. cbn [negb rbind fst snd dset String.eqb Ascii.eqb Bool.eqb].
    rewrite map_app. cbn [map].
    rewrite <- (length_map render_zone before) at 1. rewrite replace_at_middle.
    reflexivity. }
  destruct (write_facts.free_write_reads_back path document s Hlock) as (s' & E & F').
  exists new_group, s', n. split.
  { unfold create_group. now rewrite Hdoc, E. }
  repeat split; assumption.
Qed.

(** In an inventory of the application's shape, the group
    [create_group] adds to a zone gets an identifier above every group
    identifier of that zone, 1 when the zone has no group: identifiers
    stay distinct within the zone.  The reply is a 201 with the new
    group, and the file then holds the same inventory with the new
    group last in the first zone of that identifier. *)
Theorem created_group_gets_a_fresh_id
  (before after : list zone_spec) (z : zone_spec) (path : string) (data : pydict)
  (name : pyval) (s : io) :
  assoc path (files s) = Some (Doc (render (before ++ z :: after))) ->
  path_exists (files s) (lock_path_of path) = false ->
  Forall (fun z' => z_id z' <> z_id z) before ->
  assoc "name" data = Some name ->
  truthy name = true ->
  exists new_group s' n,
    create_group path (z_id z) (PDict data) s = Some (created new_group, s')
    /\ get new_group "group_id" = Ok (PInt n)
    /\ Forall (fun g => g_id g < n) (z_groups z)
    /\ (z_groups z = [] -> n = 1)
    /\ load_network_devices (files s') path
       = Ok (PDict
               [("zones",
                 PList (map render_zone before
                        ++ PDict [("zone_id", PInt (z_id z)); ("zone_name", z_name z);
                                  ("zone_description", z_description z);
                                  ("groups",
                                   PList (map render_group (z_groups z) ++ [new_group]))]
                        :: map render_zone after))]).
Proof.
  intros F Hlock Hb Hn Tn.
  destruct (create_group_rendered before after z path data name s F Hlock Hb Hn Tn)
    as (new_group & s' & n & E & Hng & Hlt & H1 & F').
  exists new_group, s', n. split; [exact E|]. split; [|split; [exact Hlt|split; [exact H1|]]].
  - unfold new_group_of in Hng. cbn [get get_default rbind] in Hng.
    injection Hng as <-. reflexivity.
  - unfold load_network_devices, path_exists. now rewrite F'.
Qed.

Lemma foldM_ext {A B} (f g : A -> B -> res A) (l : list B) :
  (forall a b, f a b = g a b) -> forall a, foldM f l a = foldM g l a.
Proof.
  intros H. induction l as [|b l IH]; intros a; cbn [foldM]; [reflexivity|].
  rewrite H. destruct (g a b); cbn [rbind]; [apply IH | reflexivity].
Qed.

(** Only the zone's identifier matters to the flattening of its
    groups. *)
Lemma flatten_group_same_zone (zone zone' : pyval) (i : device_manager.index) (g : pyval) :
  get zone "zone_id" = get zone' "zone_id" ->
  device_manager.flatten_group zone i g = device_manager.flatten_group zone' i g.
Proof.
  intros H. unfold device_manager.flatten_group.
  destruct (get_default g "location" (PList [])); cbn [rbind]; [|reflexivity].
  destruct (iter p); cbn [rbind]; [|reflexivity].
  apply foldM_ext. intros a l0. unfold device_manager.flatten_location.
  destruct (get_default l0 "device" (PList [])); cbn [rbind]; [|reflexivity].
  destruct (iter (por p0 (PList []))); cbn [rbind]; [|reflexivity].
  apply foldM_ext. intros a0 d. unfold device_manager.flatten_device.
  now rewrite H.
Qed.

(** Every default device is device 1.  When [create_group] adds a group
    to the last zone of an inventory that loads, the inventory still
    loads, and the identifier 1 now leads to the new group's default
    device: [get_device_ip] answers the address the request gave for
    it, [None] when it gave none, whatever device had the identifier 1
    before. *)
Theorem new_group_takes_over_device_one
  (before : list zone_spec) (z : zone_spec) (path : string) (data : pydict)
  (name : pyval) (s : io) :
  assoc path (files s) = Some (Doc (render (before ++ [z]))) ->
  path_exists (files s) (lock_path_of path) = false ->
  Forall (fun z' => z_id z' <> z_id z) before ->
  assoc "name" data = Some name ->
  truthy name = true ->
  fst (device_manager.load_devices_pure (files s) path) = true ->
  exists new_group s',
    create_group path (z_id z) (PDict data) s = Some (created new_group, s')
    /\ fst (device_manager.load_devices_pure (files s') path) = true
    /\ device_manager.get_device_ip
         (snd (device_manager.load_devices_pure (files s') path)) (PInt 1)
       = Ok (match assoc "default_device_ip" data with Some v => v | None => PNone end).
Proof.
  intros F Hlock Hb Hn Tn Hload.
  destruct (create_group_rendered before [] z path data name s F Hlock Hb Hn Tn)
    as (new_group & s' & n & E & Hng & _ & _ & F').
  exists new_group, s'. split; [exact E|].
  revert Hload.
  unfold device_manager.load_devices_pure, device_manager.read_and_flatten,
    load_json_file, path_exists.
  rewrite F, F'. unfold render.
  cbn [negb truthy contains get_default assoc String.eqb Ascii.eqb Bool.eqb rbind iter].
  rewrite map_app. cbn [map]. rewrite !engine_facts.foldM_app.
  destruct (foldM device_manager.flatten_zone (map render_zone before) [])
    as [i1|] eqn:E1; cbn [rbind foldM fst]; [|discriminate].
  unfold device_manager.flatten_zone. unfold render_zone at 1.
  cbn [get_default assoc String.eqb Ascii.eqb Bool.eqb rbind iter].
  rewrite engine_facts.foldM_app.
  destruct (foldM (device_manager.flatten_group (render_zone z))
              (map render_group (z_groups z)) i1) as [i2|] eqn:E2;
    cbn [rbind foldM fst]; [intros _ | discriminate].
  rewrite (foldM_ext _ (device_manager.flatten_group (render_zone z)))
    by (intros a b; apply flatten_group_same_zone; reflexivity).
  rewrite E2. cbn [rbind].
  unfold new_group_of in Hng. cbn [get get_default rbind] in Hng. injection Hng as <-.
  cbn. split; [reflexivity|].
  unfold device_manager.get_device_ip. cbn [device_manager.normalize_id int hash_key rbind].
  rewrite manager_facts.klookup_kset_same. reflexivity.
Qed.

Lemma new_group_takes_over_device_one_fixture :
  device_manager.get_device_ip
    (snd (device_manager.load_devices_pure (files fixture_store)
            "data/network_devices.json")) (PInt 1)
  = Ok (PStr "10.0.0.140")
  /\ exists new_group s',
       create_group "data/network_devices.json" 1 (PDict [("name", PStr "Shelf")])
         fixture_store
       = Some (created new_group, s')
       /\ device_manager.get_device_ip
            (snd (device_manager.load_devices_pure (files s')
                    "data/network_devices.json")) (PInt 1)
          = Ok PNone.
Proof.
  split; [reflexivity|].
  destruct (new_group_takes_over_device_one [] (mkZone 1 (PStr "Zone 1") (PStr "")
              [mkGroup 1 (PStr "Group 1") (PStr "")
                 [mkLocation 1 (PStr "Location 1") (PStr "")
                    [PDict [("device_id", PInt 1); ("device_ip", PStr "10.0.0.140")]]]])
              "data/network_devices.json" [("name", PStr "Shelf")] (PStr "Shelf")
              fixture_store eq_refl eq_refl (Forall_nil _) eq_refl eq_refl eq_refl)
    as (new_group & s' & E & _ & G).
  exists new_group, s'. split; [exact E | exact G].
Defined.

Lemma created_group_gets_a_fresh_id_fixture :
  exists new_group s',
    create_group "data/network_devices.json" 1 (PDict [("name", PStr "Shelf")])
      fixture_store
    = Some (created new_group, s')
    /\ get new_group "group_id" = Ok (PInt 2).
Proof.
  destruct (created_group_gets_a_fresh_id [] [] (mkZone 1 (PStr "Zone 1") (PStr "")
              [mkGroup 1 (PStr "Group 1") (PStr "")
                 [mkLocation 1 (PStr "Location 1") (PStr "")
                    [PDict [("device_id", PInt 1); ("device_ip", PStr "10.0.0.140")]]]])
              "data/network_devices.json" [("name", PStr "Shelf")] (PStr "Shelf")
              fixture_store eq_refl eq_refl (Forall_nil _) eq_refl eq_refl)
    as (new_group & s' & n & E & G & B & _).
  exists new_group, s'. split; [exact E|].
  assert (n = 2).
  { revert G. unfold create_group in E. vm_compute in E.
    injection E as <- _. vm_compute. congruence. }
  now subst n.
Defined.

End group_facts.

(* ================================================================== *)
(** ** The property order of a device                                  *)
(* ================================================================== *)

Module order_facts.

Import assignments app_order inventory_props.
Local Open Scope list_scope.

Section Steps.

Variable d : pydict.
Variable c : string -> bool.

Lemma copied_lookup (x : string) (fields : list string) :
  forall a,
    klookup (KStr x) (fold_left (copy_field d c) fields a)
    = if c x && existsb (String.eqb x) fields then Some (dget d x)
      else klookup (KStr x) a.
Proof.
  induction fields as [|k fields IH]; intros a; cbn [fold_left existsb].
  - now rewrite andb_false_r.
  - rewrite IH. unfold copy_field.
    destruct (String.eqb_spec x k) as [<-|Hne]; cbn [orb].
    + rewrite andb_true_r. destruct (c x) eqn:Cx; cbn [andb]; [|reflexivity].
      rewrite manager_facts.klookup_kset_same.
      now destruct (existsb (String.eqb x) fields).
    + destruct (c x && existsb (String.eqb x) fields); [reflexivity|].
      destruct (c k); [|reflexivity].
      apply manager_facts.klookup_kset_other. congruence.
Qed.

Lemma copied_keys (fields : list string) :
  NoDup fields ->
  forall a,
    (forall k, In k fields -> c k = true -> ~ In (KStr k) (map fst a)) ->
    map fst (fold_left (copy_field d c) fields a)
    = map fst a ++ map KStr (filter c fields).
Proof.
  induction 1 as [|k fields Hk Hn IH]; intros a Ha; cbn [fold_left filter map].
  - now rewrite app_nil_r.
  - unfold copy_field at 2. destruct (c k) eqn:Ck.
    + assert (Hl : klookup (KStr k) a = None).
      { destruct (klookup (KStr k) a) eqn:L; [|reflexivity].
        apply manager_facts.klookup_in in L. now elim (Ha k (or_introl eq_refl) Ck). }
      rewrite (registry_facts.kset_absent _ _ _ Hl). rewrite IH.
      * rewrite map_app. cbn [map fst]. now rewrite <- app_assoc.
      * intros k' Hin Ck'. rewrite map_app, in_app_iff. cbn [map fst In].
        intros [H|[H|[]]]; [now apply (Ha k' (or_intror Hin) Ck')|].
        injection H as ->. contradiction.
    + apply IH. intros k' Hin. apply Ha. now right.
Qed.

End Steps.

Lemma first_loop_copies (d : pydict) (fields : list string) :
  forall a,
    foldM (known_first (PDict d)) fields a
    = Ok (fold_left
            (copy_field d (fun k => match assoc k d with Some _ => true | None => false end))
            fields a).
Proof.
  induction fields as [|k fields IH]; intros a; cbn [foldM fold_left]; [reflexivity|].
  unfold known_first at 1, copy_field at 2, dget. cbn [contains rbind at_key].
  destruct (assoc k d); cbn [rbind]; apply IH.
Qed.

Lemma second_loop_copies (d : pydict) (fields : list string) :
  (forall k, In k fields -> assoc k d <> None) ->
  forall a,
    foldM (remaining_next (PDict d)) (map PStr fields) a
    = Ok (fold_left
            (copy_field d (fun k => negb (existsb (String.eqb k) device_order)))
            fields a).
Proof.
  induction fields as [|k fields IH]; intros H a; cbn [map foldM fold_left]; [reflexivity|].
  unfold remaining_next at 1, copy_field at 2, dget.
  assert (I : in_order (PStr k) = existsb (String.eqb k) device_order) by reflexivity.
  rewrite I. destruct (existsb (String.eqb k) device_order); cbn [negb rbind].
  - apply IH. intros k' Hk'. apply H. now right.
  - cbn [at_key hash_key].
    destruct (assoc k d) eqn:E; [|now elim (H k (or_introl eq_refl))].
    cbn [rbind]. apply IH. intros k' Hk'. apply H. now right.
Qed.

Lemma assoc_of_key {V} (d : list (string * V)) (k : string) :
  In k (map fst d) <-> assoc k d <> None.
Proof.
  induction d as [|[k0 v0] d IH]; cbn [map fst In assoc].
  - split; [contradiction | congruence].
  - destruct (String.eqb_spec k k0) as [->|Hne].
    + split; [discriminate | now left].
    + rewrite <- IH. split; [intros [H|H]; [congruence | exact H] | now right].
Qed.

Lemma existsb_eqb_in (x : string) (l : list string) :
  existsb (String.eqb x) l = true <-> In x l.
Proof.
  rewrite existsb_exists. split.
  - intros (y & Hy & E). apply String.eqb_eq in E. now subst y.
  - intros H. exists x. split; [exact H | apply String.eqb_refl].
Qed.

(** [normalize_device] loses nothing and invents nothing.  On a device
    record it returns every property of the record with its value and
    no other; the properties it knows come first, in its fixed order,
    and the others follow in the order the record had them. *)
Theorem normalize_device_keeps_every_field (d : pydict) :
  NoDup (map fst d) ->
  exists r,
    normalize_device (PDict d) = Ok r
    /\ (forall k, klookup (KStr k) r = assoc k d)
    /\ map fst r = map KStr (known_fields d ++ other_fields d).
Proof.
  intros Hn. unfold normalize_device.
  rewrite first_loop_copies. cbn [rbind iter].
  replace (map (fun kv : string * pyval => PStr (fst kv)) d) with (map PStr (map fst d))
    by (now rewrite map_map).
  rewrite second_loop_copies by (intros k Hk; now apply assoc_of_key).
  eexists. split; [reflexivity|]. split.
  - intros k. rewrite !copied_lookup. cbn [klookup]. unfold dget.
    destruct (assoc k d) as [v|] eqn:E; cbn [andb].
    + destruct (existsb (String.eqb k) device_order) eqn:O; cbn [negb andb]; [reflexivity|].
      assert (I : existsb (String.eqb k) (map fst d) = true).
      { apply existsb_eqb_in. apply assoc_of_key. congruence. }
      now rewrite I.
    + destruct (existsb (String.eqb k) device_order) eqn:O; cbn [negb andb]; [reflexivity|].
      assert (I : existsb (String.eqb k) (map fst d) = false).
      { destruct (existsb (String.eqb k) (map fst d)) eqn:X; [|reflexivity].
        apply existsb_eqb_in, assoc_of_key in X. congruence. }
      now rewrite I.
  - rewrite copied_keys; [|exact Hn|].
    + rewrite copied_keys; [|repeat constructor; cbn; intuition discriminate|intros ? ? ? []].
      cbn [map app]. now rewrite map_app.
    + intros k Hk Ck.
      rewrite copied_keys; [|repeat constructor; cbn; intuition discriminate|intros ? ? ? []].
      cbn [map app]. rewrite in_map_iff. intros (k' & E & Hin). injection E as ->.
      apply filter_In in Hin. destruct Hin as [Hin _].
      apply existsb_eqb_in in Hin. rewrite Hin in Ck. discriminate Ck.
Qed.

Lemma normalize_device_keeps_every_field_record :
  exists r,
    normalize_device
      (PDict [("device_brightness", PInt 128); ("device_ip", PStr "10.0.0.140");
              ("device_id", PInt 1)])
    = Ok r
    /\ map fst r = [KStr "device_id"; KStr "device_ip"; KStr "device_brightness"].
Proof.
  destruct (normalize_device_keeps_every_field
              [("device_brightness", PInt 128); ("device_ip", PStr "10.0.0.140");
               ("device_id", PInt 1)]) as (r & E & _ & K).
  - repeat constructor; cbn; intuition discriminate.
  - exists r. split; [exact E | exact K].
Defined.

End order_facts.

(* ================================================================== *)
(** ** The client: what it sends and how often                         *)
(* ================================================================== *)

Module client_facts.

Import address_props.
Local Open Scope list_scope.

Lemma clamp_byte_octet (n : Z) :
  octet (esp32_setters.clamp_byte n) /\ (octet n -> esp32_setters.clamp_byte n = n).
Proof. unfold octet, esp32_setters.clamp_byte. lia. Qed.

(** The client's setters send only bytes.  [set_brightness]
    sends a level from 0 to 255, the level asked for when that is in
    range.  [set_color] sends three channels, and a fourth exactly when
    the white value is above 0; every channel sent is from 0 to 255,
    and channels asked for in that range are sent unchanged. *)
Theorem client_setters_send_only_bytes
  (W : Type) (self : esp32_client.client W) (ip_address : pyval) (w : W) :
  (forall brightness,
     exists level,
       esp32_client.set_brightness self ip_address brightness w
       = esp32_client.set_device_state self ip_address (PDict [("bri", PInt level)]) w
       /\ octet level /\ (octet brightness -> level = brightness))
  /\ (forall r g b white,
        exists cs,
          esp32_setters.set_color self ip_address r g b white w
          = esp32_client.set_device_state self ip_address (color_payload cs) w
          /\ Forall octet cs
          /\ List.length cs = (if (0 <? white)%Z then 4%nat else 3%nat)
          /\ (octet r -> octet g -> octet b -> firstn 3 cs = [r; g; b])
          /\ (octet white -> 0 < white -> cs = firstn 3 cs ++ [white])).
Proof.
  split.
  - intros brightness. exists (esp32_setters.clamp_byte brightness).
    split; [reflexivity | apply clamp_byte_octet].
  - intros r g b white.
    destruct (clamp_byte_octet r) as [Or Er], (clamp_byte_octet g) as [Og Eg],
             (clamp_byte_octet b) as [Ob Eb], (clamp_byte_octet white) as [Ow Ew].
    unfold esp32_setters.set_color, color_payload.
    destruct (0 <? white) eqn:Hw;
      [exists [esp32_setters.clamp_byte r; esp32_setters.clamp_byte g;
               esp32_setters.clamp_byte b; esp32_setters.clamp_byte white]
      |exists [esp32_setters.clamp_byte r; esp32_setters.clamp_byte g;
               esp32_setters.clamp_byte b]];
      (split; [reflexivity|]);
      cbn [map app List.length firstn];
      (split; [repeat (apply Forall_cons; [assumption|]); apply Forall_nil|]);
      (split; [reflexivity|]); split.
    + intros Hr Hg Hb. now rewrite Er, Eg, Eb.
    + intros Ho _. now rewrite Ew.
    + intros Hr Hg Hb. now rewrite Er, Eg, Eb.
    + intros _ Hp. apply Z.ltb_ge in Hw. lia.
Qed.

Lemma request_loop_exchanges
  (W : Type) (http : esp32_client.request -> W -> esp32_client.http_outcome * W)
  (rq : esp32_client.request) (attempts : nat) :
  forall (w : W) (n : nat),
    (n + (if Nat.eqb attempts 0 then 0 else 1)
     <= snd (snd (esp32_client.make_request_loop (counted http) attempts rq (w, n)))
     <= n + attempts)%nat.
Proof.
  induction attempts as [|a IH]; intros w n; cbn [esp32_client.make_request_loop Nat.eqb].
  - cbn [snd]. lia.
  - assert (C : counted http rq (w, n) = (fst (http rq w), (snd (http rq w), S n)))
      by (unfold counted; cbn [fst snd]; now destruct (http rq w)).
    rewrite C. destruct (http rq w) as [[| | | |v|t] w1]; cbn [fst snd]; try lia;
      specialize (IH w1 (S n)); destruct (Nat.eqb a 0); lia.
Qed.

(** On every network, a request costs at least one exchange and at
    most three; an HTTP error status or an unexpected failure ends it
    after the first exchange, with [None]; and a reply that is not JSON
    is returned as [{"success": True, "response": text}]. *)
Theorem make_request_takes_one_to_three_exchanges
  (W : Type) (http : esp32_client.request -> W -> esp32_client.http_outcome * W)
  (rq : esp32_client.request) (w : W) (n : nat) :
  (n < snd (snd (esp32_client._make_request (counted http) rq (w, n))) <= n + 3)%nat
  /\ (forall o w1,
        http rq w = (o, w1) ->
        o = esp32_client.HHTTPError \/ o = esp32_client.HOtherError ->
        esp32_client._make_request (counted http) rq (w, n) = (PNone, (w1, S n)))
  /\ (forall text w1,
        http rq w = (esp32_client.HText text, w1) ->
        esp32_client._make_request (counted http) rq (w, n)
        = (PDict [("success", PBool true); ("response", PStr text)], (w1, S n))).
Proof.
  unfold esp32_client._make_request, esp32_client.max_retries.
  split; [|split].
  - pose proof (request_loop_exchanges W http rq 3 w n) as H.
    cbn [Nat.eqb] in H. lia.
  - intros o w1 E Ho. cbn [esp32_client.make_request_loop].
    assert (C : counted http rq (w, n) = (o, (w1, S n)))
      by (unfold counted; cbn [fst snd]; now rewrite E).
    rewrite C. now destruct Ho as [->| ->].
  - intros text w1 E. cbn [esp32_client.make_request_loop].
    assert (C : counted http rq (w, n) = (esp32_client.HText text, (w1, S n)))
      by (unfold counted; cbn [fst snd]; now rewrite E).
    now rewrite C.
Qed.

End client_facts.
